(** * labeller_web: the dataset project model and the YOLO label codec

    A shallow embedding of [app.py] (the FastAPI back end of the image
    labeller) and of the parts of the Python standard library it calls:
    [str] methods, [posixpath], the file-system calls of [os], [shutil]
    and [glob].

    Conventions of the embedding.
    - A Python [str] is a [string]; its characters are code points below
      256. The content of a file is a [string] of bytes; the text read
      from a label file is a list of code points, decoded from the bytes
      as UTF-8 in the chunks in which the text layer of [io] reads them.
    - The file system is a finite map from absolute paths, kept as lists of
      components, to nodes; a path string is resolved lexically, as
      [os.path.normpath] does (the model has no symbolic links).
    - A Python function that can raise returns a [res]; a function that
      also changes the file system or the project state is a state
      transformer that returns the state reached when the exception left it.
    - Python [float] is an interface ([PyFloat]); the claims about control
      flow hold for every implementation of it, the numeric ones are
      proved for [Binary64], the IEEE 754 double precision numbers with
      rounding to nearest, ties to even. *)

From Stdlib Require Import ZArith QArith Qabs Qround Qpower Lia Lqa.
From Stdlib Require Import Ascii String.
From stdpp Require Import gmap strings list fin_maps sorting.


(* ================================================================== *)
(** * Exceptions and results *)

Inductive exn : Type :=
| HTTPException (status_code : nat) (detail : string)
| FileNotFoundError
| FileExistsError
| NotADirectoryError
| IsADirectoryError
| ShutilError
| ValueError
| UnicodeDecodeError
| OverflowError
| ZeroDivisionError
| UnidentifiedImageError.

Inductive res (A : Type) : Type :=
| Ok (a : A)
| Raise (e : exn).
Arguments Ok {A} a.
Arguments Raise {A} e.

Definition is_ok {A} (r : res A) : bool :=
  match r with Ok _ => true | Raise _ => false end.

(** Computations over a state [S] that may raise; the state survives the
    exception, as the files written before a Python exception do. *)
Definition M (S A : Type) : Type := S -> res A * S.

Global Instance M_ret {S} : MRet (M S) := fun A a s => (Ok a, s).
Global Instance M_bind {S} : MBind (M S) := fun A B f m s =>
  match m s with
  | (Ok a, s') => f a s'
  | (Raise e, s') => (Raise e, s')
  end.
Definition raise {S A} (e : exn) : M S A := fun s => (Raise e, s).
Definition gets {S A} (f : S -> A) : M S A := fun s => (Ok (f s), s).
Definition modify {S} (f : S -> S) : M S unit := fun s => (Ok tt, f s).

(** [res] is also the monad of the functions that only read. *)
Global Instance res_ret : MRet res := fun A a => Ok a.
Global Instance res_bind : MBind res := fun A B f r =>
  match r with
  | Ok a => f a
  | Raise e => Raise e
  end.

Definition lift_res {S A} (r : res A) : M S A := fun s => (r, s).

(** The computation returns, rather than raises, from state [s]. *)
Definition succeeds {S A} (m : M S A) (s : S) : bool := is_ok (fst (m s)).

(** [if test(): body] where the test reads the state *)
Definition when_ {S} (test : S -> bool) (body : M S unit) : M S unit :=
  fun s => if test s then body s else (Ok tt, s).

(** [for x in xs: body x] *)
Fixpoint for_each {S A} (xs : list A) (body : A -> M S unit) : M S unit :=
  match xs with
  | [] => mret tt
  | x :: xs' => body x;; for_each xs' body
  end.

(* ================================================================== *)
(** * Python [str] methods *)

Module Py.

Definition slash : ascii := "/"%char.
Definition backslash : ascii := "\"%char.
Definition dot : ascii := "."%char.
Definition LF : ascii := "010"%char.
Definition CR : ascii := "013"%char.

(** [s.split(c)] for a one-character separator. *)
Fixpoint split_on (c : ascii) (s : string) : list string :=
  match s with
  | "" => [""]
  | String a s' =>
      if Ascii.eqb a c then "" :: split_on c s'
      else match split_on c s' with
           | x :: xs => String a x :: xs
           | [] => [String a ""]
           end
  end.

(** [sep.join(xs)] *)
Fixpoint join (sep : string) (xs : list string) : string :=
  match xs with
  | [] => ""
  | [x] => x
  | x :: xs' => x +:+ sep +:+ join sep xs'
  end.

(** [s.rstrip(c)] for a one-character set. *)
Fixpoint rstrip (c : ascii) (s : string) : string :=
  match s with
  | "" => ""
  | String a s' =>
      match rstrip c s' with
      | "" => if Ascii.eqb a c then "" else String a ""
      | r => String a r
      end
  end.

Fixpoint map_chars (f : ascii -> ascii) (s : string) : string :=
  match s with
  | "" => ""
  | String a s' => String (f a) (map_chars f s')
  end.

(** [s.replace(a, b)] for one-character [a] and [b]. *)
Definition replace (a b : ascii) (s : string) : string :=
  map_chars (fun c => if Ascii.eqb c a then b else c) s.

(** [str.lower] on code points below 256: A-Z, and the Latin-1 capitals
    U+00C0..U+00DE except the multiplication sign U+00D7. *)
Definition lower_char (a : ascii) : ascii :=
  let n := N_of_ascii a in
  if ((65 <=? n) && (n <=? 90) || (192 <=? n) && (n <=? 222) && negb (n =? 215))%N
  then ascii_of_N (n + 32) else a.
Definition lower (s : string) : string := map_chars lower_char s.

Definition endswith (s suffix : string) : bool :=
  let n := String.length s in
  let m := String.length suffix in
  (m <=? n)%nat && String.eqb (String.substring (n - m) m s) suffix.

Definition endswith_any (s : string) (suffixes : list string) : bool :=
  existsb (endswith s) suffixes.

Definition contains_char (c : ascii) (s : string) : bool :=
  existsb (Ascii.eqb c) (list_ascii_of_string s).

(** [str.isspace] on code points below 256. *)
Definition is_space (a : ascii) : bool :=
  let n := N_of_ascii a in
  ((9 <=? n) && (n <=? 13) || (28 <=? n) && (n <=? 32) || (n =? 133) || (n =? 160))%N.

(** [s.lstrip()] and [s.rstrip()] without argument: white space is cut
    off the end. *)
Fixpoint lstrip (s : string) : string :=
  match s with
  | String a s' => if is_space a then lstrip s' else s
  | "" => ""
  end.

Fixpoint rstrip_space (s : string) : string :=
  match s with
  | "" => ""
  | String a s' =>
      match rstrip_space s' with
      | "" => if is_space a then "" else String a ""
      | t => String a t
      end
  end.

(** [s.strip()] *)
Definition strip (s : string) : string := rstrip_space (lstrip s).

End Py.

(* ================================================================== *)
(** * Text files: UTF-8 and the text layer of [io] *)

(** Text read from a file: a sequence of code points. *)
Definition text : Type := list N.

(** The bytes of a file's content. *)
Definition bytes_of (data : string) : list N :=
  map N_of_ascii (list_ascii_of_string data).

Module codecs.

(** [s.encode("utf-8")] for a [str] of code points below 256. *)
Fixpoint utf_8_encode (s : string) : string :=
  match s with
  | "" => ""
  | String a s' =>
      let n := N_of_ascii a in
      if (n <? 128)%N then String a (utf_8_encode s')
      else String (ascii_of_N (192 + n / 64))
             (String (ascii_of_N (128 + n mod 64)) (utf_8_encode s'))
  end.

Definition between (lo hi b : N) : bool := ((lo <=? b) && (b <=? hi))%N.

(** One byte more for the strict incremental UTF-8 decoder. [pending]
    holds the bytes of a sequence that is not complete yet; the answer is
    the bytes still pending and the code point a complete sequence
    stands for. A byte that cannot continue a well-formed sequence
    (overlong forms, surrogates and code points above U+10FFFF
    included) raises as soon as it is seen. *)
Definition utf_8_step (pending : list N) (b : N)
    : res (list N * option N) :=
  match pending with
  | [] =>
      if (b <? 128)%N then Ok ([], Some b)
      else if between 194 244 b then Ok ([b], None)
      else Raise UnicodeDecodeError
  | [b0] =>
      if (b0 <? 224)%N then
        if between 128 191 b
        then Ok ([], Some ((b0 - 192) * 64 + (b - 128))%N)
        else Raise UnicodeDecodeError
      else
        let lo := (if b0 =? 224 then 160 else if b0 =? 240 then 144 else 128)%N in
        let hi := (if b0 =? 237 then 159 else if b0 =? 244 then 143 else 191)%N in
        if between lo hi b then Ok ([b0; b], None)
        else Raise UnicodeDecodeError
  | [b0; b1] =>
      if between 128 191 b then
        if (b0 <? 240)%N
        then Ok ([], Some ((b0 - 224) * 4096 + (b1 - 128) * 64 + (b - 128))%N)
        else Ok ([b0; b1; b], None)
      else Raise UnicodeDecodeError
  | [b0; b1; b2] =>
      if between 128 191 b
      then Ok ([], Some ((b0 - 240) * 262144 + (b1 - 128) * 4096
                         + (b2 - 128) * 64 + (b - 128))%N)
      else Raise UnicodeDecodeError
  | _ => Raise UnicodeDecodeError
  end.

End codecs.

Module Unicode.

Definition LF : N := 10%N.
Definition CR : N := 13%N.

(** [str.isspace] of one character: the white space of [str.split] and
    [str.strip]. *)
Definition isspace (c : N) : bool :=
  ((9 <=? c) && (c <=? 13) || (28 <=? c) && (c <=? 32)
   || (c =? 133) || (c =? 160) || (c =? 5760)
   || (8192 <=? c) && (c <=? 8202) || (c =? 8232) || (c =? 8233)
   || (c =? 8239) || (c =? 8287) || (c =? 12288))%N.

(** [s.split()]: the maximal runs of characters that are not white
    space. [line.strip().split()] yields the same list. *)
Fixpoint split (s : text) : list text :=
  match s with
  | [] => []
  | c :: s' =>
      if isspace c then split s'
      else match s' with
           | [] => [[c]]
           | b :: _ =>
               if isspace b then [c] :: split s'
               else match split s' with
                    | x :: xs => (c :: x) :: xs
                    | [] => [[c]]
                    end
           end
  end.

(** A [str] of code points below 256, as text. *)
Definition of_string (s : string) : text := bytes_of s.

(** What [float] parses when it is given a [str]: the characters up to
    U+007E stay, white space becomes a space, a decimal digit of
    another script its ASCII digit, and the string ends in a question
    mark at the first character that is none of these. [decimal] is the
    digit value of a character that the character database knows as a
    decimal digit. *)
Fixpoint to_ascii (decimal : N -> option N) (s : text) : string :=
  match s with
  | [] => ""
  | c :: s' =>
      if (c <? 127)%N then String (ascii_of_N c) (to_ascii decimal s')
      else if isspace c then String " " (to_ascii decimal s')
      else match decimal c with
           | Some d => String (ascii_of_N (48 + d)) (to_ascii decimal s')
           | None => "?"
           end
  end.

End Unicode.

Module io.

(** The text layer asks the buffered reader for this many bytes at a
    time. *)
Definition CHUNK_SIZE : nat := N.to_nat 8192.

Fixpoint chunks_of (fuel size : nat) (bytes : list N) : list (list N) :=
  match fuel, bytes with
  | _, [] => []
  | O, _ => [bytes]
  | S fuel', _ => take size bytes :: chunks_of fuel' size (drop size bytes)
  end.

(** The chunks in which the bytes of a file are decoded. *)
Definition chunks (bytes : list N) : list (list N) :=
  chunks_of (length bytes) CHUNK_SIZE bytes.

(** What a text file opened for reading with [newline=None] carries from
    one chunk to the next: the bytes of an incomplete UTF-8 sequence, a
    carriage return whose line is not closed before the next character
    is seen, and the characters of the line that is not complete. *)
Record reader : Type := mkReader {
  undecoded : list N;
  pendingcr : bool;
  unfinished : text
}.

Definition start : reader := mkReader [] false [].

(** One decoded character more: the lines it completes, each with its
    terminator, which is always LF (CR LF and a lone CR are translated). *)
Definition accept (c : N) (cr : bool) (line : text)
    : list text * bool * text :=
  if cr then
    if (c =? Unicode.LF)%N then ([line ++ [Unicode.LF]], false, [])
    else if (c =? Unicode.CR)%N then ([line ++ [Unicode.LF]], true, [])
    else ([line ++ [Unicode.LF]], false, [c])
  else if (c =? Unicode.CR)%N then ([], true, line)
  else if (c =? Unicode.LF)%N then ([line ++ [Unicode.LF]], false, [])
  else ([], false, line ++ [c]).

(** One chunk more: the lines that are complete once it is decoded. The
    whole chunk is decoded before its first line is handed out, so an
    ill-formed byte anywhere in it raises before any of its lines is
    seen. *)
Fixpoint feed (r : reader) (bytes : list N) : res (list text * reader) :=
  match bytes with
  | [] => Ok ([], r)
  | b :: rest =>
      '(pending, c) ← codecs.utf_8_step (undecoded r) b;
      let '(lines, cr, line) :=
        match c with
        | Some c => accept c (pendingcr r) (unfinished r)
        | None => ([], pendingcr r, unfinished r)
        end in
      '(lines', r') ← feed (mkReader pending cr line) rest;
      Ok (lines ++ lines', r')
  end.

(** The end of the file: an incomplete sequence raises; a pending
    carriage return closes its line; a last line without terminator is
    handed out as it is. *)
Definition finish (r : reader) : res (list text) :=
  match undecoded r with
  | _ :: _ => Raise UnicodeDecodeError
  | [] =>
      Ok (if pendingcr r then [unfinished r ++ [Unicode.LF]]
          else match unfinished r with
               | [] => []
               | _ => [unfinished r]
               end)
  end.

(** The lines of a content that is read in one piece. *)
Definition lines (bytes : list N) : res (list text) :=
  '(ls, r) ← feed start bytes;
  rest ← finish r;
  Ok (ls ++ rest).

End io.

(* ================================================================== *)
(** * [posixpath] *)

Module posixpath.

Definition isabs (p : string) : bool :=
  match p with String a _ => Ascii.eqb a Py.slash | "" => false end.

(** [p[:i], p[i:]] for [i = p.rfind('/') + 1]; [None] when there is no
    slash (then [i = 0]). The head keeps its final slash. *)
Fixpoint rpartition (p : string) : option (string * string) :=
  match p with
  | "" => None
  | String a p' =>
      match rpartition p' with
      | Some (h, t) => Some (String a h, t)
      | None => if Ascii.eqb a Py.slash then Some (String a "", p') else None
      end
  end.

Definition all_slashes (s : string) : bool :=
  forallb (Ascii.eqb Py.slash) (list_ascii_of_string s).

(** [os.path.split] *)
Definition split (p : string) : string * string :=
  match rpartition p with
  | None => ("", p)
  | Some (h, t) => (if all_slashes h then h else Py.rstrip Py.slash h, t)
  end.

Definition dirname (p : string) : string := fst (split p).
Definition basename (p : string) : string := snd (split p).

(** [os.path.join(a, b)] *)
Definition join (a b : string) : string :=
  if isabs b then b
  else if decide (a = "") then b
  else if Py.endswith a "/" then a +:+ b
  else a +:+ "/" +:+ b.

(** [p.rfind('.')] split, as a pair (before the last dot, from the last
    dot on). *)
Fixpoint rpartition_dot (p : string) : option (string * string) :=
  match p with
  | "" => None
  | String a p' =>
      match rpartition_dot p' with
      | Some (h, t) => Some (String a h, t)
      | None => if Ascii.eqb a Py.dot then Some ("", p) else None
      end
  end.

Definition all_dots (s : string) : bool :=
  forallb (Ascii.eqb Py.dot) (list_ascii_of_string s).

(** [os.path.splitext]: the extension starts at the last dot of the last
    component, unless only dots precede it there. *)
Definition splitext (p : string) : string * string :=
  let (h, name) := match rpartition p with
                   | Some (h, t) => (h, t)
                   | None => ("", p)
                   end in
  match rpartition_dot name with
  | Some (stem, ext) =>
      if all_dots stem then (p, "") else (h +:+ stem, ext)
  | None => (p, "")
  end.

(** One step of lexical normalisation of an absolute path: the stack of
    components so far and the next component. *)
Definition step (stack : list string) (comp : string) : list string :=
  if decide (comp = "" ∨ comp = ".") then stack
  else if decide (comp = "..") then removelast stack
  else stack ++ [comp].

Definition components (p : string) : list string :=
  fold_left step (Py.split_on Py.slash p) [].

Definition initial_slashes (p : string) : string :=
  match p with
  | String a (String b (String c _)) =>
      if Ascii.eqb a Py.slash && Ascii.eqb b Py.slash && negb (Ascii.eqb c Py.slash)
      then "//" else "/"
  | String a (String b "") =>
      if Ascii.eqb a Py.slash && Ascii.eqb b Py.slash then "//" else "/"
  | _ => "/"
  end.

(** [os.path.normpath] on an absolute path (the only use here, through
    [abspath]): exactly two leading slashes are kept. *)
Definition normpath_abs (p : string) : string :=
  initial_slashes p +:+ Py.join "/" (components p).

End posixpath.

(* ================================================================== *)
(** * The file system and the calls of [os], [shutil] and [glob] *)

Inductive node : Type :=
| File (data : string)
| Dir.

Global Instance node_eq_dec : EqDecision node.
Proof. solve_decision. Defined.

(** The current directory (an absolute, normalised path, as [os.getcwd]
    returns it) and the tree: the node at each absolute path, a path being
    the list of its components from the root. The root itself is always a
    directory and has no entry. *)
Record FS : Type := mkFS {
  getcwd : string;
  tree : gmap (list string) node
}.

Definition set_tree (fs : FS) (t : gmap (list string) node) : FS :=
  mkFS (getcwd fs) t.

Module os.

Definition absolute (fs : FS) (p : string) : string :=
  if posixpath.isabs p then p else posixpath.join (getcwd fs) p.

(** [os.path.abspath] *)
Definition abspath (fs : FS) (p : string) : string :=
  posixpath.normpath_abs (absolute fs p).

(** The entry a path string names; the empty path names nothing. *)
Definition resolve (fs : FS) (p : string) : option (list string) :=
  if decide (p = "") then None
  else Some (posixpath.components (absolute fs p)).

Definition node_at (fs : FS) (k : list string) : option node :=
  match k with
  | [] => Some Dir
  | _ => tree fs !! k
  end.

Definition stat (fs : FS) (p : string) : option node :=
  k ← resolve fs p; node_at fs k.

Definition isdir (fs : FS) (p : string) : bool :=
  match stat fs p with Some Dir => true | _ => false end.

Definition isfile (fs : FS) (p : string) : bool :=
  match stat fs p with Some (File _) => true | _ => false end.

Definition exists_ (fs : FS) (p : string) : bool :=
  match stat fs p with Some _ => true | None => false end.

(** [os.path.getsize] *)
Definition getsize (fs : FS) (p : string) : res nat :=
  match stat fs p with
  | Some (File data) => Ok (String.length data)
  | Some Dir => Ok 4096%nat
  | None => Raise FileNotFoundError
  end.

(** The name of [k'] when it is an entry directly under [k]. *)
Definition child_name (k k' : list string) : option string :=
  match reverse k' with
  | n :: r => if decide (reverse r = k) then Some n else None
  | [] => None
  end.

Definition children (fs : FS) (k : list string) : gset string :=
  list_to_set (omap (child_name k) (map fst (map_to_list (tree fs)))).

(** [os.listdir]; the order of the names is the one the system gives,
    here the order of the set's enumeration. *)
Definition listdir (fs : FS) (p : string) : res (list string) :=
  match resolve fs p with
  | None => Raise FileNotFoundError
  | Some k =>
      match node_at fs k with
      | Some Dir => Ok (elements (children fs k))
      | Some (File _) => Raise NotADirectoryError
      | None => Raise FileNotFoundError
      end
  end.

(** The non-empty prefixes of a path, shortest first. *)
Definition prefixes (k : list string) : list (list string) :=
  map (fun n => take n k) (seq 1 (length k)).

Definition is_file_at (fs : FS) (k : list string) : bool :=
  match node_at fs k with Some (File _) => true | _ => false end.

(** A directory at [k] and at each of its ancestors. *)
Definition mkdirs (k : list string) (t : gmap (list string) node)
    : gmap (list string) node :=
  foldr (fun k' t' => <[k' := Dir]> t') t (prefixes k).

(** [os.makedirs(p, exist_ok=True)]: every missing directory on the way
    is created; a regular file on the way, or at [p], is an error. *)
Definition makedirs (p : string) : M FS unit := fun fs =>
  match resolve fs p with
  | None => (Raise FileNotFoundError, fs)
  | Some k =>
      match find (is_file_at fs) (prefixes k) with
      | Some k' =>
          (Raise (if decide (k' = k) then FileExistsError
                  else NotADirectoryError), fs)
      | None =>
          (Ok tt, set_tree fs (mkdirs k (tree fs)))
      end
  end.

(** What stops a regular file from being put at [k]: the parent must be
    an existing directory and [k] must not be a directory. *)
Definition creat_error (fs : FS) (k : list string) : option exn :=
  match k with
  | [] => Some IsADirectoryError
  | _ =>
      match node_at fs (removelast k) with
      | None => Some FileNotFoundError
      | Some (File _) => Some NotADirectoryError
      | Some Dir =>
          match node_at fs k with
          | Some Dir => Some IsADirectoryError
          | _ => None
          end
      end
  end.

(** [open(p, "wb").write(data)] *)
Definition write_bytes (p data : string) : M FS unit := fun fs =>
  match resolve fs p with
  | None => (Raise FileNotFoundError, fs)
  | Some k =>
      match creat_error fs k with
      | Some e => (Raise e, fs)
      | None => (Ok tt, set_tree fs (<[k := File data]> (tree fs)))
      end
  end.

(** [open(p, "w", encoding="utf-8").write(data)]; a line feed is written
    as it is. *)
Definition write_text (p data : string) : M FS unit :=
  write_bytes p (codecs.utf_8_encode data).

(** [open(p, "rb").read()]: the bytes of a regular file *)
Definition read_bytes (fs : FS) (p : string) : res string :=
  match stat fs p with
  | Some (File data) => Ok data
  | Some Dir => Raise IsADirectoryError
  | None => Raise FileNotFoundError
  end.

(** [os.remove] *)
Definition remove (p : string) : M FS unit := fun fs =>
  match resolve fs p with
  | None => (Raise FileNotFoundError, fs)
  | Some k =>
      match node_at fs k with
      | Some (File _) => (Ok tt, set_tree fs (delete k (tree fs)))
      | Some Dir => (Raise IsADirectoryError, fs)
      | None => (Raise FileNotFoundError, fs)
      end
  end.

(** [os.rename] of a regular file: an existing regular file at the
    destination is replaced. *)
Definition rename_file (src dst : string) : M FS unit := fun fs =>
  match resolve fs src, resolve fs dst with
  | Some ks, Some kd =>
      match node_at fs ks with
      | Some (File data) =>
          match creat_error fs kd with
          | Some e => (Raise e, fs)
          | None =>
              (Ok tt, set_tree fs (<[kd := File data]> (delete ks (tree fs))))
          end
      | Some Dir => (Raise IsADirectoryError, fs)
      | None => (Raise FileNotFoundError, fs)
      end
  | _, _ => (Raise FileNotFoundError, fs)
  end.

End os.

Module shutil.

(** Where [shutil.move] and [shutil.copy2] put a file: inside [dst] when
    [dst] is a directory. [move] refuses a name already taken there. *)
Definition into (dst src : string) : string :=
  posixpath.join dst (posixpath.basename (Py.rstrip Py.slash src)).

(** [shutil.move(src, dst)] where [src] is a regular file, the only way
    app.py calls it (each call is behind [os.path.isfile(src)]); a
    directory source is not modelled and answers [IsADirectoryError]. *)
Definition move (src dst : string) : M FS unit := fun fs =>
  if os.isdir fs dst then
    if os.exists_ fs (into dst src) then (Raise ShutilError, fs)
    else os.rename_file src (into dst src) fs
  else os.rename_file src dst fs.

(** [shutil.copy2(src, dst)]: the bytes are copied as they are. *)
Definition copy2 (src dst : string) : M FS unit := fun fs =>
  match os.read_bytes fs src with
  | Raise e => (Raise e, fs)
  | Ok data =>
      os.write_bytes (if os.isdir fs dst then into dst src else dst) data fs
  end.

End shutil.

Module glob.

(** [glob.has_magic] *)
Definition has_magic (s : string) : bool :=
  Py.contains_char "*" s || Py.contains_char "?" s || Py.contains_char "[" s.

Definition is_hidden (name : string) : bool :=
  match name with String a _ => Ascii.eqb a Py.dot | "" => false end.

(** [fnmatch] of a name against the pattern [*.*] *)
Definition matches_star_dot_star (name : string) : bool :=
  Py.contains_char Py.dot name.

(** [glob.glob(pattern)] for [pattern = d + "/*.*"]. [d] is cut as
    [os.path.split] cuts the pattern; when it has no metacharacter the
    result is each visible entry of [d] whose name has a dot, joined to
    [d]; a directory that cannot be listed gives no match. When [d] has
    metacharacters the matching of [d] itself against the tree is left
    to [magic], the library's pattern matcher, which is not modelled. *)
Definition glob_star_dot_star
    (magic : FS -> string -> list string) (fs : FS) (d : string)
    : list string :=
  let dir := posixpath.dirname (d +:+ "/*.*") in
  if has_magic dir then magic fs (d +:+ "/*.*")
  else match os.listdir fs dir with
       | Raise _ => []
       | Ok names =>
           map (posixpath.join dir)
               (filter (fun n => negb (is_hidden n) && matches_star_dot_star n)
                       names)
       end.

End glob.

(* ================================================================== *)
(** * Python [float], as far as the codec uses it *)


Class PyFloat (F : Type) : Type := {
  (** [float(s)] on a string without surrounding white space;
      [None] stands for [ValueError] *)
  float_of_str : string -> option F;
  (** [int(x)]: truncation; raises on a NaN or an infinity *)
  int_of_float : F -> res Z;
  (** the conversion of an [int] operand in mixed arithmetic, which
      raises [OverflowError] for an [int] that is too large *)
  float_of_int : Z -> res F;
  fadd : F -> F -> F;
  fsub : F -> F -> F;
  fmul : F -> F -> F;
  (** [x / y] for [y] other than zero *)
  fdiv : F -> F -> F;
  (** [f"{x:.6f}"] *)
  format_6f : F -> string
}.

(* ================================================================== *)
(** * Decimal numerals *)

Module Decimal10.

Definition digit_char (d : Z) : ascii := ascii_of_N (48 + Z.to_N d).

Definition digit_val (a : ascii) : option Z :=
  let n := N_of_ascii a in
  if ((48 <=? n) && (n <=? 57))%N then Some (Z.of_N n - 48)%Z else None.

Definition chars (ds : list Z) : string :=
  string_of_list_ascii (map digit_char ds).

(** The number a list of digits denotes, most significant digit first. *)
Definition value (ds : list Z) : Z :=
  fold_left (fun acc d => 10 * acc + d)%Z ds 0%Z.

Definition is_digit (d : Z) : Prop := (0 <= d < 10)%Z.

(** The last [k] decimal digits of [n]. *)
Fixpoint digits_fixed (k : nat) (n : Z) : list Z :=
  match k with
  | O => []
  | S k' => digits_fixed k' (n / 10) ++ [n mod 10]%Z
  end.

Fixpoint strip_zeros (ds : list Z) : list Z :=
  match ds with
  | d :: (_ :: _) as rest => if Z.eqb d 0 then strip_zeros rest else ds
  | _ => ds
  end.

(** The digits of a natural number, without leading zeros. *)
Definition digits (n : Z) : list Z :=
  strip_zeros (digits_fixed (S (Z.to_nat (Z.log2 n))) n).

End Decimal10.

(** [str(n)] for an [int] *)
Definition str_of_int (z : Z) : string :=
  (if (z <? 0)%Z then "-" else "") +:+ Decimal10.chars (Decimal10.digits (Z.abs z)).

(** A decoded rectangle: [[x1, y1, x2, y2, int(c)]]. *)
Record Rect (F : Type) : Type := mkRect {
  x1 : F; y1 : F; x2 : F; y2 : F; cid : Z
}.
Arguments mkRect {F}.
Arguments x1 {F}. Arguments y1 {F}. Arguments x2 {F}. Arguments y2 {F}.
Arguments cid {F}.

(** The JSON manifest: one [Item] per image. *)
Record Annotation (F : Type) : Type := mkAnnotation {
  class_id : Z;
  bbox_xyxy : list F;
  bbox_yolo : list F
}.
Arguments mkAnnotation {F}.

Record Item (F : Type) : Type := mkItem {
  item_image : string;
  item_split : string;
  item_width : Z;
  item_height : Z;
  item_annotations : list (Annotation F)
}.
Arguments mkItem {F}.

(** The collaborators that app.py calls and this development does not
    model: the pattern matcher of [glob] for a directory with
    metacharacters, the image header reader behind [PIL.Image.open] (the
    width and height of an image file, from its bytes), [json.dump], and
    the character database, which tells the decimal digits beyond ASCII
    that [float] accepts ([unicodedata.decimal], asked for code points
    from U+007F on). *)
Class Extern (F : Type) : Type := {
  glob_magic : FS -> string -> list string;
  image_size : string -> option (Z * Z);
  json_dumps : list (Item F) -> string;
  unicodedata_decimal : N -> option N
}.

(* ================================================================== *)
(** * app.py *)

Definition ALLOWED_EXTS : list string := [".jpg"; ".jpeg"; ".png"].
Definition SPLITS : list string := ["train"; "val"; "test"].

Record ProjectState : Type := mkState {
  root : string;
  mode : string;
  split : string;
  images : list string
}.

(** The process-wide variables of app.py and the file system. *)
Record World : Type := mkWorld {
  state : ProjectState;
  class_names : list string;
  files : FS
}.

Definition on_files {A} (m : M FS A) : M World A := fun w =>
  let (r, fs') := m (files w) in
  (r, mkWorld (state w) (class_names w) fs').

Definition set_state (f : ProjectState -> ProjectState) : M World unit :=
  modify (fun w => mkWorld (f (state w)) (class_names w) (files w)).

Definition set_root (v : string) (st : ProjectState) : ProjectState :=
  mkState v (mode st) (split st) (images st).
Definition set_mode (v : string) (st : ProjectState) : ProjectState :=
  mkState (root st) v (split st) (images st).
Definition set_split (v : string) (st : ProjectState) : ProjectState :=
  mkState (root st) (mode st) v (images st).
Definition set_images (v : list string) (st : ProjectState) : ProjectState :=
  mkState (root st) (mode st) (split st) v.

Record OpenProjectReq : Type := mkOpenProjectReq {
  open_path : string;
  open_mode : string
}.

Record OpenProjectResp : Type := mkOpenProjectResp {
  resp_root : string;
  resp_mode : string;
  resp_split : string;
  resp_images : list string;
  resp_count : nat;
  resp_class_names : list string
}.

Record RemoveReq : Type := mkRemoveReq {
  remove_image_path : string;
  remove_split : string
}.

Record RestoreReq : Type := mkRestoreReq {
  restore_split : string;
  restore_filename : string
}.

(** The body of the answers of [/api/remove] and [/api/restore]:
    [{"ok": True, "images": ..., "removed" / "restored": ...}]. *)
Record MoveResp : Type := mkMoveResp {
  move_images : list string;
  move_filename : string
}.

Record ExportReq : Type := mkExportReq {
  output_dir : string;
  fmt : string
}.

Record ExportResp : Type := mkExportResp {
  export_count : nat;
  export_output : string
}.

Section App.

Context {F : Type} `{PyFloat F} `{Extern F}.

Definition list_images (fs : FS) (path : string) : list string :=
  merge_sort String.le
    (filter (fun f => Py.endswith_any (Py.lower f) ALLOWED_EXTS)
            (glob.glob_star_dot_star glob_magic fs path)).

Definition norm (fs : FS) (path : string) : string :=
  Py.replace Py.backslash Py.slash (os.abspath fs path).

(** [ok(c)] inside [yolo_root] *)
Definition ok (fs : FS) (c : string) : bool :=
  existsb (fun s => os.isdir fs (c +:+ "/images/" +:+ s)) SPLITS.

Definition truthy (s : string) : bool := negb (String.eqb s "").

Definition yolo_root (fs : FS) (path : string) : option string :=
  let p := Py.rstrip Py.slash (norm fs path) in
  let cands := [p; norm fs (posixpath.dirname p);
                norm fs (posixpath.dirname (posixpath.dirname p))] in
  match find (fun c => truthy c && ok fs c) cands with
  | Some c => Some c
  | None =>
      match os.listdir fs p with
      | Raise _ => None
      | Ok names =>
          find (fun cp => os.isdir fs cp && ok fs cp)
               (map (fun child => norm fs (posixpath.join p child)) names)
      end
  end.

Definition ensure_labels (root : string) : M FS unit :=
  for_each SPLITS (fun s =>
    when_ (fun fs => os.isdir fs (root +:+ "/images/" +:+ s))
          (os.makedirs (root +:+ "/labels/" +:+ s))).

(** [x / n] for an [int] divisor [n]: the divisor is converted, then
    tested. *)
Definition div_int (x : F) (n : Z) : res F :=
  y ← float_of_int n;
  if Z.eqb n 0 then Raise ZeroDivisionError else Ok (fdiv x y).

(** [x * n] for an [int] factor [n] *)
Definition mul_int (x : F) (n : Z) : res F :=
  y ← float_of_int n; Ok (fmul x y).

(** [float(s)] for a piece [s] of a line *)
Definition float_of_text (s : text) : option F :=
  float_of_str (Unicode.to_ascii unicodedata_decimal s).

(** One line of a label file: [None] when the line is skipped. *)
Definition decode_line (line : text) (w h : Z) : res (option (Rect F)) :=
  match Unicode.split line with
  | [sc; scx; scy; sbw; sbh] =>
      match float_of_text sc, float_of_text scx, float_of_text scy,
            float_of_text sbw, float_of_text sbh with
      | Some c, Some cx, Some cy, Some bw, Some bh =>
          x1 ← (g ← div_int bw 2; mul_int (fsub cx g) w);
          y1 ← (g ← div_int bh 2; mul_int (fsub cy g) h);
          x2 ← (g ← div_int bw 2; mul_int (fadd cx g) w);
          y2 ← (g ← div_int bh 2; mul_int (fadd cy g) h);
          n ← int_of_float c;
          Ok (Some (mkRect x1 y1 x2 y2 n))
      | _, _, _, _, _ => Raise ValueError
      end
  | _ => Ok None
  end.

Fixpoint decode_lines (lines : list text) (w h : Z) : res (list (Rect F)) :=
  match lines with
  | [] => Ok []
  | line :: rest =>
      r ← decode_line line w h;
      rects ← decode_lines rest w h;
      Ok (option_list r ++ rects)
  end.

(** [for line in f: ...], chunk by chunk: the lines of a chunk are
    decoded once the whole chunk is, and before the next one is read. *)
Fixpoint decode_chunks (chunks : list (list N)) (r : io.reader) (w h : Z)
    : res (list (Rect F)) :=
  match chunks with
  | [] => lines ← io.finish r; decode_lines lines w h
  | c :: rest =>
      '(lines, r') ← io.feed r c;
      rects ← decode_lines lines w h;
      more ← decode_chunks rest r' w h;
      Ok (rects ++ more)
  end.

Definition read_yolo_labels (fs : FS) (label_path : string) (w h : Z)
    : res (list (Rect F)) :=
  if negb (os.isfile fs label_path) then Ok []
  else
    size ← os.getsize fs label_path;
    if Nat.eqb size 0 then Ok []
    else
      data ← os.read_bytes fs label_path;
      decode_chunks (io.chunks (bytes_of data)) io.start w h.

(** The four normalised fields of a rectangle, in the order app.py
    computes them. *)
Definition to_yolo (x1 y1 x2 y2 : F) (w h : Z) : res (F * F * F * F) :=
  cx ← (s ← div_int (fadd x1 x2) 2; div_int s w);
  cy ← (s ← div_int (fadd y1 y2) 2; div_int s h);
  bw ← div_int (fsub x2 x1) w;
  bh ← div_int (fsub y2 y1) h;
  Ok (cx, cy, bw, bh).

Definition encode_rect (r : list F) (w h : Z) : res string :=
  match r with
  | [x1; y1; x2; y2; cid] =>
      '(cx, cy, bw, bh) ← to_yolo x1 y1 x2 y2 w h;
      n ← int_of_float cid;
      Ok (str_of_int n +:+ " " +:+ format_6f cx +:+ " " +:+ format_6f cy
          +:+ " " +:+ format_6f bw +:+ " " +:+ format_6f bh
          +:+ String Py.LF "")
  | _ => Raise ValueError
  end.

Fixpoint encode_rects (rects : list (list F)) (w h : Z) : res (list string) :=
  match rects with
  | [] => Ok []
  | r :: rest =>
      line ← encode_rect r w h;
      lines ← encode_rects rest w h;
      Ok (line :: lines)
  end.

Definition save_yolo_labels (label_path : string) (rects : list (list F))
    (w h : Z) : M FS unit :=
  os.makedirs (posixpath.dirname label_path);;
  match rects with
  | [] =>
      when_ (fun fs => os.exists_ fs label_path) (os.remove label_path)
  | _ =>
      lines ← lift_res (encode_rects rects w h);
      os.write_text label_path (Py.join "" lines)
  end.

(** ** [/api/project/open] *)

Definition structured_mode (mode : string) : bool :=
  bool_decide (mode = "yolo") || bool_decide (mode = "rfdetr").

(** The chain of [if]/[elif] that chooses [rootp]. *)
Definition pick_root (fs : FS) (mode path : string) : string :=
  let detected_root := default "" (yolo_root fs path) in
  if structured_mode mode && truthy detected_root then detected_root
  else if structured_mode mode && os.isdir fs (path +:+ "/images") then path
  else if bool_decide (mode = "images") && truthy detected_root
       then detected_root
  else path.

(** [{s: list_images(...) for s in SPLITS if isdir(...)}], a [dict] in
    insertion order. *)
Definition split_files (fs : FS) (rootp : string)
    : list (string * list string) :=
  omap (fun s =>
          if os.isdir fs (rootp +:+ "/images/" +:+ s)
          then Some (s, list_images fs (rootp +:+ "/images/" +:+ s))
          else None)
       SPLITS.

Definition non_empty (sf : list (string * list string)) : list string :=
  map fst (filter (fun kv => negb (bool_decide (snd kv = []))) sf).

Definition choose_split (sf : list (string * list string)) : string :=
  if bool_decide ("train" ∈ non_empty sf) then "train"
  else match non_empty sf with
       | s :: _ => s
       | [] => match sf with
               | (s, _) :: _ => s
               | [] => "train"
               end
       end.

(** [d.get(k, [])] *)
Fixpoint dict_get {V} (k : string) (d : list (string * list V)) : list V :=
  match d with
  | [] => []
  | (k', v) :: d' => if decide (k = k') then v else dict_get k d'
  end.

Definition open_project (req : OpenProjectReq) : M World OpenProjectResp :=
  fs ← gets files;
  let path := norm fs (open_path req) in
  if negb (os.isdir fs path)
  then raise (HTTPException 400 "Folder not found")
  else
    let rootp := pick_root fs (open_mode req) path in
    set_state (set_root rootp);;
    set_state (set_mode (open_mode req));;
    (if os.isdir fs (rootp +:+ "/images") then
       on_files (ensure_labels rootp);;
       fs1 ← gets files;
       let sf := split_files fs1 rootp in
       set_state (set_split (choose_split sf));;
       set_state (set_images (dict_get (choose_split sf) sf))
     else
       set_state (set_split "train");;
       set_state (set_images (list_images fs rootp));;
       on_files (os.makedirs (rootp +:+ "/labels/train")));;
    st ← gets state;
    names ← gets class_names;
    mret (mkOpenProjectResp (root st) (mode st) (split st) (images st)
                            (length (images st)) names).

(** ** [/api/remove] and [/api/restore] *)

(** [if os.path.isdir(images/split): state.images = list_images(...)] *)
Definition refresh_images (split : string) : M World unit := fun w =>
  let dir := root (state w) +:+ "/images/" +:+ split in
  if os.isdir (files w) dir
  then (Ok tt, mkWorld (set_images (list_images (files w) dir) (state w))
                       (class_names w) (files w))
  else (Ok tt, w).

Definition LABEL_EXTS : list string := [".txt"; ".json"].

(** The directories of the layout, for a root and a split. *)
Definition images_dir (rootp split : string) : string :=
  rootp +:+ "/images/" +:+ split.
Definition labels_dir (rootp split : string) : string :=
  rootp +:+ "/labels/" +:+ split.
Definition rem_img_dir (rootp split : string) : string :=
  rootp +:+ "/removed/" +:+ split +:+ "/images".
Definition rem_lbl_dir (rootp split : string) : string :=
  rootp +:+ "/removed/" +:+ split +:+ "/labels".

(** The file-system part of [remove_image], after its two guards:
    [img] is the normalised path of an existing file. *)
Definition remove_files (rootp img split : string) : M FS unit :=
  let filename := posixpath.basename img in
  let base := fst (posixpath.splitext filename) in
  os.makedirs (rem_img_dir rootp split);;
  os.makedirs (rem_lbl_dir rootp split);;
  shutil.move img (rem_img_dir rootp split +:+ "/" +:+ filename);;
  for_each LABEL_EXTS (fun ext =>
    let src_lbl := labels_dir rootp split +:+ "/" +:+ base +:+ ext in
    when_ (fun fs => os.isfile fs src_lbl)
          (shutil.move src_lbl
             (rem_lbl_dir rootp split +:+ "/" +:+ base +:+ ext))).

Definition remove_image (req : RemoveReq) : M World MoveResp :=
  st ← gets state;
  if negb (truthy (root st))
  then raise (HTTPException 400 "No project loaded")
  else
    fs ← gets files;
    let img := norm fs (remove_image_path req) in
    if negb (os.isfile fs img)
    then raise (HTTPException 404 "Image not found")
    else
      on_files (remove_files (root st) img (remove_split req));;
      refresh_images (remove_split req);;
      st' ← gets state;
      mret (mkMoveResp (images st') (posixpath.basename img)).

(** The file-system part of [restore_image], after its two guards. *)
Definition restore_files (rootp split filename : string) : M FS unit :=
  let base := fst (posixpath.splitext filename) in
  os.makedirs (images_dir rootp split);;
  os.makedirs (labels_dir rootp split);;
  shutil.move (rem_img_dir rootp split +:+ "/" +:+ filename)
              (images_dir rootp split +:+ "/" +:+ filename);;
  for_each LABEL_EXTS (fun ext =>
    let rem_lbl := rem_lbl_dir rootp split +:+ "/" +:+ base +:+ ext in
    when_ (fun fs => os.isfile fs rem_lbl)
          (shutil.move rem_lbl
             (labels_dir rootp split +:+ "/" +:+ base +:+ ext))).

Definition restore_image (req : RestoreReq) : M World MoveResp :=
  st ← gets state;
  if negb (truthy (root st))
  then raise (HTTPException 400 "No project loaded")
  else
    fs ← gets files;
    if negb (os.isfile fs (rem_img_dir (root st) (restore_split req)
                           +:+ "/" +:+ restore_filename req))
    then raise (HTTPException 404 "Removed file not found")
    else
      on_files (restore_files (root st) (restore_split req)
                              (restore_filename req));;
      refresh_images (restore_split req);;
      st' ← gets state;
      mret (mkMoveResp (images st') (restore_filename req)).

(** ** [/api/export] *)

Definition label_of (rootp split img : string) : string :=
  rootp +:+ "/labels/" +:+ split +:+ "/"
  +:+ fst (posixpath.splitext (posixpath.basename img)) +:+ ".txt".

(** The [(split, img, lbl)] triples. *)
Definition export_entries (fs : FS) (rootp : string)
    : list (string * string * string) :=
  if os.isdir fs (rootp +:+ "/images") then
    flat_map (fun split =>
        if os.isdir fs (rootp +:+ "/images/" +:+ split)
        then map (fun img => (split, img, label_of rootp split img))
                 (list_images fs (rootp +:+ "/images/" +:+ split))
        else [])
      SPLITS
  else
    map (fun img => ("train", img, label_of rootp "train" img))
        (list_images fs rootp).

Definition export_yolo_entry (out_dir : string)
    (entry : string * string * string) : M FS unit :=
  let '(split, img, lbl) := entry in
  os.makedirs (out_dir +:+ "/images/" +:+ split);;
  os.makedirs (out_dir +:+ "/labels/" +:+ split);;
  shutil.copy2 img (out_dir +:+ "/images/" +:+ split +:+ "/"
                    +:+ posixpath.basename img);;
  when_ (fun fs => os.isfile fs lbl)
        (shutil.copy2 lbl (out_dir +:+ "/labels/" +:+ split +:+ "/"
                           +:+ posixpath.basename lbl)).

(** [with Image.open(img) as im: w, h = im.width, im.height] *)
Definition image_open (img : string) : M FS (Z * Z) := fun fs =>
  match os.read_bytes fs img with
  | Raise e => (Raise e, fs)
  | Ok data =>
      match image_size data with
      | Some wh => (Ok wh, fs)
      | None => (Raise UnidentifiedImageError, fs)
      end
  end.

Fixpoint annotations (rects : list (Rect F)) (w h : Z)
    : res (list (Annotation F)) :=
  match rects with
  | [] => Ok []
  | r :: rest =>
      '(cx, cy, bw, bh) ← to_yolo (x1 r) (y1 r) (x2 r) (y2 r) w h;
      anns ← annotations rest w h;
      Ok (mkAnnotation (cid r) [x1 r; y1 r; x2 r; y2 r] [cx; cy; bw; bh]
          :: anns)
  end.

(** [by_split.setdefault(split, []).append(item)] *)
Fixpoint dict_append {V} (k : string) (v : V) (d : list (string * list V))
    : list (string * list V) :=
  match d with
  | [] => [(k, [v])]
  | (k', vs) :: d' =>
      if decide (k = k') then (k', vs ++ [v]) :: d'
      else (k', vs) :: dict_append k v d'
  end.

Fixpoint export_json_entries (out_dir : string)
    (entries : list (string * string * string))
    (by_split : list (string * list (Item F)))
    : M FS (list (string * list (Item F))) :=
  match entries with
  | [] => mret by_split
  | (split, img, lbl) :: rest =>
      os.makedirs (out_dir +:+ "/images/" +:+ split);;
      os.makedirs (out_dir +:+ "/annotations");;
      shutil.copy2 img (out_dir +:+ "/images/" +:+ split +:+ "/"
                        +:+ posixpath.basename img);;
      wh ← image_open img;
      rects ← (fun fs => (read_yolo_labels fs lbl (fst wh) (snd wh), fs));
      anns ← lift_res (annotations rects (fst wh) (snd wh));
      export_json_entries out_dir rest
        (dict_append split
           (mkItem (posixpath.basename img) split (fst wh) (snd wh) anns)
           by_split)
  end.

Definition export_all (req : ExportReq) : M World ExportResp :=
  st ← gets state;
  if negb (truthy (root st))
  then raise (HTTPException 400 "No project loaded")
  else
    fs ← gets files;
    let out_dir := norm fs (output_dir req) in
    on_files (os.makedirs out_dir);;
    fs1 ← gets files;
    let entries := export_entries fs1 (root st) in
    (if bool_decide (fmt req = "YOLO (.txt)") then
       on_files (for_each entries (export_yolo_entry out_dir))
     else
       by_split ← on_files (export_json_entries out_dir entries []);
       on_files (for_each by_split (fun kv =>
         os.write_text (out_dir +:+ "/annotations/" +:+ fst kv +:+ ".json")
                       (json_dumps (snd kv)))));;
    mret (mkExportResp (length entries) out_dir).

End App.

(* ================================================================== *)
(** * Decimal numerals and rationals

    The exact value of a decimal literal of [float], the rounding of a
    rational to the nearest integer with ties to even, the text of the
    nearest multiple of 10^-6 ([.6f]), and truncation. *)

Module Numerals.

(** [s] cut at its first character satisfying [p] *)
Fixpoint split_first (p : ascii -> bool) (s : string)
    : string * option string :=
  match s with
  | "" => ("", None)
  | String a s' =>
      if p a then ("", Some s')
      else let (h, t) := split_first p s' in (String a h, t)
  end.

Definition is_e (a : ascii) : bool :=
  Ascii.eqb a "e"%char || Ascii.eqb a "E"%char.
Definition is_dot (a : ascii) : bool := Ascii.eqb a Py.dot.

Definition strip_sign (s : string) : bool * string :=
  match s with
  | String a s' =>
      if Ascii.eqb a "-"%char then (true, s')
      else if Ascii.eqb a "+"%char then (false, s')
      else (false, s)
  | "" => (false, s)
  end.

(** [digit (["_"] digit)*]: the digits, when the string is of this
    form; [after_digit] tells that the previous character was a digit. *)
Fixpoint digitpart_go (after_digit : bool) (s : string) : option (list Z) :=
  match s with
  | "" => if after_digit then Some [] else None
  | String a s' =>
      match Decimal10.digit_val a with
      | Some d => cons d <$> digitpart_go true s'
      | None =>
          if Ascii.eqb a "_"%char && after_digit
          then digitpart_go false s' else None
      end
  end.
Definition digitpart (s : string) : option (list Z) := digitpart_go false s.

(** A digit part that may be missing altogether. *)
Definition digitpart_opt (s : string) : option (list Z) :=
  if decide (s = "") then Some [] else digitpart s.

Definition exponent (s : option string) : option Z :=
  match s with
  | None => Some 0%Z
  | Some e =>
      let (neg, ds) := strip_sign e in
      v ← digitpart ds;
      Some (if neg then (- Decimal10.value v)%Z else Decimal10.value v)
  end.

(** The digits before and after the point; one of the two may be empty,
    and without a point the integer part may not. *)
Definition mantissa (s : string) : option (list Z * list Z) :=
  match split_first is_dot s with
  | (ip, None) => ds ← digitpart ip; Some (ds, [])
  | (ip, Some fp) =>
      i ← digitpart_opt ip;
      f ← digitpart_opt fp;
      if decide (i = [] ∧ f = []) then None else Some (i, f)
  end.

Definition of_str (s : string) : option Q :=
  let (neg, body) := strip_sign s in
  let (m, e) := split_first is_e body in
  '(i, f) ← mantissa m;
  x ← exponent e;
  let q := Qred (inject_Z (Decimal10.value (i ++ f))
                 * Qpower 10 (x - Z.of_nat (length f)))%Q in
  Some (if neg then Qred (- q) else q).

(** Rounding of a rational that is not negative to the nearest integer,
    ties to even. *)
Definition round_half_even (q : Q) : Z :=
  let n := Qfloor q in
  match (q - inject_Z n ?= 1 # 2)%Q with
  | Lt => n
  | Gt => (n + 1)%Z
  | Eq => if Z.even n then n else (n + 1)%Z
  end.

Definition to_str_6f (q : Q) : string :=
  let n := round_half_even (Qabs q * 1000000)%Q in
  (if Qlt_le_dec q 0 then "-" else "")
  +:+ Decimal10.chars (Decimal10.digits (n / 1000000))
  +:+ "."
  +:+ Decimal10.chars (Decimal10.digits_fixed 6 (n mod 1000000)).

(** [int(x)]: truncation towards zero *)
Definition to_int (q : Q) : Z := Z.quot (Qnum q) (Z.pos (Qden q)).

End Numerals.

(* ================================================================== *)
(** * Binary64: Python's [float]

    The double precision numbers of IEEE 754, as CPython has them on
    the usual platforms. A finite number is [(-1)^neg * m * 2^e]; every
    operation gives the exact result rounded to the nearest number that
    can be represented, ties to the even mantissa, and an infinity when
    the rounded result is 2^1024 or more. *)

Module Binary64.

Inductive float64 : Type :=
| Finite (neg : bool) (m e : Z)
| Infinity (neg : bool)
| NaN.

Definition magnitude (m e : Z) : Q := (inject_Z m * Qpower 2 e)%Q.

(** The number a finite [float] is; 0 for the others. *)
Definition value (x : float64) : Q :=
  match x with
  | Finite neg m e => if neg then (- magnitude m e)%Q else magnitude m e
  | _ => 0%Q
  end.

Definition is_finite (x : float64) : bool :=
  match x with Finite _ _ _ => true | _ => false end.

(** A finite [float] with a mantissa of at most 53 bits and an exponent
    in the range of the format. *)
Definition representable (x : float64) : bool :=
  match x with
  | Finite _ m e =>
      (0 <=? m)%Z && (m <? 2 ^ 53)%Z && (-1074 <=? e)%Z && (e <=? 971)%Z
  | _ => false
  end.

(** The integer [k] with [2^k <= q < 2^(k+1)], for [q > 0]. *)
Definition ilog2 (q : Q) : Z :=
  let k := (Z.log2 (Qnum q) - Z.log2 (Z.pos (Qden q)))%Z in
  if Qle_bool (Qpower 2 k) q then k else (k - 1)%Z.

(** Rounding of the magnitude [q >= 0] of a result with sign [neg]. *)
Definition round (neg : bool) (q : Q) : float64 :=
  if Qle_bool q 0 then Finite neg 0 0
  else
    let e := Z.max (ilog2 q - 52) (-1074) in
    let m := Numerals.round_half_even (q * Qpower 2 (- e))%Q in
    if Qle_bool (Qpower 2 1024) (magnitude m e) then Infinity neg
    else if (m =? 2 ^ 53)%Z then Finite neg (2 ^ 52) (e + 1)
    else Finite neg m e.

(** Rounding of a number; zero is [+0.0]. *)
Definition of_Q (q : Q) : float64 :=
  round (negb (Qle_bool 0 q)) (Qabs q).

Definition sign (x : float64) : bool :=
  match x with
  | Finite neg _ _ | Infinity neg => neg
  | NaN => false
  end.

Definition opp (x : float64) : float64 :=
  match x with
  | Finite neg m e => Finite (negb neg) m e
  | Infinity neg => Infinity (negb neg)
  | NaN => NaN
  end.

(** [x + y]. A sum that is exactly zero is [-0.0] only when both terms
    are [-0.0]. *)
Definition add (x y : float64) : float64 :=
  match x, y with
  | NaN, _ | _, NaN => NaN
  | Infinity s, Infinity t => if Bool.eqb s t then Infinity s else NaN
  | Infinity s, Finite _ _ _ => Infinity s
  | Finite _ _ _, Infinity t => Infinity t
  | Finite s _ _, Finite t _ _ =>
      let q := (value x + value y)%Q in
      if Qeq_bool q 0 then Finite (s && t) 0 0 else of_Q q
  end.

Definition sub (x y : float64) : float64 := add x (opp y).

Definition is_zero (x : float64) : bool := Qeq_bool (value x) 0.

(** [x * y]; the sign of the result is the product of the signs. *)
Definition mul (x y : float64) : float64 :=
  match x, y with
  | NaN, _ | _, NaN => NaN
  | Infinity s, Infinity t => Infinity (xorb s t)
  | Infinity s, Finite t _ _ =>
      if is_zero y then NaN else Infinity (xorb s t)
  | Finite s _ _, Infinity t =>
      if is_zero x then NaN else Infinity (xorb s t)
  | Finite s _ _, Finite t _ _ =>
      round (xorb s t) (Qabs (value x * value y))
  end.

(** [x / y]. A zero divisor makes Python raise [ZeroDivisionError]; the
    program divides through [div_int] only, which raises before it
    comes here, so the answer given for a zero divisor is never used. *)
Definition div (x y : float64) : float64 :=
  match x, y with
  | NaN, _ | _, NaN => NaN
  | Infinity _, Infinity _ => NaN
  | Infinity s, Finite t _ _ => Infinity (xorb s t)
  | Finite s _ _, Infinity t => Finite (xorb s t) 0 0
  | Finite s _ _, Finite t _ _ =>
      if is_zero y then NaN
      else round (xorb s t) (Qabs (value x / value y))
  end.

(** [int(x)] *)
Definition to_int (x : float64) : res Z :=
  match x with
  | Finite _ _ _ => Ok (Numerals.to_int (value x))
  | Infinity _ => Raise OverflowError
  | NaN => Raise ValueError
  end.

(** The literals [inf], [infinity] and [nan], in any case and with an
    optional sign. *)
Definition special (s : string) : option float64 :=
  let (neg, body) := Numerals.strip_sign s in
  let name := Py.map_chars Py.lower_char body in
  if String.eqb name "inf" || String.eqb name "infinity" then Some (Infinity neg)
  else if String.eqb name "nan" then Some NaN
  else None.

(** [float(s)]: the number nearest to the value of the literal. *)
Definition of_str (s : string) : option float64 :=
  match Numerals.of_str s with
  | Some q => Some (round (fst (Numerals.strip_sign s)) (Qabs q))
  | None => special s
  end.

(** [f"{x:.6f}"]: the nearest multiple of 10^-6 of the number itself. *)
Definition str_6f (x : float64) : string :=
  match x with
  | Finite neg m e =>
      if neg && Qeq_bool (magnitude m e) 0 then "-0.000000"
      else Numerals.to_str_6f (value x)
  | Infinity neg => if neg then "-inf" else "inf"
  | NaN => "nan"
  end.

(** The number nearest to an integer. *)
Definition of_Z (z : Z) : float64 := of_Q (inject_Z z).

(** The conversion of an [int] that takes part in float arithmetic: an
    [int] that rounds to 2^1024 or more raises [OverflowError]. *)
Definition of_int (z : Z) : res float64 :=
  let x := of_Z z in
  if is_finite x then Ok x else Raise OverflowError.

(** Half the distance of two neighbours, relative to the number, and
    half the distance of the smallest numbers. *)
Definition u : Q := 1 # 9007199254740992.
Definition eta : Q := Qpower 2 (-1075).

(** The finite numbers whose sign is the one they carry. *)
Definition fin (x : float64) : Prop :=
  match x with
  | Finite _ m _ => (0 <= m)%Z
  | _ => False
  end.

Global Instance binary64 : PyFloat float64 := {|
  float_of_str := of_str;
  int_of_float := to_int;
  float_of_int := of_int;
  fadd := add;
  fsub := sub;
  fmul := mul;
  fdiv := div;
  format_6f := str_6f
|}.

End Binary64.

(* ================================================================== *)
(** * app.py: the other endpoints *)

Record ClassesReq : Type := mkClassesReq {
  names : list string
}.

Record SaveReq (F : Type) : Type := mkSaveReq {
  save_image_path : string;
  save_split : string;
  save_rects : list (list F)
}.
Arguments mkSaveReq {F}.
Arguments save_image_path {F}.
Arguments save_split {F}.
Arguments save_rects {F}.

(** [{"split": ..., "images": ...}] *)
Record SplitResp : Type := mkSplitResp {
  split_split : string;
  split_images : list string
}.

Record InfoResp : Type := mkInfoResp {
  info_root : string;
  info_mode : string;
  info_split : string;
  info_splits : list string;
  info_count : nat;
  info_class_names : list string
}.

Record LabelsResp (F : Type) : Type := mkLabelsResp {
  labels_rects : list (Rect F);
  labels_width : Z;
  labels_height : Z;
  has_label_file : bool
}.
Arguments mkLabelsResp {F}.
Arguments labels_rects {F}.
Arguments labels_width {F}.
Arguments labels_height {F}.
Arguments has_label_file {F}.

(** [{"ok": True, "models": ..., "selected": ...}] *)
Record ImportResp : Type := mkImportResp {
  import_models : list string;
  import_selected : string
}.

(** [payload.get(key, default)] *)
Definition payload_get (payload : gmap string string) (key dflt : string)
    : string :=
  default dflt (payload !! key).

(** ** [/api/models] and [/api/models/import]

    The state of these two is the list [model_library]; the file system
    is only read. *)

Definition get_models : M (list string) (list string) := gets id.

Definition import_model (fs : FS) (payload : gmap string string)
    : M (list string) ImportResp :=
  let path := norm fs (payload_get payload "path" "") in
  if negb (os.isfile fs path)
  then raise (HTTPException 400 "Model file not found")
  else
    when_ (fun model_library => negb (bool_decide (path ∈ model_library)))
          (modify (fun model_library => model_library ++ [path]));;
    model_library ← gets id;
    mret (mkImportResp model_library path).

(** ** [/api/classes] *)

Definition get_classes : M World (list string) := gets class_names.

Definition set_classes (req : ClassesReq) : M World (list string) :=
  let stripped :=
    map Py.strip
        (filter (fun n => negb (String.eqb (Py.strip n) "")) (names req)) in
  if bool_decide (stripped = [])
  then raise (HTTPException 400 "Class names cannot be empty")
  else
    modify (fun w => mkWorld (state w) stripped (files w));;
    gets class_names.

Section MoreEndpoints.

Context {F : Type} `{PyFloat F} `{Extern F}.

(** ** [/api/project/split] *)

Definition change_split (payload : gmap string string) : M World SplitResp :=
  st ← gets state;
  if negb (truthy (root st))
  then raise (HTTPException 400 "No project loaded")
  else
    let requested := payload_get payload "split" "train" in
    fs ← gets files;
    (if os.isdir fs (root st +:+ "/images/" +:+ requested) then
       set_state (set_split requested);;
       set_state (set_images
                    (list_images fs (root st +:+ "/images/" +:+ requested)))
     else
       set_state (set_split "train");;
       set_state (set_images []));;
    st' ← gets state;
    mret (mkSplitResp (split st') (images st')).

(** ** [/api/project/info] *)

Definition project_info : M World InfoResp :=
  st ← gets state;
  if negb (truthy (root st))
  then raise (HTTPException 400 "No project loaded")
  else
    fs ← gets files;
    let splits :=
      if os.isdir fs (root st +:+ "/images")
      then filter (fun s => os.isdir fs (root st +:+ "/images/" +:+ s)) SPLITS
      else ["train"] in
    names ← gets class_names;
    mret (mkInfoResp (root st) (mode st) (split st) splits
                     (length (images st)) names).

(** ** [/api/image]: the path handed to [FileResponse] *)

Definition get_image (path : string) : M World string :=
  fs ← gets files;
  let p := norm fs path in
  if negb (os.isfile fs p)
  then raise (HTTPException 404 "Image not found")
  else mret p.

(** ** [/api/labels] and [/api/labels/save] *)

Definition get_labels (image_path split : string) : M World (LabelsResp F) :=
  st ← gets state;
  if negb (truthy (root st))
  then raise (HTTPException 400 "No project loaded")
  else
    fs ← gets files;
    let img := norm fs image_path in
    if negb (os.isfile fs img)
    then raise (HTTPException 404 "Image missing")
    else
      wh ← on_files (image_open img);
      let lbl := label_of (root st) split img in
      rects ← on_files (fun fs =>
                 (read_yolo_labels fs lbl (fst wh) (snd wh), fs));
      fs' ← gets files;
      has ← (if os.isfile fs' lbl
             then size ← on_files (lift_res (os.getsize fs' lbl));
                  mret (Nat.ltb 0 size)
             else mret false);
      mret (mkLabelsResp rects (fst wh) (snd wh) has).

Definition save_labels (req : SaveReq F) : M World unit :=
  st ← gets state;
  if negb (truthy (root st))
  then raise (HTTPException 400 "No project loaded")
  else
    fs ← gets files;
    let img := norm fs (save_image_path req) in
    if negb (os.isfile fs img)
    then raise (HTTPException 404 "Image missing")
    else
      wh ← on_files (image_open img);
      let lbl := label_of (root st) (save_split req) img in
      on_files (save_yolo_labels lbl (save_rects req) (fst wh) (snd wh)).

(** ** [/api/restore/list] *)

Definition restore_list (split : string) : M World (list string) :=
  st ← gets state;
  if negb (truthy (root st))
  then raise (HTTPException 400 "No project loaded")
  else
    fs ← gets files;
    if negb (os.isdir fs (rem_img_dir (root st) split))
    then mret []
    else
      entries ← on_files (lift_res (os.listdir fs (rem_img_dir (root st) split)));
      mret (merge_sort String.le
              (filter (fun f => Py.endswith_any (Py.lower f) ALLOWED_EXTS)
                      entries)).

End MoreEndpoints.

(** ** [/api/detect]

    The detector is a collaborator that is not modelled: whether
    [ultralytics] could be imported, the constructor [YOLO(model_id)],
    and the call [model(img, conf=..., verbose=False)], which gives for
    each result its [boxes.xyxy], or [None] when the result has no
    boxes. The state of the endpoint is the dictionary [model_cache]; the
    file system and [model_library] are only read. *)

Class Detector (F Model : Type) : Type := {
  HAS_YOLO : bool;
  YOLO : string -> res Model;
  predict : Model -> string -> F -> res (list (option (list (F * F * F * F))))
}.

Record DetectReq (F : Type) : Type := mkDetectReq {
  detect_image_path : string;
  detect_model_path : string;
  detect_conf : F;
  detect_cls : Z
}.
Arguments mkDetectReq {F}.
Arguments detect_image_path {F}.
Arguments detect_model_path {F}.
Arguments detect_conf {F}.
Arguments detect_cls {F}.

(** [{"rects": ..., "model": ...}] *)
Record DetectResp (F : Type) : Type := mkDetectResp {
  detect_rects : list (Rect F);
  detect_model : string
}.
Arguments mkDetectResp {F}.
Arguments detect_rects {F}.
Arguments detect_model {F}.

Section Detect.

Context {F Model : Type} `{Detector F Model}.

(** The chain of [if]/[elif] that chooses [model_id]. *)
Definition detect_model_id (fs : FS) (model_library : list string)
    (raw_model model_path : string) : res string :=
  if negb (String.eqb model_path "") && os.isfile fs model_path
  then Ok model_path
  else if negb (String.eqb raw_model "")
          && (negb (Py.contains_char Py.slash raw_model)
              && negb (Py.contains_char Py.backslash raw_model))
  then Ok raw_model
  else if String.eqb raw_model ""
  then Ok (match model_library with m :: _ => m | [] => "yolo26m.pt" end)
  else Raise (HTTPException 404 "Model not found").

(** [rects.append([b[0], b[1], b[2], b[3], req.cls])] over the results *)
Definition detect_boxes (cls : Z)
    (results : list (option (list (F * F * F * F)))) : list (Rect F) :=
  flat_map (fun r =>
      match r with
      | None => []
      | Some boxes =>
          map (fun b => let '(b0, b1, b2, b3) := b in mkRect b0 b1 b2 b3 cls)
              boxes
      end)
    results.

Definition detect (fs : FS) (model_library : list string) (req : DetectReq F)
    : M (gmap string Model) (DetectResp F) :=
  if negb HAS_YOLO
  then raise (HTTPException 400 "ultralytics not installed")
  else
    let img := norm fs (detect_image_path req) in
    let raw_model := Py.strip (detect_model_path req) in
    let model_path :=
      if negb (String.eqb raw_model "") then norm fs raw_model else "" in
    if negb (os.isfile fs img)
    then raise (HTTPException 404 "Image not found")
    else
      model_id ← lift_res (detect_model_id fs model_library raw_model model_path);
      model_cache ← gets id;
      model ← match model_cache !! model_id with
              | Some model => mret model
              | None =>
                  model ← lift_res (YOLO model_id);
                  modify (fun model_cache => <[model_id := model]> model_cache);;
                  mret model
              end;
      results ← lift_res (predict model img (detect_conf req));
      mret (mkDetectResp (detect_boxes (detect_cls req) results) model_id).

End Detect.

(* ================================================================== *)
(** * Definitions used by the statements and proofs *)

(** A name that can be a component of a path. *)
Definition simple_name (n : string) : bool :=
  negb (Py.contains_char Py.slash n)
  && negb (String.eqb n "") && negb (String.eqb n ".")
  && negb (String.eqb n "..").

(** What moving the regular file at [ks] to [kd] does to the tree; nothing
    when there is no regular file at [ks]. *)
Definition move_key (ks kd : list string) (t : gmap (list string) node)
    : gmap (list string) node :=
  match t !! ks with
  | Some (File d) => <[kd := File d]> (delete ks t)
  | _ => t
  end.

Definition is_file (t : gmap (list string) node) (k : list string) : Prop :=
  ∃ d, t !! k = Some (File d).

(** The shape [remove_image] and [restore_image] share: make the two
    destination directories, move the image, then each label file. *)
Definition transfer (img filename dst_img_dir src_lbl_dir dst_lbl_dir : string)
    : M FS unit :=
  let base := fst (posixpath.splitext filename) in
  os.makedirs dst_img_dir;;
  os.makedirs dst_lbl_dir;;
  shutil.move img (dst_img_dir +:+ "/" +:+ filename);;
  for_each LABEL_EXTS (fun ext =>
    when_ (fun fs => os.isfile fs (src_lbl_dir +:+ "/" +:+ base +:+ ext))
          (shutil.move (src_lbl_dir +:+ "/" +:+ base +:+ ext)
                       (dst_lbl_dir +:+ "/" +:+ base +:+ ext))).

Definition transferred (ki D1 S2 D2 : list string) (filename : string)
    (t : gmap (list string) node) : gmap (list string) node :=
  let base := fst (posixpath.splitext filename) in
  move_key (S2 ++ [base +:+ ".json"]) (D2 ++ [base +:+ ".json"])
    (move_key (S2 ++ [base +:+ ".txt"]) (D2 ++ [base +:+ ".txt"])
       (move_key ki (D1 ++ [filename]) (os.mkdirs D2 (os.mkdirs D1 t)))).

(** The destination can take the files: its two directories can be made,
    and neither the image's name nor the name of a label file that is
    there to move is taken by a directory. *)
Definition can_transfer (fs : FS)
    (filename dst_img_dir src_lbl_dir dst_lbl_dir : string) : bool :=
  let base := fst (posixpath.splitext filename) in
  succeeds (os.makedirs dst_img_dir) fs
  && succeeds (os.makedirs dst_lbl_dir) fs
  && negb (os.isdir fs (dst_img_dir +:+ "/" +:+ filename))
  && forallb (fun ext =>
       negb (os.isfile fs (src_lbl_dir +:+ "/" +:+ base +:+ ext))
       || negb (os.isdir fs (dst_lbl_dir +:+ "/" +:+ base +:+ ext)))
     LABEL_EXTS.

Definition can_remove (fs : FS) (rootp split img : string) : bool :=
  can_transfer fs (posixpath.basename img) (rem_img_dir rootp split)
               (labels_dir rootp split) (rem_lbl_dir rootp split).


Definition os_exn (e : exn) : Prop :=
  match e with HTTPException _ _ => False | _ => True end.

Definition raises_os {A} (m : M FS A) : Prop :=
  ∀ fs e, fst (m fs) = Raise e → os_exn e.

(** Directories only appear where [P] allows; the working directory stays. *)
Definition keeps_dirs (P : string → list string → Prop) {A} (m : M FS A) : Prop :=
  ∀ fs, getcwd (snd (m fs)) = getcwd fs
        ∧ ∀ K, tree (snd (m fs)) !! K = Some Dir →
               tree fs !! K = Some Dir ∨ P (getcwd fs) K.

(** The directories [os.makedirs(p)] makes. *)
Definition made_by (p : string) (cwd : string) (K : list string) : Prop :=
  ∃ k, os.resolve (mkFS cwd ∅) p = Some k ∧ K `prefix_of` k.

Definition five_fields (line : text) : bool :=
  Nat.eqb (length (Unicode.split line)) 5.

(** The selection of the active split, in the words of the specification:
    [train] when it is present and not empty, else the first split of
    [train], [val], [test] that is present and not empty, else the first
    that is present, else [train]. *)
Definition split_present (fs : FS) (rootp s : string) : bool :=
  os.isdir fs (images_dir rootp s).

Definition split_nonempty {F} `{Extern F} (fs : FS) (rootp s : string) : bool :=
  split_present fs rootp s
  && negb (bool_decide (list_images fs (images_dir rootp s) = [])).

Definition expected_split {F} `{Extern F} (fs : FS) (rootp : string) : string :=
  if split_nonempty fs rootp "train" then "train"
  else match find (split_nonempty fs rootp) SPLITS with
       | Some s => s
       | None => match find (split_present fs rootp) SPLITS with
                 | Some s => s
                 | None => "train"
                 end
       end.

(** The candidates of the root resolution in the order of the
    specification: the input path, its parent, its grandparent, then each
    immediate subdirectory of the input path. *)
Definition yolo_candidates (fs : FS) (path : string) : list string :=
  let p := Py.rstrip Py.slash (Py.replace Py.backslash Py.slash (os.abspath fs path)) in
  let up d := Py.replace Py.backslash Py.slash (os.abspath fs (posixpath.dirname d)) in
  [p; up p; up (posixpath.dirname p)]
  ++ match os.listdir fs p with
     | Ok names =>
         List.filter (os.isdir fs)
           (map (fun child =>
                   Py.replace Py.backslash Py.slash
                     (os.abspath fs (posixpath.join p child)))
                names)
     | Raise _ => []
     end.

(** Every character of [s] satisfies [P]. *)
Definition plain (P : ascii -> bool) (s : string) : bool :=
  forallb P (list_ascii_of_string s).

Definition is_digit_ascii (a : ascii) : bool :=
  match Decimal10.digit_val a with Some _ => true | None => false end.

(** The characters of the numerals that [save_yolo_labels] writes. *)
Definition is_numeral_ascii (a : ascii) : bool :=
  is_digit_ascii a || Ascii.eqb a "-"%char || Ascii.eqb a Py.dot.

(** The value [.6f] prints for [q]: the nearest multiple of 10^-6. *)
Definition quantize (q : Q) : Q :=
  let n := Numerals.round_half_even (Qabs q * 1000000)%Q in
  ((if Qlt_le_dec q 0 then inject_Z (- n) else inject_Z n) / 1000000)%Q.

(** The number read back from a printed fixed-point numeral with integer
    digits [i] and fraction digits [f]. *)
Definition fixed_value (i f : list Z) : Q :=
  Qred (inject_Z (Decimal10.value (i ++ f))
        * Qpower 10 (0 - Z.of_nat (length f))).

(** ASCII characters that are not line terminators. *)
Definition is_text_char (a : ascii) : bool :=
  (N_of_ascii a <? 128)%N
  && negb (Ascii.eqb a Py.LF) && negb (Ascii.eqb a Py.CR).

(** A line of ASCII text with its terminating LF. *)
Definition terminated_line (l : string) : Prop :=
  exists body, l = body +:+ String Py.LF "" /\ plain is_text_char body = true.

(** [a] and [b] differ by at most [eps]. *)
Definition near (eps a b : Q) : Prop := (Qabs (a - b) <= eps)%Q.

(** What the round trip through a label line can move a corner by, in
    pixels: three quarters of 10^-6 of the image dimension [n] (half for
    the rounding of the centre to six decimals, a quarter for the half
    of the size), and the rounding of the double precision arithmetic,
    at most 2^-49 of the magnitudes involved (2^49 is
    562949953421312). *)
Definition pixel_eps (n : Z) (a b : Q) : Q :=
  ((3 # 4000000) * inject_Z n
   + (1 # 562949953421312) * (Qabs a + Qabs b + inject_Z n))%Q.

(** What printing with six decimals and reading back can move a
    normalised field [v] by: half of 10^-6 for the last decimal, and the
    rounding of the number read to double precision, at most 2^-53 of
    its magnitude (2^53 is 9007199254740992). *)
Definition field_eps (v : Q) : Q :=
  ((1 # 2000000) + (1 # 9007199254740992) * (Qabs v + 1))%Q.

(** The fields of a rectangle that can be saved and read back: numbers
    of the format, the coordinates of magnitude at most 2^1000. *)
Definition moderate (x : Binary64.float64) : Prop :=
  Binary64.representable x = true
  /\ (Qabs (Binary64.value x) <= Qpower 2 1000)%Q.

Definition saveable (r : list Binary64.float64) : Prop :=
  match r with
  | [a1; b1; a2; b2; c] =>
      moderate a1 /\ moderate b1 /\ moderate a2 /\ moderate b2
      /\ Binary64.representable c = true
  | _ => True
  end.

(** What a decoded rectangle [o] keeps of the rectangle [r] that was
    saved: each corner is a finite number within [pixel_eps] of the
    saved one, and the class id is [int(cid)]. *)
Definition round_trip_close (w h : Z) (r : list Binary64.float64)
    (o : Rect Binary64.float64) : Prop :=
  match r with
  | [a1; b1; a2; b2; c] =>
      let v := Binary64.value in
      let close n a b x y :=
        Binary64.is_finite x = true /\ near (pixel_eps n a b) (v x) y in
      close w (v a1) (v a2) (x1 o) (v a1)
      /\ close h (v b1) (v b2) (y1 o) (v b1)
      /\ close w (v a1) (v a2) (x2 o) (v a2)
      /\ close h (v b1) (v b2) (y2 o) (v b2)
      /\ Binary64.to_int c = Ok (cid o)
  | _ => False
  end.

(* ================================================================== *)
(** * Definitions used by the further statements *)

(** A computation that at most makes directories: the working directory
    stays, the regular files are the same before and after, with the same
    content, and no directory goes away. *)
Definition only_mkdir {A} (m : M FS A) : Prop :=
  ∀ fs,
    getcwd (snd (m fs)) = getcwd fs
    ∧ (∀ K d, tree (snd (m fs)) !! K = Some (File d) ↔ tree fs !! K = Some (File d))
    ∧ (∀ K, tree fs !! K = Some Dir → tree (snd (m fs)) !! K = Some Dir).

(** The same for the computations over the whole state. *)
Definition only_mkdir_world {A} (m : M World A) : Prop :=
  ∀ w,
    getcwd (files (snd (m w))) = getcwd (files w)
    ∧ (∀ K d, tree (files (snd (m w))) !! K = Some (File d)
              ↔ tree (files w) !! K = Some (File d))
    ∧ (∀ K, tree (files w) !! K = Some Dir →
            tree (files (snd (m w))) !! K = Some Dir).

(** A computation that leaves every regular file but the one named by [p]
    as it is, keeps the working directory and takes no directory away. *)
Definition touches_only {A} (p : string) (m : M FS A) : Prop :=
  ∀ fs,
    getcwd (snd (m fs)) = getcwd fs
    ∧ (∀ K d, os.resolve fs p ≠ Some K →
              tree (snd (m fs)) !! K = Some (File d)
              ↔ tree fs !! K = Some (File d))
    ∧ (∀ K, tree fs !! K = Some Dir → tree (snd (m fs)) !! K = Some Dir).

(* ================================================================== *)
(** * A small project on disk *)

Module Sample.

(** Collaborators that are not modelled: no pattern has magic characters
    here, every image is 640 x 480, the JSON text is left out, and no
    character beyond ASCII is a decimal digit. *)
Definition ext : Extern Binary64.float64 := {|
  glob_magic := fun _ _ => [];
  image_size := fun _ => Some (640, 480)%Z;
  json_dumps := fun _ => "[]";
  unicodedata_decimal := fun _ => None
|}.

Definition label_text : string :=
  "0 0.5 0.5 0.2 0.4" +:+ String Py.LF ("1 2 3 4" +:+ String Py.LF "").

Definition bad_text : string :=
  "a b c d e" +:+ String Py.LF ("0 0.5 0.5 0.2 0.4" +:+ String Py.LF "").

(** [/data] is a split-structured project, [/flat] a plain folder of
    images, and [/images/train] makes the root directory itself qualify
    as a project. *)
Definition fs : FS := mkFS "/home/u" (list_to_map [
  (["home"], Dir); (["home"; "u"], Dir);
  (["home"; "u"; "x.txt"], File "old");
  (["images"], Dir); (["images"; "train"], Dir);
  (["data"], Dir); (["data"; "images"], Dir);
  (["data"; "images"; "train"], Dir);
  (["data"; "images"; "train"; "a.jpg"], File "JPEG");
  (["data"; "images"; "val"], Dir);
  (["data"; "images"; "val"; "b.png"], File "PNG");
  (["data"; "labels"], Dir); (["data"; "labels"; "train"], Dir);
  (["data"; "labels"; "train"; "a.txt"], File label_text);
  (["data"; "labels"; "val"], Dir);
  (["data"; "labels"; "val"; "bad.txt"], File bad_text);
  (["flat"], Dir); (["flat"; "c.jpg"], File "JPEG")]).

Definition unloaded : World := mkWorld (mkState "" "images" "train" []) ["class0"] fs.

Definition world : World :=
  mkWorld (mkState "/data" "yolo" "train" ["/data/images/train/a.jpg"])
          ["class0"] fs.

Definition flat_world : World :=
  mkWorld (mkState "/flat" "images" "train" ["/flat/c.jpg"]) ["class0"] fs.

Definition open_req : OpenProjectReq := mkOpenProjectReq "/data" "yolo".

Definition opened : res OpenProjectResp * World :=
  @open_project Binary64.float64 ext open_req unloaded.

Definition open_resp : OpenProjectResp :=
  match fst opened with
  | Ok r => r
  | Raise _ => mkOpenProjectResp "" "" "" [] 0 []
  end.

(** A rectangle whose right edge comes back more than half a millionth
    of the width away: [[8.5, 0, 133.5, 0, 0]]. *)
Definition wide_rect : list Binary64.float64 :=
  [Binary64.Finite false 17 (-1); Binary64.Finite false 0 0;
   Binary64.Finite false 267 (-1); Binary64.Finite false 0 0;
   Binary64.Finite false 0 0].

Definition saved : res unit * FS :=
  @save_yolo_labels Binary64.float64 Binary64.binary64
    "/data/labels/val/b.txt" [wide_rect] 640 480 fs.


(** A label file with a comment line in Latin-1: the byte 233 is not
    UTF-8. *)
Definition latin_text : string :=
  "# caf" +:+ String (ascii_of_N 233) (String Py.LF "")
  +:+ "0 0.5 0.5 0.2 0.4" +:+ String Py.LF "".

Definition latin_fs : FS := mkFS "/home/u" (list_to_map [
  (["data"], Dir); (["data"; "labels"], Dir);
  (["data"; "labels"; "train"], Dir);
  (["data"; "labels"; "train"; "a.txt"], File latin_text)]).

End Sample.

(* ================================================================== *)
(** * A second disk, without a project at the root directory *)

Module Disk.

(** [/proj] is a split-structured project without label directories and
    with one removed image; [/flat] is a plain folder of images with a
    hidden file, an upper-case extension and a file that is no image;
    [/models/best.pt] is a model file. *)
Definition fs : FS := mkFS "/home/u" (list_to_map [
  (["home"], Dir); (["home"; "u"], Dir);
  (["proj"], Dir); (["proj"; "images"], Dir);
  (["proj"; "images"; "train"], Dir);
  (["proj"; "images"; "train"; "a.jpg"], File "JPEG");
  (["proj"; "images"; "val"], Dir);
  (["proj"; "removed"], Dir); (["proj"; "removed"; "train"], Dir);
  (["proj"; "removed"; "train"; "images"], Dir);
  (["proj"; "removed"; "train"; "images"; "z.jpg"], File "JPEG");
  (["proj"; "removed"; "train"; "images"; "notes.txt"], File "text");
  (["flat"], Dir);
  (["flat"; "c.jpg"], File "JPEG");
  (["flat"; "d.PNG"], File "PNG");
  (["flat"; ".hidden.jpg"], File "JPEG");
  (["flat"; "notes.txt"], File "text");
  (["models"], Dir); (["models"; "best.pt"], File "weights")]).

Definition unloaded : World :=
  mkWorld (mkState "" "images" "train" []) ["class0"; "class1"; "class2"] fs.

Definition loaded : World :=
  mkWorld (mkState "/proj" "yolo" "train" ["/proj/images/train/a.jpg"])
          ["class0"; "class1"; "class2"] fs.

Definition flat_req : OpenProjectReq := mkOpenProjectReq "/flat" "images".

Definition flat_opened : res OpenProjectResp * World :=
  @open_project Binary64.float64 Sample.ext flat_req unloaded.

Definition flat_resp : OpenProjectResp :=
  match fst flat_opened with
  | Ok r => r
  | Raise _ => mkOpenProjectResp "" "" "" [] 0 []
  end.

Definition model_library : list string := ["yolo26m.pt"; "yolo26n.pt"].

(** A detector that is installed, loads every model and finds one box
    in its first result and no boxes in its second. *)
Definition detector : Detector Binary64.float64 string := {|
  HAS_YOLO := true;
  YOLO := fun model_id => Ok model_id;
  predict := fun _ _ _ =>
    Ok [Some [(Binary64.of_Z 1, Binary64.of_Z 2, Binary64.of_Z 3,
               Binary64.of_Z 4)]; None]
|}.

Definition detect_req : DetectReq Binary64.float64 :=
  mkDetectReq "/proj/images/train/a.jpg" " yolo26n.pt "
              (Binary64.Finite false 1 (-1)) 7.

Definition detected : res (DetectResp Binary64.float64) * gmap string string :=
  @detect Binary64.float64 string detector fs model_library detect_req ∅.

Definition detect_resp : DetectResp Binary64.float64 :=
  match fst detected with
  | Ok r => r
  | Raise _ => mkDetectResp [] ""
  end.

Definition save_req : SaveReq Binary64.float64 :=
  mkSaveReq "/data/images/train/a.jpg" "train" [Sample.wide_rect].

Definition labels_saved : res unit * World :=
  @save_labels Binary64.float64 Binary64.binary64 Sample.ext save_req
               Sample.world.

End Disk.

(* ================================================================== *)
(** * Facts about strings and paths *)

Lemma app_cons_s (x : ascii) (a b : string) :
  String x a +:+ b = String x (a +:+ b).
Proof. done. Qed.

Lemma app_nil_l_s (a : string) : "" +:+ a = a.
Proof. done. Qed.

Lemma app_assoc_s (a b c : string) : (a +:+ b) +:+ c = a +:+ (b +:+ c).
Proof. induction a as [|x a IH]; [done|]. by rewrite !app_cons_s, IH. Qed.

Lemma app_nil_r_s (a : string) : a +:+ "" = a.
Proof. induction a as [|x a IH]; [done|]. by rewrite app_cons_s, IH. Qed.

Lemma split_on_not_nil c s : Py.split_on c s ≠ [].
Proof.
  destruct s as [|a s]; [done|]. simpl.
  destruct (Ascii.eqb a c); [done|]. by destruct (Py.split_on c s).
Qed.

Lemma split_on_app c s1 s2 :
  Py.split_on c (s1 +:+ String c s2) = Py.split_on c s1 ++ Py.split_on c s2.
Proof.
  induction s1 as [|a s1 IH]; rewrite ?app_cons_s, ?app_nil_l_s; cbn.
  - by rewrite Ascii.eqb_refl.
  - destruct (Ascii.eqb a c); [by rewrite IH|].
    rewrite IH. pose proof (split_on_not_nil c s1).
    by destruct (Py.split_on c s1).
Qed.

Lemma split_on_single c s :
  Py.contains_char c s = false → Py.split_on c s = [s].
Proof.
  unfold Py.contains_char. induction s as [|a s IH]; [done|].
  intros Hc. cbn [list_ascii_of_string existsb] in Hc.
  apply orb_false_elim in Hc as [Hac Hs]. simpl.
  by rewrite Ascii.eqb_sym, Hac, IH.
Qed.

Lemma step_simple k n : simple_name n = true → posixpath.step k n = k ++ [n].
Proof.
  unfold simple_name, posixpath.step.
  intros [[[_ H1]%andb_true_iff H2]%andb_true_iff H3]%andb_true_iff.
  apply negb_true_iff, String.eqb_neq in H1, H2, H3.
  destruct (decide (n = "" ∨ n = ".")) as [[?|?]|_]; [done..|].
  by destruct (decide (n = "..")).
Qed.

Lemma fold_step_simple k names :
  Forall (fun n => simple_name n = true) names →
  fold_left posixpath.step names k = k ++ names.
Proof.
  intros Hn. revert k. induction Hn as [|n names Hn _ IH]; intros k; cbn.
  - by rewrite app_nil_r.
  - rewrite step_simple by done. rewrite IH. by rewrite <- app_assoc.
Qed.

Lemma split_on_join names :
  names ≠ [] →
  Forall (fun n => simple_name n = true) names →
  Py.split_on Py.slash (Py.join "/" names) = names.
Proof.
  intros Hne Hn. induction Hn as [|n names Hn Hns IH]; [done|].
  assert (Py.split_on Py.slash n = [n]) as Hsn.
  { apply split_on_single. unfold simple_name in Hn.
    repeat (apply andb_true_iff in Hn as [Hn _]). by apply negb_true_iff. }
  destruct names as [|n' names]; [done|].
  change (Py.join "/" (n :: n' :: names))
    with (n +:+ String Py.slash (Py.join "/" (n' :: names))).
  rewrite split_on_app, Hsn, IH; done.
Qed.

Lemma components_app p rest :
  posixpath.components (p +:+ String Py.slash rest)
  = fold_left posixpath.step (Py.split_on Py.slash rest) (posixpath.components p).
Proof. unfold posixpath.components. by rewrite split_on_app, fold_left_app. Qed.

Lemma endswith_slash_app a b :
  Py.endswith a "/" = true → a +:+ b = a +:+ b.
Proof. done. Qed.

Lemma absolute_app fs p x :
  p ≠ "" → os.absolute fs (p +:+ x) = os.absolute fs p +:+ x.
Proof.
  intros Hp. unfold os.absolute. destruct p as [|a p]; [done|].
  rewrite app_cons_s. cbn.
  destruct (Ascii.eqb a Py.slash) eqn:Ha; [done|].
  unfold posixpath.join. cbn. rewrite Ha.
  case_decide; [done|].
  destruct (Py.endswith (getcwd fs) "/"); by rewrite !app_assoc_s.
Qed.

(** The entry named by [p/n1/.../nk] lies [n1; ...; nk] below the entry
    named by [p]. *)
Lemma resolve_join fs p names :
  p ≠ "" → names ≠ [] →
  Forall (fun n => simple_name n = true) names →
  os.resolve fs (p +:+ "/" +:+ Py.join "/" names)
  = (fun k => k ++ names) <$> os.resolve fs p.
Proof.
  intros Hp Hne Hn. unfold os.resolve.
  rewrite decide_False by (by destruct p).
  rewrite decide_False by done. cbn. f_equal.
  rewrite absolute_app by done.
  change ("/" +:+ Py.join "/" names) with (String Py.slash (Py.join "/" names)).
  rewrite components_app, split_on_join by done.
  by apply fold_step_simple.
Qed.

(* ================================================================== *)
(** * Facts about the file system calls *)

Lemma elem_of_prefixes (k' k : list string) :
  k' ∈ os.prefixes k ↔ k' ≠ [] ∧ k' `prefix_of` k.
Proof.
  unfold os.prefixes. rewrite list_elem_of_fmap. split.
  - intros (n & -> & Hn). apply elem_of_seq in Hn. split.
    + destruct k, n; cbn in *; try done; lia.
    + exists (drop n k). by rewrite take_drop.
  - intros [Hne [x ->]]. exists (length k'). split.
    + by rewrite take_app_length.
    + apply elem_of_seq. rewrite length_app. destruct k'; cbn in *; [done|lia].
Qed.

Lemma lookup_mkdirs k t k' :
  os.mkdirs k t !! k' = if decide (k' ∈ os.prefixes k) then Some Dir else t !! k'.
Proof.
  unfold os.mkdirs. induction (os.prefixes k) as [|x l IH]; cbn; [done|].
  destruct (decide (x = k')) as [->|Hne].
  - rewrite lookup_insert_eq. rewrite decide_True; [done|]. apply list_elem_of_here.
  - rewrite lookup_insert_ne by done. rewrite IH.
    destruct (decide (k' ∈ l)) as [Hin|Hin].
    + rewrite decide_True; [done|]. by apply list_elem_of_further.
    + rewrite decide_False; [done|]. by intros [->|?]%elem_of_cons.
Qed.

Lemma lookup_mkdirs_prefix k t k' :
  k' ≠ [] → k' `prefix_of` k → os.mkdirs k t !! k' = Some Dir.
Proof.
  intros. rewrite lookup_mkdirs, decide_True; [done|]. by apply elem_of_prefixes.
Qed.

Lemma lookup_mkdirs_other k t k' :
  ¬ k' `prefix_of` k → os.mkdirs k t !! k' = t !! k'.
Proof.
  intros. rewrite lookup_mkdirs, decide_False; [done|].
  rewrite elem_of_prefixes. tauto.
Qed.

(** Creating directories that are all there changes nothing. *)
Lemma mkdirs_id k t :
  (∀ k', k' ≠ [] → k' `prefix_of` k → t !! k' = Some Dir) → os.mkdirs k t = t.
Proof.
  intros Hd. apply map_eq. intros k'. rewrite lookup_mkdirs.
  case_decide as Hk; [|done]. apply elem_of_prefixes in Hk as [? ?].
  symmetry. by apply Hd.
Qed.

Lemma resolve_set_tree fs t p : os.resolve (set_tree fs t) p = os.resolve fs p.
Proof. done. Qed.

Lemma node_at_set_tree fs t k :
  k ≠ [] → os.node_at (set_tree fs t) k = t !! k.
Proof. by destruct k. Qed.

Lemma node_at_cons fs k : k ≠ [] → os.node_at fs k = tree fs !! k.
Proof. by destruct k. Qed.

Lemma makedirs_ok p fs k :
  os.resolve fs p = Some k →
  succeeds (os.makedirs p) fs = true →
  os.makedirs p fs = (Ok tt, set_tree fs (os.mkdirs k (tree fs)))
  ∧ ∀ k', k' ≠ [] → k' `prefix_of` k → os.is_file_at fs k' = false.
Proof.
  unfold succeeds, os.makedirs. intros -> Hs.
  destruct (find (os.is_file_at fs) (os.prefixes k)) as [k'|] eqn:Hf; [done|].
  split; [done|]. intros k' Hne Hp.
  apply not_true_iff_false. intros Hfile.
  assert (k' ∈ os.prefixes k) as Hin by by apply elem_of_prefixes.
  apply list_elem_of_In in Hin.
  eapply find_none in Hf; [|done]. congruence.
Qed.

Lemma makedirs_succeeds p fs k :
  os.resolve fs p = Some k →
  (∀ k', k' ≠ [] → k' `prefix_of` k → os.is_file_at fs k' = false) →
  succeeds (os.makedirs p) fs = true.
Proof.
  unfold succeeds, os.makedirs. intros -> Hs.
  destruct (find (os.is_file_at fs) (os.prefixes k)) as [k'|] eqn:Hf; [|done].
  apply find_some in Hf as [Hin Hfile]. apply list_elem_of_In, elem_of_prefixes in Hin as [? ?].
  rewrite Hs in Hfile; done.
Qed.

Lemma bind_eq {S A B} (m : M S A) (f : A → M S B) (s : S) :
  (m ≫= f) s = match m s with
               | (Ok a, s') => f a s'
               | (Raise e, s') => (Raise e, s')
               end.
Proof. done. Qed.

Lemma stat_resolve fs p k :
  os.resolve fs p = Some k → os.stat fs p = os.node_at fs k.
Proof. unfold os.stat. by intros ->. Qed.

Lemma resolve_is_Some fs p : p ≠ "" → is_Some (os.resolve fs p).
Proof. intros. unfold os.resolve. rewrite decide_False by done. eauto. Qed.

Lemma truthy_ne s : truthy s = true ↔ s ≠ "".
Proof. unfold truthy. rewrite negb_true_iff. apply String.eqb_neq. Qed.

Lemma app_ne_nil_s (a b : string) : a ≠ "" → a +:+ b ≠ "".
Proof. by destruct a. Qed.

Lemma resolve_child fs dir name kd :
  dir ≠ "" → simple_name name = true →
  os.resolve fs dir = Some kd →
  os.resolve fs (dir +:+ "/" +:+ name) = Some (kd ++ [name]).
Proof.
  intros Hd Hn Hk.
  pose proof (resolve_join fs dir [name] Hd) as Hj.
  rewrite Hk in Hj. apply Hj; [done|]. by constructor.
Qed.

Section Layout.

Variables (fs : FS) (rootp split : string) (kr : list string).
Hypothesis Hroot : rootp ≠ "".
Hypothesis Hkr : os.resolve fs rootp = Some kr.
Hypothesis Hsplit : simple_name split = true.

Lemma resolve_layout (names : list string) :
  names ≠ [] → Forall (fun n => simple_name n = true) names →
  os.resolve fs (rootp +:+ "/" +:+ Py.join "/" names) = Some (kr ++ names).
Proof.
  intros Hne Hn. rewrite resolve_join by done. by rewrite Hkr.
Qed.

Lemma resolve_images_dir :
  os.resolve fs (images_dir rootp split) = Some (kr ++ ["images"; split]).
Proof. apply (resolve_layout ["images"; split]); [done|]. by repeat constructor. Qed.

Lemma resolve_labels_dir :
  os.resolve fs (labels_dir rootp split) = Some (kr ++ ["labels"; split]).
Proof. apply (resolve_layout ["labels"; split]); [done|]. by repeat constructor. Qed.

Lemma resolve_rem_img_dir :
  os.resolve fs (rem_img_dir rootp split)
  = Some (kr ++ ["removed"; split; "images"]).
Proof.
  apply (resolve_layout ["removed"; split; "images"]); [done|].
  by repeat constructor.
Qed.

Lemma resolve_rem_lbl_dir :
  os.resolve fs (rem_lbl_dir rootp split)
  = Some (kr ++ ["removed"; split; "labels"]).
Proof.
  apply (resolve_layout ["removed"; split; "labels"]); [done|].
  by repeat constructor.
Qed.

End Layout.

Lemma set_tree_id fs : set_tree fs (tree fs) = fs.
Proof. by destruct fs. Qed.

Lemma set_tree_set_tree fs t1 t2 : set_tree (set_tree fs t1) t2 = set_tree fs t2.
Proof. done. Qed.

Lemma creat_error_None fs kd :
  kd ≠ [] →
  tree fs !! kd ≠ Some Dir →
  os.node_at fs (removelast kd) = Some Dir →
  os.creat_error fs kd = None.
Proof.
  intros Hkd Hnd Hpar. unfold os.creat_error. rewrite Hpar.
  rewrite node_at_cons by done.
  destruct kd; [done|]. by destruct (tree fs !! (_ :: _)) as [[]|].
Qed.

Lemma move_spec fs src dst ks kd d :
  os.resolve fs src = Some ks → os.resolve fs dst = Some kd →
  ks ≠ [] → kd ≠ [] →
  tree fs !! ks = Some (File d) →
  tree fs !! kd ≠ Some Dir →
  os.node_at fs (removelast kd) = Some Dir →
  shutil.move src dst fs
  = (Ok tt, set_tree fs (<[kd := File d]> (delete ks (tree fs)))).
Proof.
  intros Hs Hd Hks Hkd Hfile Hnd Hpar.
  unfold shutil.move, os.isdir. rewrite (stat_resolve _ _ _ Hd).
  rewrite node_at_cons by done.
  assert (os.rename_file src dst fs
          = (Ok tt, set_tree fs (<[kd := File d]> (delete ks (tree fs))))) as Hren.
  { unfold os.rename_file. rewrite Hs, Hd, node_at_cons, Hfile by done.
    by rewrite creat_error_None. }
  by destruct (tree fs !! kd) as [[]|].
Qed.

Lemma guarded_move_spec fs src dst ks kd :
  os.resolve fs src = Some ks → os.resolve fs dst = Some kd →
  ks ≠ [] → kd ≠ [] →
  (is_file (tree fs) ks → tree fs !! kd ≠ Some Dir) →
  os.node_at fs (removelast kd) = Some Dir →
  when_ (fun fs' => os.isfile fs' src) (shutil.move src dst) fs
  = (Ok tt, set_tree fs (move_key ks kd (tree fs))).
Proof.
  intros Hs Hd Hks Hkd Hnd Hpar. unfold when_, os.isfile, move_key.
  rewrite (stat_resolve _ _ _ Hs), node_at_cons by done.
  destruct (tree fs !! ks) as [[d|]|] eqn:Hfile; rewrite ?set_tree_id; try done.
  eapply move_spec; try done. apply Hnd. by exists d.
Qed.

Lemma removelast_snoc {A} (l : list A) x : removelast (l ++ [x]) = l.
Proof. apply removelast_last. Qed.

Lemma lookup_move_key_other ks kd t k :
  k ≠ ks → k ≠ kd → move_key ks kd t !! k = t !! k.
Proof.
  intros ??. unfold move_key. destruct (t !! ks) as [[]|]; [|done..].
  by rewrite lookup_insert_ne, lookup_delete_ne.
Qed.

Lemma lookup_move_key_dst ks kd t :
  move_key ks kd t !! kd
  = match t !! ks with Some (File d) => Some (File d) | _ => t !! kd end.
Proof.
  unfold move_key. destruct (t !! ks) as [[]|]; [|done..].
  by rewrite lookup_insert_eq.
Qed.

Lemma lookup_move_key_src ks kd t :
  ks ≠ kd →
  move_key ks kd t !! ks
  = match t !! ks with Some (File d) => None | o => o end.
Proof.
  intros. unfold move_key. destruct (t !! ks) as [[]|] eqn:E; [|done..].
  by rewrite lookup_insert_ne, lookup_delete_eq.
Qed.

(** Moving never makes a directory. *)
Lemma move_key_dir ks kd t k :
  move_key ks kd t !! k = Some Dir → t !! k = Some Dir.
Proof.
  unfold move_key. destruct (t !! ks) as [[]|] eqn:E; [|done..].
  destruct (decide (k = kd)) as [->|]; [by rewrite lookup_insert_eq|].
  rewrite lookup_insert_ne by done.
  destruct (decide (k = ks)) as [->|]; [by rewrite lookup_delete_eq|].
  by rewrite lookup_delete_ne.
Qed.

Ltac key_inv :=
  repeat match goal with
  | H : context [(_ :: _) ++ _] |- _ => progress cbn [app] in H
  | H : _ ++ _ = _ ++ _ |- _ => apply app_inv_head in H
  | H : (_ ++ _) `prefix_of` (_ ++ _) |- _ => apply prefix_app_inv in H
  | H : (_ :: _) `prefix_of` (_ :: _) |- _ =>
      first [ apply prefix_cons_inv_1 in H; discriminate H
            | apply prefix_cons_inv_2 in H ]
  | H : (_ :: _) `prefix_of` [] |- _ => apply prefix_nil_inv in H; discriminate H
  | H : _ :: _ = _ :: _ |- _ =>
      first [ discriminate H | injection H as _ H ]
  | H : _ :: _ = [] |- _ => discriminate H
  | H : [] = _ :: _ |- _ => discriminate H
  end.

(** Two keys below the same root differ, or one is no prefix of the other,
    when their tails show it. *)
Ltac key_neq :=
  let E := fresh in
  intros E; rewrite <- ?app_assoc in E; key_inv; done.

Lemma app_ne_nil_key {A} (k l : list A) : l ≠ [] → k ++ l ≠ [].
Proof. by destruct k, l. Qed.

Lemma contains_char_app c a b :
  Py.contains_char c (a +:+ b) = Py.contains_char c a || Py.contains_char c b.
Proof.
  unfold Py.contains_char. induction a as [|x a IH]; [done|].
  rewrite app_cons_s. cbn. by rewrite IH, orb_assoc.
Qed.

Lemma length_app_s a b :
  String.length (a +:+ b) = (String.length a + String.length b)%nat.
Proof. induction a as [|x a IH]; [done|]. rewrite app_cons_s. cbn. by rewrite IH. Qed.

Lemma simple_name_intro n :
  Py.contains_char Py.slash n = false → (3 <= String.length n)%nat →
  simple_name n = true.
Proof.
  intros Hs Hl. unfold simple_name. rewrite Hs.
  rewrite !andb_true_iff, !negb_true_iff, !String.eqb_neq.
  split; [split; [split; [done|]|]|]; intros ->; cbn in Hl; lia.
Qed.

Lemma simple_label_name base ext :
  Py.contains_char Py.slash base = false →
  ext = ".txt" ∨ ext = ".json" →
  simple_name (base +:+ ext) = true.
Proof.
  intros Hb He. apply simple_name_intro.
  - rewrite contains_char_app, Hb. by destruct He as [-> | ->].
  - rewrite length_app_s. destruct He as [-> | ->]; cbn; lia.
Qed.

Lemma rpartition_None p :
  Py.contains_char Py.slash p = false → posixpath.rpartition p = None.
Proof.
  unfold Py.contains_char. induction p as [|a p IH]; [done|].
  intros Hc. cbn [list_ascii_of_string existsb] in Hc.
  apply orb_false_elim in Hc as [Ha Hp]. simpl. rewrite IH by done.
  by rewrite Ascii.eqb_sym, Ha.
Qed.

Lemma rpartition_dot_app p h t :
  posixpath.rpartition_dot p = Some (h, t) → p = h +:+ t.
Proof.
  revert h t. induction p as [|a p IH]; intros h t; [done|]. simpl.
  destruct (posixpath.rpartition_dot p) as [[h' t']|].
  - intros [= <- <-]. rewrite app_cons_s. f_equal. by apply IH.
  - destruct (Ascii.eqb a Py.dot); [|done]. by intros [= <- <-].
Qed.

Lemma splitext_no_slash name :
  Py.contains_char Py.slash name = false →
  Py.contains_char Py.slash (fst (posixpath.splitext name)) = false.
Proof.
  intros Hn. unfold posixpath.splitext. rewrite rpartition_None by done.
  destruct (posixpath.rpartition_dot name) as [[stem ext]|] eqn:Hd; [|done].
  destruct (posixpath.all_dots stem); [done|]. cbn.
  apply rpartition_dot_app in Hd. rewrite Hd, contains_char_app in Hn.
  by apply orb_false_elim in Hn as [? ?].
Qed.

Lemma simple_name_no_slash n :
  simple_name n = true → Py.contains_char Py.slash n = false.
Proof.
  unfold simple_name. intros Hn.
  repeat (apply andb_true_iff in Hn as [Hn _]). by apply negb_true_iff.
Qed.

Lemma label_names_ne base : base +:+ ".json" ≠ base +:+ ".txt".
Proof. intros E. by apply (inj (String.app base)) in E. Qed.

Lemma is_file_move_key_other ks kd t k :
  k ≠ kd → is_file (move_key ks kd t) k → is_file t k.
Proof.
  intros Hne [d Hd]. unfold move_key in Hd.
  destruct (t !! ks) as [[d'|]|] eqn:E; [|by exists d..].
  rewrite lookup_insert_ne in Hd by done.
  destruct (decide (k = ks)) as [->|]; [by rewrite lookup_delete_eq in Hd|].
  rewrite lookup_delete_ne in Hd by done. by exists d.
Qed.

Lemma label_loop fs src_dir dst_dir base Ks Kd :
  src_dir ≠ "" → dst_dir ≠ "" →
  os.resolve fs src_dir = Some Ks → os.resolve fs dst_dir = Some Kd →
  Py.contains_char Py.slash base = false →
  Kd ≠ [] → (∀ n, Kd ≠ Ks ++ [n]) → (∀ n m, Kd ++ [n] ≠ Ks ++ [m]) →
  tree fs !! Kd = Some Dir →
  (is_file (tree fs) (Ks ++ [base +:+ ".txt"]) →
   tree fs !! (Kd ++ [base +:+ ".txt"]) ≠ Some Dir) →
  (is_file (tree fs) (Ks ++ [base +:+ ".json"]) →
   tree fs !! (Kd ++ [base +:+ ".json"]) ≠ Some Dir) →
  for_each LABEL_EXTS (fun ext =>
    when_ (fun fs' => os.isfile fs' (src_dir +:+ "/" +:+ base +:+ ext))
          (shutil.move (src_dir +:+ "/" +:+ base +:+ ext)
                       (dst_dir +:+ "/" +:+ base +:+ ext))) fs
  = (Ok tt,
     set_tree fs
       (move_key (Ks ++ [base +:+ ".json"]) (Kd ++ [base +:+ ".json"])
       (move_key (Ks ++ [base +:+ ".txt"]) (Kd ++ [base +:+ ".txt"])
                 (tree fs)))).
Proof.
  intros Hs Hd HKs HKd Hb HKd_ne Hne Hne2 Hdir Ht Hj.
  assert (∀ ext, ext = ".txt" ∨ ext = ".json" →
            os.resolve fs (src_dir +:+ "/" +:+ base +:+ ext)
            = Some (Ks ++ [base +:+ ext])) as Hrs.
  { intros ext He. apply resolve_child; [done| |done]. by apply simple_label_name. }
  assert (∀ ext, ext = ".txt" ∨ ext = ".json" →
            os.resolve fs (dst_dir +:+ "/" +:+ base +:+ ext)
            = Some (Kd ++ [base +:+ ext])) as Hrd.
  { intros ext He. apply resolve_child; [done| |done]. by apply simple_label_name. }
  cbn [for_each LABEL_EXTS]. rewrite bind_eq.
  rewrite (guarded_move_spec fs _ _ (Ks ++ [base +:+ ".txt"])
             (Kd ++ [base +:+ ".txt"]));
    [|exact (Hrs _ (or_introl eq_refl))|exact (Hrd _ (or_introl eq_refl))
     |by apply app_ne_nil_key|by apply app_ne_nil_key|done|].
  2:{ by rewrite removelast_snoc, node_at_cons. }
  cbn match. rewrite bind_eq.
  rewrite (guarded_move_spec _ _ _ (Ks ++ [base +:+ ".json"])
             (Kd ++ [base +:+ ".json"]));
    [|exact (Hrs _ (or_intror eq_refl))|exact (Hrd _ (or_intror eq_refl))
     |by apply app_ne_nil_key|by apply app_ne_nil_key| |].
  - done.
  - cbn [tree set_tree]. intros Hf Hdir'. apply move_key_dir in Hdir'.
    apply is_file_move_key_other in Hf; [by apply Hj|]. apply not_eq_sym, Hne2.
  - rewrite removelast_snoc, node_at_set_tree by done.
    rewrite lookup_move_key_other; [done|by apply Hne|].
    intros E. apply (f_equal length) in E. rewrite length_app in E. cbn in E. lia.
Qed.

Section Transfer.

Variables (fs : FS) (img filename dst_img_dir src_lbl_dir dst_lbl_dir : string).
Variables (ki D1 S2 D2 : list string) (d : string).
Hypothesis Hname : simple_name filename = true.
Hypothesis Hd1 : dst_img_dir ≠ "".
Hypothesis Hs2 : src_lbl_dir ≠ "".
Hypothesis Hd2 : dst_lbl_dir ≠ "".
Hypothesis Hki : os.resolve fs img = Some ki.
Hypothesis HD1 : os.resolve fs dst_img_dir = Some D1.
Hypothesis HS2 : os.resolve fs src_lbl_dir = Some S2.
Hypothesis HD2 : os.resolve fs dst_lbl_dir = Some D2.
Hypothesis Hfile : os.node_at fs ki = Some (File d).
Hypothesis HD1_ne : D1 ≠ [].
Hypothesis HD2_ne : D2 ≠ [].
Hypothesis Hc1 : ∀ n, ¬ (D1 ++ [n]) `prefix_of` D2.
Hypothesis Hc2 : ∀ n, ¬ (D2 ++ [n]) `prefix_of` D1.
Hypothesis Hc3 : ∀ n, D2 ≠ S2 ++ [n].
Hypothesis Hc4 : ∀ n m, D2 ++ [n] ≠ S2 ++ [m].
Hypothesis Hc5 : ∀ n m, D1 ++ [n] ≠ S2 ++ [m].

Let base := fst (posixpath.splitext filename).

Hypothesis Hmk1 : succeeds (os.makedirs dst_img_dir) fs = true.
Hypothesis Hmk2 : succeeds (os.makedirs dst_lbl_dir) fs = true.
Hypothesis Hdst : tree fs !! (D1 ++ [filename]) ≠ Some Dir.
Hypothesis Hdst_txt :
  is_file (tree fs) (S2 ++ [base +:+ ".txt"]) →
  tree fs !! (D2 ++ [base +:+ ".txt"]) ≠ Some Dir.
Hypothesis Hdst_json :
  is_file (tree fs) (S2 ++ [base +:+ ".json"]) →
  tree fs !! (D2 ++ [base +:+ ".json"]) ≠ Some Dir.

Lemma not_prefix_snoc {A} (l : list A) x : ¬ (l ++ [x]) `prefix_of` l.
Proof.
  intros [k E]. apply (f_equal length) in E. rewrite !length_app in E.
  cbn in E. lia.
Qed.

Lemma transfer_ok :
  transfer img filename dst_img_dir src_lbl_dir dst_lbl_dir fs
  = (Ok tt, set_tree fs (transferred ki D1 S2 D2 filename (tree fs))).
Proof.
  assert (ki ≠ []) as Hki_ne by (intros ->; done).
  destruct (makedirs_ok _ _ _ HD1 Hmk1) as [Hm1 Hnf1].
  destruct (makedirs_ok _ _ _ HD2 Hmk2) as [Hm2 Hnf2].
  assert (Hfile' : tree fs !! ki = Some (File d)) by by rewrite <- node_at_cons.
  assert (¬ ki `prefix_of` D1) as Hki1.
  { intros Hp. specialize (Hnf1 ki Hki_ne Hp). unfold os.is_file_at in Hnf1.
    by rewrite Hfile in Hnf1. }
  assert (¬ ki `prefix_of` D2) as Hki2.
  { intros Hp. specialize (Hnf2 ki Hki_ne Hp). unfold os.is_file_at in Hnf2.
    by rewrite Hfile in Hnf2. }
  set (T2 := os.mkdirs D2 (os.mkdirs D1 (tree fs))).
  assert (T2 !! ki = Some (File d)) as HT2ki.
  { unfold T2. by rewrite !lookup_mkdirs_other. }
  assert (T2 !! D2 = Some Dir) as HT2D2.
  { unfold T2. by apply lookup_mkdirs_prefix. }
  assert (T2 !! D1 = Some Dir) as HT2D1.
  { unfold T2. rewrite lookup_mkdirs. case_decide; [done|].
    by apply lookup_mkdirs_prefix. }
  assert (∀ n, T2 !! (D1 ++ [n]) = tree fs !! (D1 ++ [n])) as HT2c1.
  { intros n. unfold T2.
    rewrite !lookup_mkdirs_other; [done|apply not_prefix_snoc|apply Hc1]. }
  assert (∀ n, T2 !! (D2 ++ [n]) = tree fs !! (D2 ++ [n])) as HT2c2.
  { intros n. unfold T2.
    rewrite !lookup_mkdirs_other; [done|apply Hc2|apply not_prefix_snoc]. }
  assert (∀ k, is_file T2 k → is_file (tree fs) k) as HT2file.
  { intros k [x Hx]. unfold T2 in Hx. rewrite !lookup_mkdirs in Hx.
    repeat case_decide; try done. by exists x. }
  unfold transfer. rewrite bind_eq, Hm1. cbn match.
  rewrite bind_eq.
  assert (os.makedirs dst_lbl_dir (set_tree fs (os.mkdirs D1 (tree fs)))
          = (Ok tt, set_tree fs T2)) as ->.
  { assert (succeeds (os.makedirs dst_lbl_dir)
                     (set_tree fs (os.mkdirs D1 (tree fs))) = true) as Hs.
    { apply (makedirs_succeeds _ _ D2); [done|]. intros k' Hne Hp.
      unfold os.is_file_at. rewrite node_at_set_tree, lookup_mkdirs by done.
      case_decide; [done|]. specialize (Hnf2 k' Hne Hp).
      unfold os.is_file_at in Hnf2. by rewrite node_at_cons in Hnf2. }
    by destruct (makedirs_ok dst_lbl_dir
                   (set_tree fs (os.mkdirs D1 (tree fs))) D2 HD2 Hs) as [-> _]. }
  cbn match. rewrite bind_eq.
  rewrite (move_spec _ _ _ ki (D1 ++ [filename]) d); cycle 1.
  { done. }
  { by apply resolve_child. }
  { done. }
  { by apply app_ne_nil_key. }
  { done. }
  { cbn. by rewrite HT2c1. }
  { by rewrite removelast_snoc, node_at_set_tree. }
  cbn match.
  pose proof (simple_name_no_slash _ Hname) as Hns.
  pose proof (splitext_no_slash _ Hns) as Hbs. fold base in Hbs. fold base.
  assert (move_key ki (D1 ++ [filename]) T2
          = <[D1 ++ [filename]:=File d]> (delete ki T2)) as HT3.
  { unfold move_key. by rewrite HT2ki. }
  cbn [tree set_tree]. rewrite set_tree_set_tree, <- HT3.
  rewrite (label_loop _ src_lbl_dir dst_lbl_dir base S2 D2); try done.
  - cbn [tree set_tree]. rewrite lookup_move_key_other; [done| |].
    + intros ->. congruence.
    + intros E. apply (Hc1 filename). by rewrite <- E.
  - cbn [tree set_tree]. intros Hf Hdir. apply move_key_dir in Hdir.
    rewrite HT2c2 in Hdir. revert Hdir. apply Hdst_txt.
    apply is_file_move_key_other in Hf; [|apply not_eq_sym, Hc5].
    by apply HT2file.
  - cbn [tree set_tree]. intros Hf Hdir. apply move_key_dir in Hdir.
    rewrite HT2c2 in Hdir. revert Hdir. apply Hdst_json.
    apply is_file_move_key_other in Hf; [|apply not_eq_sym, Hc5].
    by apply HT2file.
Qed.

End Transfer.

Lemma remove_files_transfer rootp img split :
  remove_files rootp img split
  = transfer img (posixpath.basename img) (rem_img_dir rootp split)
             (labels_dir rootp split) (rem_lbl_dir rootp split).
Proof. done. Qed.

Lemma restore_files_transfer rootp split filename :
  restore_files rootp split filename
  = transfer (rem_img_dir rootp split +:+ "/" +:+ filename) filename
             (images_dir rootp split) (rem_lbl_dir rootp split)
             (labels_dir rootp split).
Proof. done. Qed.

(* ================================================================== *)
(** * Listing a directory *)

Lemma child_name_Some k k' n : os.child_name k k' = Some n ↔ k' = k ++ [n].
Proof.
  unfold os.child_name. split.
  - destruct (reverse k') as [|x r] eqn:E; [done|].
    case_decide as Hr; [|done]. intros [= ->]. subst k.
    rewrite <- (reverse_involutive k'), E. by rewrite reverse_cons.
  - intros ->. rewrite reverse_app. cbn. rewrite decide_True; [done|].
    apply reverse_involutive.
Qed.

Lemma elem_of_children fs k n :
  n ∈ os.children fs k ↔ is_Some (tree fs !! (k ++ [n])).
Proof.
  unfold os.children. rewrite elem_of_list_to_set, list_elem_of_omap. split.
  - intros (k' & Hin & Hn). apply child_name_Some in Hn as ->.
    apply list_elem_of_fmap in Hin as ([k'' v] & E & Hin). cbn in E. subst k''.
    apply elem_of_map_to_list in Hin. eauto.
  - intros [v Hv]. exists (k ++ [n]). split; [|by apply child_name_Some].
    apply list_elem_of_fmap. exists (k ++ [n], v). split; [done|].
    by apply elem_of_map_to_list.
Qed.


Lemma rstrip_app_keep c x y :
  Py.rstrip c y ≠ "" → Py.rstrip c (x +:+ y) = x +:+ Py.rstrip c y.
Proof.
  intros Hy. induction x as [|a x IH]; [done|]. rewrite !app_cons_s. simpl.
  rewrite IH. destruct (x +:+ Py.rstrip c y) eqn:E; [|done].
  destruct x; [|done]. by rewrite app_nil_l_s in E.
Qed.

Lemma rstrip_slash_after s :
  s ≠ "" → Py.contains_char Py.slash s = false →
  Py.rstrip Py.slash (s +:+ "/") = s.
Proof.
  unfold Py.contains_char. induction s as [|a s IH]; [done|]. intros _ Hc.
  cbn [list_ascii_of_string existsb] in Hc. apply orb_false_elim in Hc as [Ha Hs].
  rewrite app_cons_s. simpl. destruct s as [|b s].
  - rewrite app_nil_l_s. simpl. by rewrite Ascii.eqb_sym, Ha.
  - rewrite IH by done. done.
Qed.

Lemma rpartition_app_slash h t :
  Py.contains_char Py.slash t = false →
  posixpath.rpartition (h +:+ "/" +:+ t) = Some (h +:+ "/", t).
Proof.
  intros Ht. induction h as [|a h IH].
  - rewrite !app_nil_l_s. change ("/" +:+ t) with (String Py.slash t).
    cbn [posixpath.rpartition]. rewrite rpartition_None by done.
    by rewrite Ascii.eqb_refl.
  - rewrite !(app_cons_s a h). cbn [posixpath.rpartition]. by rewrite IH.
Qed.

Lemma all_slashes_app a b :
  posixpath.all_slashes (a +:+ b)
  = posixpath.all_slashes a && posixpath.all_slashes b.
Proof.
  unfold posixpath.all_slashes. induction a as [|x a IH]; [done|].
  rewrite app_cons_s. cbn [list_ascii_of_string forallb]. by rewrite IH, andb_assoc.
Qed.

Lemma all_slashes_simple s :
  s ≠ "" → Py.contains_char Py.slash s = false → posixpath.all_slashes s = false.
Proof.
  unfold Py.contains_char, posixpath.all_slashes. destruct s as [|a s]; [done|].
  intros _ Hc. cbn [list_ascii_of_string existsb forallb] in *.
  apply orb_false_elim in Hc as [-> _]. done.
Qed.

(** The directory part of the pattern [x/s/*.*] is [x/s]. *)
Lemma dirname_pattern x s :
  simple_name s = true →
  posixpath.dirname ((x +:+ "/" +:+ s) +:+ "/*.*") = x +:+ "/" +:+ s.
Proof.
  intros Hs. pose proof (simple_name_no_slash _ Hs) as Hns.
  assert (s ≠ "") as Hne.
  { intros ->. done. }
  unfold posixpath.dirname, posixpath.split.
  change ((x +:+ "/" +:+ s) +:+ "/*.*") with ((x +:+ "/" +:+ s) +:+ "/" +:+ "*.*").
  rewrite rpartition_app_slash by done. cbn [fst].
  rewrite !all_slashes_app, (all_slashes_simple s) by done.
  rewrite !andb_false_r, andb_false_l.
  rewrite !app_assoc_s.
  rewrite rstrip_app_keep.
  - f_equal. change ("/" +:+ s +:+ "/") with (String Py.slash (s +:+ "/")).
    simpl. rewrite (rstrip_slash_after s) by done. by destruct s.
  - change ("/" +:+ s +:+ "/") with (String Py.slash (s +:+ "/")).
    simpl. rewrite (rstrip_slash_after s) by done. by destruct s.
Qed.

(* ================================================================== *)
(** * Removing and restoring *)

Lemma can_transfer_ok fs img filename dst_img_dir src_lbl_dir dst_lbl_dir
    ki D1 S2 D2 d :
  simple_name filename = true →
  dst_img_dir ≠ "" → src_lbl_dir ≠ "" → dst_lbl_dir ≠ "" →
  os.resolve fs img = Some ki →
  os.resolve fs dst_img_dir = Some D1 →
  os.resolve fs src_lbl_dir = Some S2 →
  os.resolve fs dst_lbl_dir = Some D2 →
  os.node_at fs ki = Some (File d) →
  D1 ≠ [] → D2 ≠ [] → S2 ≠ [] →
  (∀ n, ¬ (D1 ++ [n]) `prefix_of` D2) →
  (∀ n, ¬ (D2 ++ [n]) `prefix_of` D1) →
  (∀ n, D2 ≠ S2 ++ [n]) →
  (∀ n m, D2 ++ [n] ≠ S2 ++ [m]) →
  (∀ n m, D1 ++ [n] ≠ S2 ++ [m]) →
  can_transfer fs filename dst_img_dir src_lbl_dir dst_lbl_dir = true →
  transfer img filename dst_img_dir src_lbl_dir dst_lbl_dir fs
  = (Ok tt, set_tree fs (transferred ki D1 S2 D2 filename (tree fs))).
Proof.
  intros Hname Hd1 Hs2 Hd2 Hki HD1 HS2 HD2 Hfile HD1n HD2n HS2n Hc1 Hc2 Hc3 Hc4 Hc5.
  unfold can_transfer. cbn [forallb LABEL_EXTS].
  rewrite !andb_true_iff, !negb_true_iff.
  intros [[[Hm1 Hm2] Hdst] (Ht & Hj & _)].
  pose proof (simple_name_no_slash _ Hname) as Hns.
  pose proof (splitext_no_slash _ Hns) as Hbs.
  assert (∀ dir K ext, dir ≠ "" → os.resolve fs dir = Some K → K ≠ [] →
            ext = ".txt" ∨ ext = ".json" →
            os.stat fs (dir +:+ "/" +:+ fst (posixpath.splitext filename) +:+ ext)
            = tree fs !! (K ++ [fst (posixpath.splitext filename) +:+ ext]))
    as Hstat.
  { intros dir K ext Hdir HK HKn He.
    rewrite (stat_resolve _ _ (K ++ [fst (posixpath.splitext filename) +:+ ext])).
    - apply node_at_cons. by apply app_ne_nil_key.
    - apply resolve_child; [done| |done]. by apply simple_label_name. }
  apply (transfer_ok fs img filename dst_img_dir src_lbl_dir dst_lbl_dir
                     ki D1 S2 D2 d); try done.
  - unfold os.isdir in Hdst.
    rewrite (stat_resolve _ _ (D1 ++ [filename])) in Hdst
      by by apply resolve_child.
    rewrite node_at_cons in Hdst by by apply app_ne_nil_key.
    intros E. by rewrite E in Hdst.
  - intros [x Hx] Hdir. unfold os.isfile, os.isdir in Ht.
    rewrite (Hstat src_lbl_dir S2 ".txt" Hs2 HS2 HS2n (or_introl eq_refl)),
      (Hstat dst_lbl_dir D2 ".txt" Hd2 HD2 HD2n (or_introl eq_refl)) in Ht.
    by rewrite Hx, Hdir in Ht.
  - intros [x Hx] Hdir. unfold os.isfile, os.isdir in Hj.
    rewrite (Hstat src_lbl_dir S2 ".json" Hs2 HS2 HS2n (or_intror eq_refl)),
      (Hstat dst_lbl_dir D2 ".json" Hd2 HD2 HD2n (or_intror eq_refl)) in Hj.
    by rewrite Hx, Hdir in Hj.
Qed.

Section Endpoints.

Context {F : Type} `{Extern F}.



(** [remove_image] past its two guards. *)
Lemma remove_image_eq req w :
  truthy (root (state w)) = true →
  os.isfile (files w) (norm (files w) (remove_image_path req)) = true →
  remove_image req w
  = match remove_files (root (state w))
            (norm (files w) (remove_image_path req)) (remove_split req)
            (files w) with
    | (Ok _, fs') =>
        let w1 := snd (refresh_images (remove_split req)
                         (mkWorld (state w) (class_names w) fs')) in
        (Ok (mkMoveResp (images (state w1))
               (posixpath.basename (norm (files w) (remove_image_path req)))),
         w1)
    | (Raise e, fs') => (Raise e, mkWorld (state w) (class_names w) fs')
    end.
Proof.
  intros Hr Hf. unfold remove_image. rewrite bind_eq. cbn [gets].
  rewrite Hr. cbn [negb]. rewrite bind_eq. cbn [gets]. rewrite Hf. cbn [negb].
  rewrite bind_eq. unfold on_files at 1.
  destruct (remove_files _ _ _ (files w)) as [[[]|e] fs']; [|done].
  rewrite bind_eq. unfold refresh_images.
  by destruct (os.isdir _ _).
Qed.

Lemma restore_image_eq req w :
  truthy (root (state w)) = true →
  os.isfile (files w) (rem_img_dir (root (state w)) (restore_split req)
                       +:+ "/" +:+ restore_filename req) = true →
  restore_image req w
  = match restore_files (root (state w)) (restore_split req)
            (restore_filename req) (files w) with
    | (Ok _, fs') =>
        let w1 := snd (refresh_images (restore_split req)
                         (mkWorld (state w) (class_names w) fs')) in
        (Ok (mkMoveResp (images (state w1)) (restore_filename req)), w1)
    | (Raise e, fs') => (Raise e, mkWorld (state w) (class_names w) fs')
    end.
Proof.
  intros Hr Hf. unfold restore_image. rewrite bind_eq. cbn [gets].
  rewrite Hr. cbn [negb]. rewrite bind_eq. cbn [gets]. rewrite Hf. cbn [negb].
  rewrite bind_eq. unfold on_files at 1.
  destruct (restore_files _ _ _ (files w)) as [[[]|e] fs']; [|done].
  rewrite bind_eq. unfold refresh_images.
  by destruct (os.isdir _ _).
Qed.

End Endpoints.

(* ================================================================== *)
(** * What the file-system calls can raise, and the directories they make *)

Lemma raises_os_bind {A B} (m : M FS A) (f : A → M FS B) :
  raises_os m → (∀ a, raises_os (f a)) → raises_os (m ≫= f).
Proof.
  intros Hm Hf fs e. rewrite bind_eq.
  destruct (m fs) as [[a|e'] fs'] eqn:E.
  - apply Hf.
  - cbn. intros [= <-]. apply (Hm fs). by rewrite E.
Qed.

Lemma raises_os_when (test : FS → bool) (m : M FS unit) :
  raises_os m → raises_os (when_ test m).
Proof. intros Hm fs e. unfold when_. destruct (test fs); [apply Hm|done]. Qed.

Lemma raises_os_for_each {A} (xs : list A) (body : A → M FS unit) :
  (∀ x, raises_os (body x)) → raises_os (for_each xs body).
Proof.
  intros Hb. induction xs as [|x xs IH]; [by intros fs e|].
  cbn [for_each]. apply raises_os_bind; [apply Hb|done].
Qed.

Lemma raises_os_makedirs p : raises_os (os.makedirs p).
Proof.
  intros fs e. unfold os.makedirs.
  destruct (os.resolve fs p); [|by intros [= <-]].
  destruct (find _ _); [|done]. intros [= <-]. by case_decide.
Qed.

Lemma creat_error_os fs k e : os.creat_error fs k = Some e → os_exn e.
Proof.
  unfold os.creat_error. destruct k; [by intros [= <-]|].
  destruct (os.node_at fs (removelast _)) as [[]|]; try by intros [= <-].
  destruct (os.node_at fs _) as [[]|]; try done. by intros [= <-].
Qed.

Lemma raises_os_rename src dst : raises_os (os.rename_file src dst).
Proof.
  intros fs e. unfold os.rename_file.
  destruct (os.resolve fs src), (os.resolve fs dst); try by intros [= <-].
  destruct (os.node_at fs _) as [[]|]; try by intros [= <-].
  destruct (os.creat_error fs _) eqn:E; [|done].
  intros [= <-]. by eapply creat_error_os.
Qed.

Lemma raises_os_move src dst : raises_os (shutil.move src dst).
Proof.
  intros fs e. unfold shutil.move. destruct (os.isdir fs dst).
  - destruct (os.exists_ _ _); [by intros [= <-]|apply raises_os_rename].
  - apply raises_os_rename.
Qed.

Lemma raises_os_transfer img filename d1 s2 d2 :
  raises_os (transfer img filename d1 s2 d2).
Proof.
  unfold transfer.
  apply raises_os_bind; [apply raises_os_makedirs|intros _].
  apply raises_os_bind; [apply raises_os_makedirs|intros _].
  apply raises_os_bind; [apply raises_os_move|intros _].
  apply raises_os_for_each. intros ext.
  apply raises_os_when, raises_os_move.
Qed.

Lemma resolve_cwd fs p : os.resolve (mkFS (getcwd fs) ∅) p = os.resolve fs p.
Proof. done. Qed.

Lemma keeps_dirs_weaken (P Q : string → list string → Prop) {A} (m : M FS A) :
  (∀ c K, P c K → Q c K) → keeps_dirs P m → keeps_dirs Q m.
Proof.
  intros HPQ Hm fs. destruct (Hm fs) as [Hc Hd]. split; [done|].
  intros K HK. destruct (Hd K HK); auto.
Qed.

Lemma keeps_dirs_bind P {A B} (m : M FS A) (f : A → M FS B) :
  keeps_dirs P m → (∀ a, keeps_dirs P (f a)) → keeps_dirs P (m ≫= f).
Proof.
  intros Hm Hf fs. rewrite bind_eq. destruct (Hm fs) as [Hc Hd].
  destruct (m fs) as [[a|e] fs'] eqn:E; cbn [snd] in *; [|done].
  destruct (Hf a fs') as [Hc' Hd']. split; [congruence|].
  intros K HK. destruct (Hd' K HK) as [HK'|HP]; [auto|].
  right. by rewrite <- Hc.
Qed.

Lemma keeps_dirs_when P (test : FS → bool) (m : M FS unit) :
  keeps_dirs P m → keeps_dirs P (when_ test m).
Proof.
  intros Hm fs. unfold when_. destruct (test fs); [apply Hm|]. cbn. auto.
Qed.

Lemma keeps_dirs_for_each P {A} (xs : list A) (body : A → M FS unit) :
  (∀ x, keeps_dirs P (body x)) → keeps_dirs P (for_each xs body).
Proof.
  intros Hb. induction xs as [|x xs IH].
  - intros fs. cbn. auto.
  - cbn [for_each]. apply keeps_dirs_bind; [apply Hb|done].
Qed.

Lemma keeps_dirs_makedirs p : keeps_dirs (made_by p) (os.makedirs p).
Proof.
  intros fs. unfold os.makedirs.
  destruct (os.resolve fs p) as [k|] eqn:Hk; [|cbn; auto].
  destruct (find _ _); [cbn; auto|]. cbn. split; [done|].
  intros K. rewrite lookup_mkdirs. case_decide as Hin; [|auto].
  intros _. right. exists k. split; [done|].
  by apply elem_of_prefixes in Hin as [_ ?].
Qed.

Lemma keeps_dirs_rename src dst :
  keeps_dirs (fun _ _ => False) (os.rename_file src dst).
Proof.
  intros fs. unfold os.rename_file.
  destruct (os.resolve fs src) as [ks|], (os.resolve fs dst) as [kd|];
    try (cbn; by auto).
  destruct (os.node_at fs ks) as [[d|]|]; try (cbn; by auto).
  destruct (os.creat_error fs kd); cbn; [by auto|]. split; [done|].
  intros K HK. left.
  destruct (decide (K = kd)) as [->|]; [by rewrite lookup_insert_eq in HK|].
  rewrite lookup_insert_ne in HK by done.
  destruct (decide (K = ks)) as [->|]; [by rewrite lookup_delete_eq in HK|].
  by rewrite lookup_delete_ne in HK.
Qed.

Lemma keeps_dirs_move src dst :
  keeps_dirs (fun _ _ => False) (shutil.move src dst).
Proof.
  intros fs. unfold shutil.move. destruct (os.isdir fs dst).
  - destruct (os.exists_ _ _); [cbn; by auto|apply keeps_dirs_rename].
  - apply keeps_dirs_rename.
Qed.

Lemma keeps_dirs_transfer img filename d1 s2 d2 :
  keeps_dirs (fun c K => made_by d1 c K ∨ made_by d2 c K)
             (transfer img filename d1 s2 d2).
Proof.
  unfold transfer.
  apply keeps_dirs_bind; [|intros _; apply keeps_dirs_bind; [|intros _]].
  - eapply keeps_dirs_weaken; [|apply keeps_dirs_makedirs]. cbn. auto.
  - eapply keeps_dirs_weaken; [|apply keeps_dirs_makedirs]. cbn. auto.
  - apply keeps_dirs_bind; [|intros _].
    + eapply keeps_dirs_weaken; [|apply keeps_dirs_move]. done.
    + apply keeps_dirs_for_each. intros ext. apply keeps_dirs_when.
      eapply keeps_dirs_weaken; [|apply keeps_dirs_move]. done.
Qed.

Ltac key_neq2 :=
  let E := fresh in
  intros E; rewrite <- ?app_assoc in E; cbn [app] in E;
  first [ apply app_inv_head in E; simplify_eq/=; done
        | key_inv; done ].

Lemma basename_child dir name :
  Py.contains_char Py.slash name = false →
  posixpath.basename (dir +:+ "/" +:+ name) = name.
Proof.
  intros Hn. unfold posixpath.basename, posixpath.split.
  by rewrite rpartition_app_slash.
Qed.

Section Layout2.

Variables (fs : FS) (rootp split : string) (kr : list string).
Hypothesis Hroot : rootp ≠ "".
Hypothesis Hkr : os.resolve fs rootp = Some kr.
Hypothesis Hsplit : simple_name split = true.

Lemma remove_files_run img ki d :
  simple_name (posixpath.basename img) = true →
  os.resolve fs img = Some ki →
  os.node_at fs ki = Some (File d) →
  can_remove fs rootp split img = true →
  remove_files rootp img split fs
  = (Ok tt,
     set_tree fs
       (transferred ki (kr ++ ["removed"; split; "images"])
                    (kr ++ ["labels"; split])
                    (kr ++ ["removed"; split; "labels"])
                    (posixpath.basename img) (tree fs))).
Proof.
  intros Hname Hki Hfile Hcan. rewrite remove_files_transfer.
  apply (can_transfer_ok fs img _ _ _ _ ki _ _ _ d); try done.
  - by apply app_ne_nil_s.
  - by apply app_ne_nil_s.
  - by apply app_ne_nil_s.
  - by apply resolve_rem_img_dir.
  - by apply resolve_labels_dir.
  - by apply resolve_rem_lbl_dir.
  - by apply app_ne_nil_key.
  - by apply app_ne_nil_key.
  - by apply app_ne_nil_key.
  - intros n. key_neq.
  - intros n. key_neq.
  - intros n. key_neq2.
  - intros n m. key_neq2.
  - intros n m. key_neq2.
Qed.


End Layout2.

Section RemoveClaims.

Context {F : Type} `{Extern F}.

Lemma remove_image_missing req w :
  truthy (root (state w)) = true →
  os.isfile (files w) (norm (files w) (remove_image_path req)) = false →
  remove_image req w = (Raise (HTTPException 404 "Image not found"), w).
Proof.
  intros Hr Hf. unfold remove_image. rewrite bind_eq. cbn [gets].
  rewrite Hr. cbn [negb]. rewrite bind_eq. cbn [gets]. by rewrite Hf.
Qed.

Lemma files_refresh split w : files (snd (refresh_images split w)) = files w.
Proof. unfold refresh_images. by destruct (os.isdir _ _). Qed.

Lemma state_refresh split w :
  state (snd (refresh_images split w))
  = if os.isdir (files w) (images_dir (root (state w)) split)
    then set_images (list_images (files w) (images_dir (root (state w)) split))
                    (state w)
    else state w.
Proof. unfold refresh_images, images_dir. by destruct (os.isdir _ _). Qed.


Lemma isfile_stat fs p : os.isfile fs p = true ↔ ∃ d, os.stat fs p = Some (File d).
Proof.
  unfold os.isfile. destruct (os.stat fs p) as [[d|]|]; split; try done.
  - eauto.
  - by intros [? ?].
  - by intros [? ?].
Qed.

Lemma stat_file_key fs p d :
  os.stat fs p = Some (File d) →
  ∃ k, os.resolve fs p = Some k ∧ k ≠ [] ∧ tree fs !! k = Some (File d).
Proof.
  unfold os.stat. destruct (os.resolve fs p) as [k|]; [|done]. cbn.
  intros Hk. exists k. split; [done|]. destruct k; [done|]. done.
Qed.


End RemoveClaims.

Section FlatClaims.

Context {F : Type} `{Extern F}.

(** The answer of [remove_image] carries the cached list as it is after
    the call. *)
Lemma remove_image_unloaded req w :
  truthy (root (state w)) = false →
  remove_image req w = (Raise (HTTPException 400 "No project loaded"), w).
Proof.
  intros Hr. unfold remove_image. rewrite bind_eq. cbn [gets]. by rewrite Hr.
Qed.

Lemma remove_image_resp req w resp :
  fst (remove_image req w) = Ok resp →
  move_images resp = images (state (snd (remove_image req w))).
Proof.
  destruct (truthy (root (state w))) eqn:Hr;
    [|by rewrite remove_image_unloaded].
  destruct (os.isfile (files w) (norm (files w) (remove_image_path req))) eqn:Hf;
    [|by rewrite remove_image_missing].
  rewrite remove_image_eq by done.
  destruct (remove_files _ _ _ (files w)) as [[[]|e] fs']; [|done].
  cbn. by intros [= <-].
Qed.

Lemma isdir_key fs p k :
  os.resolve fs p = Some k → k ≠ [] →
  os.isdir fs p = true ↔ tree fs !! k = Some Dir.
Proof.
  intros Hk Hne. unfold os.isdir. rewrite (stat_resolve _ _ k), node_at_cons by done.
  destruct (tree fs !! k) as [[]|]; split; done.
Qed.

(** C10. In a flat project ([images/<split>] is no directory under the
    root) [remove_image] leaves [state.images] as it was, whatever the
    outcome, and answers with that list; when the image lies in the root
    folder and the removed area can take it, the call returns, the file
    is in [removed/<split>/images/] and no longer at its path, and its
    path is still in the list that is returned. *)
Theorem remove_image_flat_keeps_list (req : RemoveReq) (w : World) :
  let fs := files w in
  let rootp := root (state w) in
  let split := remove_split req in
  let img := norm fs (remove_image_path req) in
  let filename := posixpath.basename img in
  let dst := rem_img_dir rootp split +:+ "/" +:+ filename in
  let r := remove_image req w in
  truthy rootp = true →
  simple_name split = true →
  os.isdir fs (images_dir rootp split) = false →
  images (state (snd r)) = images (state w)
  ∧ (∀ resp, fst r = Ok resp → move_images resp = images (state w))
  ∧ (∀ d,
       os.stat fs img = Some (File d) →
       simple_name filename = true →
       img = rootp +:+ "/" +:+ filename →
       can_remove fs rootp split img = true →
       ∃ resp,
         fst r = Ok resp
         ∧ os.stat (files (snd r)) dst = Some (File d)
         ∧ os.exists_ (files (snd r)) img = false
         ∧ (img ∈ images (state w) → img ∈ move_images resp)).
Proof.
  intros fs rootp split img filename dst r Hr Hsplit Hflat.
  pose proof Hr as Hr'. apply truthy_ne in Hr'.
  destruct (resolve_is_Some fs rootp Hr') as [kr Hkr].
  pose proof (resolve_images_dir fs rootp split kr Hr' Hkr Hsplit) as HKi.
  pose proof (resolve_rem_img_dir fs rootp split kr Hr' Hkr Hsplit) as HK1.
  pose proof (resolve_rem_lbl_dir fs rootp split kr Hr' Hkr Hsplit) as HK2.
  assert (kr ++ ["images"; split] ≠ []) as HKi_ne by by apply app_ne_nil_key.
  assert (tree fs !! (kr ++ ["images"; split]) ≠ Some Dir) as Hnd.
  { intros E. apply (isdir_key fs _ _ HKi HKi_ne) in E. congruence. }
  assert (images (state (snd r)) = images (state w)) as Hsame.
  { unfold r. destruct (os.isfile fs img) eqn:Hf.
    - rewrite remove_image_eq by done. fold fs rootp split img.
      destruct (remove_files rootp img split fs) as [[[]|e] fs'] eqn:E; [|done].
      cbn [snd]. rewrite state_refresh. cbn [files state].
      destruct (os.isdir fs' _) eqn:Hd; [|done]. exfalso.
      destruct (keeps_dirs_transfer img filename (rem_img_dir rootp split)
                  (labels_dir rootp split) (rem_lbl_dir rootp split) fs)
        as [Hcwd Hdirs].
      rewrite <- remove_files_transfer, E in Hcwd, Hdirs. cbn [snd] in *.
      assert (os.resolve fs' (images_dir rootp split)
              = Some (kr ++ ["images"; split])) as HKi'.
      { rewrite <- HKi. unfold os.resolve, os.absolute. by rewrite Hcwd. }
      apply (isdir_key fs' _ _ HKi' HKi_ne) in Hd.
      destruct (Hdirs _ Hd) as [?|[(k & Hk & Hp)|(k & Hk & Hp)]]; [done|..].
      + rewrite resolve_cwd, HK1 in Hk. injection Hk as <-. revert Hp. key_neq.
      + rewrite resolve_cwd, HK2 in Hk. injection Hk as <-. revert Hp. key_neq.
    - by rewrite remove_image_missing. }
  split; [done|]. split.
  { intros resp Hresp. rewrite <- Hsame. by apply remove_image_resp. }
  intros d Hst Hname Himg Hcan.
  destruct (stat_file_key _ _ _ Hst) as (ki & Hki & Hki_ne & Hfile).
  assert (os.isfile fs img = true) as Hisf by (apply isfile_stat; eauto).
  assert (ki = kr ++ [filename]) as ->.
  { rewrite Himg in Hki. rewrite (resolve_child fs rootp filename kr) in Hki by done.
    by injection Hki. }
  pose proof (remove_files_run fs rootp split kr Hr' Hkr Hsplit img _ d
                Hname Hki) as Hrun.
  rewrite node_at_cons in Hrun by done. specialize (Hrun Hfile Hcan).
  assert (fst r = Ok (mkMoveResp (images (state w)) filename)) as Hreq.
  { rewrite <- Hsame. unfold r. rewrite remove_image_eq by done.
    fold fs rootp split img. by rewrite Hrun. }
  assert (files (snd r)
          = set_tree fs
              (transferred (kr ++ [filename]) (kr ++ ["removed"; split; "images"])
                 (kr ++ ["labels"; split]) (kr ++ ["removed"; split; "labels"])
                 filename (tree fs))) as Hfiles.
  { unfold r. rewrite remove_image_eq by done. fold fs rootp split img.
    rewrite Hrun. cbn [snd]. by rewrite files_refresh. }
  exists (mkMoveResp (images (state w)) filename). split; [done|].
  rewrite Hfiles.
  destruct (makedirs_ok _ _ _ HK1) as [_ Hnf1].
  { unfold can_remove, can_transfer in Hcan.
    by repeat (apply andb_true_iff in Hcan as [Hcan _]). }
  destruct (makedirs_ok _ _ _ HK2) as [_ Hnf2].
  { unfold can_remove, can_transfer in Hcan.
    apply andb_true_iff in Hcan as [Hcan _].
    apply andb_true_iff in Hcan as [Hcan _].
    by apply andb_true_iff in Hcan as [_ Hcan]. }
  set (base := fst (posixpath.splitext filename)).
  assert (os.mkdirs (kr ++ ["removed"; split; "labels"])
            (os.mkdirs (kr ++ ["removed"; split; "images"]) (tree fs))
          !! (kr ++ [filename]) = Some (File d)) as HT2ki.
  { rewrite !lookup_mkdirs_other; [done|..].
    - intros Hp. specialize (Hnf1 _ Hki_ne Hp). unfold os.is_file_at in Hnf1.
      by rewrite node_at_cons, Hfile in Hnf1.
    - intros Hp. specialize (Hnf2 _ Hki_ne Hp). unfold os.is_file_at in Hnf2.
      by rewrite node_at_cons, Hfile in Hnf2. }
  assert (os.resolve fs dst = Some (kr ++ ["removed"; split; "images"; filename]))
    as Hkd.
  { unfold dst.
    rewrite (resolve_child fs _ filename (kr ++ ["removed"; split; "images"]));
      [by rewrite <- app_assoc|by apply app_ne_nil_s|done|done]. }
  split; [|split].
  - rewrite (stat_resolve _ _ (kr ++ ["removed"; split; "images"; filename]))
      by done.
    rewrite node_at_set_tree by by apply app_ne_nil_key.
    unfold transferred. fold base. rewrite <- !app_assoc. cbn [app].
    rewrite !lookup_move_key_other by key_neq2.
    by rewrite lookup_move_key_dst, HT2ki.
  - unfold os.exists_. rewrite (stat_resolve _ _ (kr ++ [filename])) by done.
    rewrite node_at_set_tree by done.
    unfold transferred. fold base. rewrite <- !app_assoc. cbn [app].
    rewrite !lookup_move_key_other by key_neq2.
    rewrite lookup_move_key_src, HT2ki; [done|key_neq2].
  - done.
Qed.

End FlatClaims.

Ltac key_ne :=
  let E := fresh in
  intros E; rewrite <- ?app_assoc in E; cbn [app] in E;
  first [ apply app_inv_head in E; simplify_eq/=; done
        | key_inv; done ].

Ltac lookup_other :=
  repeat first [ rewrite lookup_move_key_other by key_ne
               | rewrite lookup_mkdirs_other by key_ne ].





Section RoundTrip.

Context {F : Type} `{Extern F}.


End RoundTrip.

(* ================================================================== *)
(** * The text layer *)

Section TextLayer.

Lemma res_bind_ok {A B} (r : res A) (f : A → res B) (b : B) :
  r ≫= f = Ok b → ∃ a, r = Ok a ∧ f a = Ok b.
Proof. destruct r as [a|e]; [|done]. intros Hf. by exists a. Qed.

Lemma feed_app r b1 b2 :
  io.feed r (b1 ++ b2)
  = '(l1, r1) ← io.feed r b1; '(l2, r2) ← io.feed r1 b2; Ok (l1 ++ l2, r2).
Proof.
  revert r. induction b1 as [|b b1 IH]; intros r.
  - cbn. by destruct (io.feed r b2) as [[l2 r2]|e].
  - cbn [app io.feed]. unfold mbind, res_bind.
    destruct (codecs.utf_8_step (io.undecoded r) b) as [[p c]|e]; [|done].
    destruct (match c with
              | Some c0 => io.accept c0 (io.pendingcr r) (io.unfinished r)
              | None => ([], io.pendingcr r, io.unfinished r)
              end) as [[ls cr] line].
    rewrite IH. unfold mbind, res_bind.
    destruct (io.feed (io.mkReader p cr line) b1) as [[l1 r1]|e]; [|done].
    destruct (io.feed r1 b2) as [[l2 r2]|e]; [|done].
    by rewrite app_assoc.
Qed.

Lemma concat_chunks_of fuel size bytes :
  concat (io.chunks_of fuel size bytes) = bytes.
Proof.
  revert bytes. induction fuel as [|fuel IH]; intros bytes.
  - destruct bytes; [done|]. cbn. by rewrite app_nil_r.
  - destruct bytes as [|b bytes]; [done|].
    cbn [io.chunks_of concat]. rewrite IH. apply take_drop.
Qed.

Lemma concat_chunks bytes : concat (io.chunks bytes) = bytes.
Proof. apply concat_chunks_of. Qed.

End TextLayer.

Section ChunkedRead.

Context {F : Type} `{PyFloat F} `{Extern F}.

Lemma decode_lines_app l1 l2 w h :
  decode_lines (l1 ++ l2) w h
  = r1 ← decode_lines l1 w h; r2 ← decode_lines l2 w h; Ok (r1 ++ r2).
Proof.
  induction l1 as [|l l1 IH].
  - cbn. by destruct (decode_lines l2 w h).
  - cbn [app decode_lines]. rewrite IH. unfold mbind, res_bind.
    destruct (decode_line l w h) as [r|e]; [|done].
    destruct (decode_lines l1 w h) as [r1|e]; [|done].
    destruct (decode_lines l2 w h) as [r2|e]; [|done].
    by rewrite app_assoc.
Qed.

(** When the whole content decodes, reading it in chunks gives what its
    lines give. *)
Lemma decode_chunks_lines chunks r ls r' rest w h :
  io.feed r (concat chunks) = Ok (ls, r') →
  io.finish r' = Ok rest →
  decode_chunks chunks r w h = decode_lines (ls ++ rest) w h.
Proof.
  revert r ls. induction chunks as [|c cs IH]; intros r ls.
  - cbn. intros [= <- <-] ->. done.
  - cbn [concat decode_chunks]. rewrite feed_app. unfold mbind, res_bind.
    destruct (io.feed r c) as [[l1 r1]|e]; [|done].
    destruct (io.feed r1 (concat cs)) as [[l2 r2]|e] eqn:Hcs; [|done].
    intros [= <- <-] Hfin. rewrite (IH r1 l2 Hcs Hfin).
    rewrite <- app_assoc, (decode_lines_app l1). unfold mbind, res_bind.
    by destruct (decode_lines l1 w h).
Qed.

(** When the content does not decode, reading it in chunks raises. *)
Lemma decode_chunks_undecodable chunks r w h :
  is_ok ('(ls, r') ← io.feed r (concat chunks); io.finish r') = false →
  is_ok (decode_chunks chunks r w h) = false.
Proof.
  revert r. induction chunks as [|c cs IH]; intros r.
  - cbn. unfold mbind, res_bind. by destruct (io.finish r).
  - cbn [concat decode_chunks]. rewrite feed_app. unfold mbind, res_bind.
    destruct (io.feed r c) as [[l1 r1]|e]; [|done].
    intros Hbad.
    assert (is_ok (decode_chunks cs r1 w h) = false) as Hcs.
    { apply IH. unfold mbind, res_bind.
      by destruct (io.feed r1 (concat cs)) as [[l2 r2]|e]. }
    destruct (decode_lines l1 w h); [|done].
    by destruct (decode_chunks cs r1 w h).
Qed.

Lemma decode_chunks_decodable bytes lines w h :
  io.lines bytes = Ok lines →
  decode_chunks (io.chunks bytes) io.start w h = decode_lines lines w h.
Proof.
  unfold io.lines. intros Hl.
  apply res_bind_ok in Hl as ([ls r] & Hfeed & Hl).
  apply res_bind_ok in Hl as (rest & Hfin & [= <-]).
  apply (decode_chunks_lines _ _ _ r); [|done]. by rewrite concat_chunks.
Qed.

Lemma decode_chunks_raises bytes w h :
  is_ok (io.lines bytes) = false →
  is_ok (decode_chunks (io.chunks bytes) io.start w h) = false.
Proof.
  unfold io.lines. intros Hl. apply decode_chunks_undecodable.
  rewrite concat_chunks. revert Hl. unfold mbind, res_bind.
  destruct (io.feed io.start bytes) as [[ls r]|e]; [|done].
  by destruct (io.finish r).
Qed.

End ChunkedRead.

(* ================================================================== *)
(** * The label codec *)

Section Codec.

Context {F : Type} `{PyFloat F} `{Extern F}.

(** C9. A label path that names nothing, or a file of zero bytes, decodes
    to the empty list, whatever the dimensions. *)
Theorem read_missing_or_empty (fs : FS) (label_path : string) (w h : Z) :
  os.exists_ fs label_path = false ∨ os.stat fs label_path = Some (File "") →
  read_yolo_labels fs label_path w h = Ok [].
Proof.
  unfold read_yolo_labels, os.isfile, os.exists_, os.getsize.
  intros [He|He].
  - by destruct (os.stat fs label_path) as [[]|].
  - by rewrite He.
Qed.

Lemma decode_line_skip line w h :
  five_fields line = false → decode_line line w h = Ok None.
Proof.
  unfold five_fields, decode_line. intros Hf.
  destruct (Unicode.split line) as [|a [|b [|c [|d [|e [|g l]]]]]]; done.
Qed.

Lemma decode_lines_filter lines w h :
  decode_lines lines w h = decode_lines (List.filter five_fields lines) w h.
Proof.
  induction lines as [|l lines IH]; [done|]. cbn [decode_lines List.filter].
  destruct (five_fields l) eqn:Hf.
  - cbn [decode_lines]. by rewrite IH.
  - rewrite decode_line_skip by done. rewrite <- IH.
    unfold mbind, res_bind. by destruct (decode_lines lines w h).
Qed.

Lemma decode_line_five line w h r :
  five_fields line = true → decode_line line w h = Ok r → is_Some r.
Proof.
  unfold five_fields, decode_line.
  destruct (Unicode.split line) as [|a [|b [|c [|d [|e [|g l]]]]]]; try done.
  intros _.
  destruct (float_of_text a), (float_of_text b), (float_of_text c),
    (float_of_text d), (float_of_text e); try done.
  unfold mbind, res_bind.
  repeat match goal with
         | |- context [match ?x with Ok _ => _ | Raise _ => _ end] =>
             destruct x; [|done]
         end.
  intros [= <-]. eauto.
Qed.

Lemma decode_lines_ok lines w h :
  Forall (fun l => five_fields l = true → is_ok (decode_line l w h) = true) lines →
  ∃ rects, decode_lines lines w h = Ok rects
           ∧ length rects = length (List.filter five_fields lines).
Proof.
  induction 1 as [|l lines Hl _ (rects & IH & Hlen)]; [by exists []|].
  cbn [decode_lines List.filter]. rewrite IH. unfold mbind, res_bind.
  destruct (five_fields l) eqn:Hf.
  - specialize (Hl eq_refl).
    destruct (decode_line l w h) as [r|] eqn:Hd; [|done].
    destruct (decode_line_five l w h r Hf Hd) as [x ->].
    exists (x :: rects). cbn. by rewrite Hlen.
  - rewrite decode_line_skip by done. by exists rects.
Qed.

Lemma read_yolo_labels_file fs label_path w h data :
  os.stat fs label_path = Some (File data) →
  read_yolo_labels fs label_path w h
  = if decide (data = "") then Ok []
    else decode_chunks (io.chunks (bytes_of data)) io.start w h.
Proof.
  intros Hst. unfold read_yolo_labels, os.isfile, os.getsize, os.read_bytes.
  rewrite Hst. cbn. destruct data; done.
Qed.

Lemma read_yolo_labels_lines fs label_path w h data lines :
  os.stat fs label_path = Some (File data) →
  io.lines (bytes_of data) = Ok lines →
  read_yolo_labels fs label_path w h = decode_lines lines w h.
Proof.
  intros Hst Hl. rewrite (read_yolo_labels_file _ _ _ _ _ Hst).
  destruct (decide (data = "")) as [->|Hne].
  - cbv in Hl. by injection Hl as <-.
  - by apply decode_chunks_decodable.
Qed.

(** C4, as the code has it. A line whose field count is not 5 is skipped.
    When the bytes of the file are well-formed UTF-8, the file decodes as
    its lines without these lines do, so the 5-field lines are still
    decoded; and when every 5-field line is accepted by [float] and
    [int], the result is one rectangle for each of them. (A 5-field line
    that [float] refuses makes the call raise.) When the bytes are not
    well-formed UTF-8, the call raises. *)
Theorem read_skips_other_field_counts (fs : FS) (label_path data : string)
    (w h : Z) :
  os.stat fs label_path = Some (File data) →
  (∀ line, five_fields line = false → decode_line line w h = Ok None)
  ∧ (∀ lines, io.lines (bytes_of data) = Ok lines →
       read_yolo_labels fs label_path w h
       = decode_lines (List.filter five_fields lines) w h
       ∧ (Forall (fun l => five_fields l = true →
                           is_ok (decode_line l w h) = true) lines →
          ∃ rects, read_yolo_labels fs label_path w h = Ok rects
                   ∧ length rects = length (List.filter five_fields lines)))
  ∧ (is_ok (io.lines (bytes_of data)) = false →
     is_ok (read_yolo_labels fs label_path w h) = false).
Proof.
  intros Hst. split; [intros; by apply decode_line_skip|]. split.
  - intros lines Hl. rewrite (read_yolo_labels_lines _ _ _ _ _ _ Hst Hl). split.
    + apply decode_lines_filter.
    + apply decode_lines_ok.
  - intros Hbad. rewrite (read_yolo_labels_file _ _ _ _ _ Hst).
    destruct (decide (data = "")) as [->|Hne]; [done|].
    by apply decode_chunks_raises.
Qed.

(** C2. Saving an empty list never writes: every regular file afterwards
    was there before, with the same content. When the directory of the
    label path can be made, no regular file is left at the path, and
    nothing at all unless the path names a directory, the one case in
    which the call then raises. When the directory cannot be made, the
    call raises and changes nothing; for a path with a directory part,
    as [save_labels] passes it, this happens only when a regular file
    sits at the directory or above it. *)
Theorem save_empty_deletes (fs : FS) (label_path : string) (w h : Z) :
  let made := succeeds (os.makedirs (posixpath.dirname label_path)) fs in
  let r := save_yolo_labels label_path ([] : list (list F)) w h fs in
  (∀ k d, tree (snd r) !! k = Some (File d) → tree fs !! k = Some (File d))
  ∧ (made = true →
     os.isfile (snd r) label_path = false
     ∧ (if os.isdir (snd r) label_path then fst r = Raise IsADirectoryError
        else fst r = Ok tt ∧ os.exists_ (snd r) label_path = false))
  ∧ (made = false →
     is_ok (fst r) = false ∧ snd r = fs
     ∧ (posixpath.dirname label_path ≠ "" →
        ∃ kd k, os.resolve fs (posixpath.dirname label_path) = Some kd
                ∧ k ∈ os.prefixes kd ∧ os.is_file_at fs k = true)).
Proof.
  intros made r.
  assert (made = false → posixpath.dirname label_path ≠ "" →
          ∃ kd k, os.resolve fs (posixpath.dirname label_path) = Some kd
                  ∧ k ∈ os.prefixes kd ∧ os.is_file_at fs k = true) as Hway.
  { unfold made, succeeds, os.makedirs, os.resolve. intros Hm Hne.
    rewrite decide_False in Hm |- * by done.
    destruct (find _ _) as [k|] eqn:Hfind; [|done].
    apply find_some in Hfind as [Hin Hfile].
    eexists _, k. split; [done|]. split; [by apply list_elem_of_In|done]. }
  assert (made = false → is_ok (fst r) = false ∧ snd r = fs) as Hfail.
  { unfold made, succeeds, r, save_yolo_labels. rewrite bind_eq.
    unfold os.makedirs.
    destruct (os.resolve fs (posixpath.dirname label_path)) as [kd|]; [|done].
    by destruct (find (os.is_file_at fs) (os.prefixes kd)). }
  destruct made eqn:Hmk; cycle 1.
  { destruct (Hfail eq_refl) as [Hraise ->]. split; [done|]. split; [done|].
    intros _. split; [done|]. split; [done|]. by apply Hway. }
  clear Hfail Hway. unfold made in Hmk.
  destruct (os.resolve fs (posixpath.dirname label_path)) as [kd|] eqn:Hkd.
  2:{ unfold succeeds, os.makedirs in Hmk. by rewrite Hkd in Hmk. }
  destruct (makedirs_ok _ _ _ Hkd Hmk) as [Hm _].
  assert (os.isfile (snd r) label_path = false
          ∧ (if os.isdir (snd r) label_path then fst r = Raise IsADirectoryError
             else fst r = Ok tt ∧ os.exists_ (snd r) label_path = false)
          ∧ (∀ k d, tree (snd r) !! k = Some (File d) →
                    tree fs !! k = Some (File d))) as (H1 & H2 & H3);
    [|by repeat split].
  unfold r, save_yolo_labels. rewrite bind_eq, Hm. cbn match.
  set (fs1 := set_tree fs (os.mkdirs kd (tree fs))).
  assert (∀ k d, tree fs1 !! k = Some (File d) → tree fs !! k = Some (File d))
    as Hsub.
  { intros k d. cbn. rewrite lookup_mkdirs. by case_decide. }
  unfold when_, os.exists_, os.remove, os.isfile, os.isdir, os.stat.
  destruct (os.resolve fs1 label_path) as [k|] eqn:Hk;
    [|cbn; rewrite ?Hk; cbn; by auto].
  cbn [mbind option_bind].
  destruct (os.node_at fs1 k) as [[d|]|] eqn:Hn; cbn; rewrite ?Hk; cbn.
  - assert (k ≠ []) as Hne by (intros ->; done).
    rewrite !resolve_set_tree, Hk. cbn [mbind option_bind].
    rewrite node_at_set_tree, lookup_delete_eq by done.
    split; [done|]. split; [done|].
    intros k' d'. destruct (decide (k' = k)) as [->|].
    + by rewrite lookup_delete_eq.
    + rewrite lookup_delete_ne by done. apply Hsub.
  - rewrite Hn. auto.
  - rewrite Hn. auto.
Qed.

End Codec.

(* ================================================================== *)
(** * Export *)

Section ExportAll.

Context {F : Type} `{PyFloat F} `{Extern F}.

(** C5, as the code has it. There is no unsupported format: a request whose
    format is not ["YOLO (.txt)"] is served as the JSON manifest, whatever
    the string. *)
Theorem export_other_format_is_json (req : ExportReq) (w : World) :
  fmt req ≠ "YOLO (.txt)" →
  export_all req w = export_all (mkExportReq (output_dir req) "JSON") w.
Proof.
  intros Hf. unfold export_all. cbn [fmt output_dir].
  rewrite (bool_decide_eq_false_2 _ Hf).
  by rewrite (bool_decide_eq_false_2 ("JSON" = "YOLO (.txt)")).
Qed.

End ExportAll.

(* ================================================================== *)
(** * Opening a project *)

Section Open.

Context {F : Type} `{Extern F}.

Lemma choose_split_expected fs rootp :
  choose_split (split_files fs rootp) = expected_split fs rootp.
Proof.
  unfold choose_split, expected_split, split_nonempty, split_present,
    split_files, non_empty, images_dir, SPLITS.
  cbn [omap list_omap find].
  destruct (os.isdir fs (rootp +:+ "/images/" +:+ "train"));
    destruct (os.isdir fs (rootp +:+ "/images/" +:+ "val"));
    destruct (os.isdir fs (rootp +:+ "/images/" +:+ "test"));
    destruct (list_images fs (rootp +:+ "/images/" +:+ "train"));
    destruct (list_images fs (rootp +:+ "/images/" +:+ "val"));
    destruct (list_images fs (rootp +:+ "/images/" +:+ "test"));
    reflexivity.
Qed.

Lemma dict_get_split_files fs rootp s :
  s ∈ SPLITS →
  dict_get s (split_files fs rootp)
  = if split_present fs rootp s then list_images fs (images_dir rootp s) else [].
Proof.
  unfold split_present, split_files, images_dir, SPLITS.
  cbn [omap list_omap].
  intros Hs. repeat (apply elem_of_cons in Hs as [->|Hs]);
    [..|by apply elem_of_nil in Hs];
    destruct (os.isdir fs (rootp +:+ "/images/" +:+ "train"));
    destruct (os.isdir fs (rootp +:+ "/images/" +:+ "val"));
    destruct (os.isdir fs (rootp +:+ "/images/" +:+ "test"));
    reflexivity.
Qed.

Lemma choose_split_in_SPLITS fs rootp :
  choose_split (split_files fs rootp) ∈ SPLITS.
Proof.
  rewrite choose_split_expected.
  unfold expected_split, SPLITS. cbn [find].
  repeat match goal with
         | |- context [if ?b then _ else _] => destruct b
         end; set_solver.
Qed.

Lemma dict_get_choose_split fs rootp :
  let sf := split_files fs rootp in
  dict_get (choose_split sf) sf
  = if split_present fs rootp (choose_split sf)
    then list_images fs (images_dir rootp (choose_split sf))
    else [].
Proof. apply dict_get_split_files, choose_split_in_SPLITS. Qed.

Lemma list_images_sorted fs path : Sorted String.le (list_images fs path).
Proof. unfold list_images. apply Sorted_merge_sort. apply _. Qed.

Lemma ensure_labels_cwd rootp fs :
  getcwd (snd (ensure_labels rootp fs)) = getcwd fs.
Proof.
  unfold ensure_labels.
  assert (keeps_dirs (fun _ _ => True)
            (for_each SPLITS (fun s =>
               when_ (fun fs0 => os.isdir fs0 (rootp +:+ "/images/" +:+ s))
                     (os.makedirs (rootp +:+ "/labels/" +:+ s))))) as Hk.
  { apply keeps_dirs_for_each. intros s. apply keeps_dirs_when.
    eapply keeps_dirs_weaken; [|apply keeps_dirs_makedirs]. done. }
  by destruct (Hk fs).
Qed.

(** [open_project] on a root with an [images] directory. *)
Lemma open_project_structured req w :
  let fs := files w in
  let path := norm fs (open_path req) in
  let rootp := pick_root fs (open_mode req) path in
  os.isdir fs path = true →
  os.isdir fs (rootp +:+ "/images") = true →
  open_project req w
  = match ensure_labels rootp fs with
    | (Ok _, fs1) =>
        let sf := split_files fs1 rootp in
        let st' := mkState rootp (open_mode req) (choose_split sf)
                           (dict_get (choose_split sf) sf) in
        (Ok (mkOpenProjectResp rootp (open_mode req) (split st') (images st')
               (length (images st')) (class_names w)),
         mkWorld st' (class_names w) fs1)
    | (Raise e, fs1) =>
        (Raise e,
         mkWorld (mkState rootp (open_mode req) (split (state w))
                          (images (state w)))
                 (class_names w) fs1)
    end.
Proof.
  destruct w as [[r m s i] cn fs0]. cbn zeta. cbn [files state class_names].
  intros Hp Hi. unfold open_project.
  rewrite bind_eq. cbn [gets files]. rewrite Hp. cbn [negb].
  rewrite bind_eq. cbn [set_state modify]. rewrite bind_eq.
  cbn [set_state modify]. rewrite bind_eq. rewrite Hi.
  rewrite bind_eq. unfold on_files at 1. cbn [files].
  destruct (ensure_labels _ fs0) as [[[]|e] fs1]; reflexivity.
Qed.

Lemma open_project_root req w resp w' :
  open_project req w = (Ok resp, w') →
  os.isdir (files w) (norm (files w) (open_path req)) = true
  ∧ root (state w')
    = pick_root (files w) (open_mode req) (norm (files w) (open_path req)).
Proof.
  destruct w as [[r m s i] cn fs0]. cbn [files state class_names].
  unfold open_project. rewrite bind_eq. cbn [gets files].
  destruct (os.isdir fs0 _) eqn:Hp; [|done]. cbn [negb].
  rewrite bind_eq. cbn [set_state modify]. rewrite bind_eq.
  cbn [set_state modify]. rewrite bind_eq.
  destruct (os.isdir fs0 (_ +:+ "/images")).
  - rewrite bind_eq. unfold on_files at 1. cbn [files].
    destruct (ensure_labels _ fs0) as [[[]|e] fs1]; [|done].
    intros [= <- <-]. done.
  - repeat (rewrite bind_eq; cbn [set_state modify gets]).
    unfold on_files. cbn [files state class_names].
    destruct (os.makedirs _ fs0) as [[[]|e] fs1]; [|done].
    intros [= <- <-]. done.
Qed.


End Open.

(* ================================================================== *)
(** * Root resolution *)

Section Root.

Context {F : Type} `{Extern F}.

Lemma norm_nonempty fs path : norm fs path ≠ "".
Proof.
  unfold norm, os.abspath, posixpath.normpath_abs, Py.replace.
  assert (∀ x, ∃ c r, posixpath.initial_slashes x = String c r) as Hi.
  { intros x. unfold posixpath.initial_slashes.
    destruct x as [|a [|b [|c x]]]; eauto;
      repeat match goal with |- context [if ?b then _ else _] => destruct b end;
      eauto. }
  destruct (Hi (os.absolute fs path)) as (c & r & ->). by rewrite app_cons_s.
Qed.

Lemma find_andb_filter {A} (f g : A → bool) l :
  find (fun x => f x && g x) l = find g (List.filter f l).
Proof.
  induction l as [|x l IH]; [done|]. cbn. destruct (f x); cbn; [|done].
  by destruct (g x).
Qed.

Lemma find_app {A} (f : A → bool) l1 l2 :
  find f (l1 ++ l2) = match find f l1 with Some x => Some x | None => find f l2 end.
Proof. induction l1 as [|x l1 IH]; [done|]. cbn. by destruct (f x). Qed.

(** X2. Away from the file-system root, [yolo_root] returns the first
    candidate that qualifies, in the order of the specification. *)
Lemma yolo_root_first_candidate fs path :
  Py.rstrip Py.slash (norm fs path) ≠ "" →
  yolo_root fs path = find (ok fs) (yolo_candidates fs path).
Proof.
  intros Hp. unfold yolo_root, yolo_candidates. fold (norm fs path).
  set (p := Py.rstrip Py.slash (norm fs path)) in *.
  fold (norm fs (posixpath.dirname p)).
  fold (norm fs (posixpath.dirname (posixpath.dirname p))).
  rewrite find_app.
  assert (∀ c, c ≠ "" → truthy c && ok fs c = ok fs c) as Ht.
  { intros c Hc. apply truthy_ne in Hc. by rewrite Hc. }
  cbn [find]. rewrite !Ht by (done || apply norm_nonempty).
  destruct (ok fs p); [done|].
  destruct (ok fs (norm fs (posixpath.dirname p))); [done|].
  destruct (ok fs (norm fs (posixpath.dirname (posixpath.dirname p)))); [done|].
  destruct (os.listdir fs p); [|done]. apply find_andb_filter.
Qed.

(** X3. A folder that does not qualify and whose parent does resolves to the
    parent. *)
Lemma yolo_root_parent fs path :
  let p := Py.rstrip Py.slash (norm fs path) in
  p ≠ "" → ok fs p = false → ok fs (norm fs (posixpath.dirname p)) = true →
  yolo_root fs path = Some (norm fs (posixpath.dirname p)).
Proof.
  intros p Hp Hno Hyes. unfold yolo_root. fold p. cbn [find].
  rewrite Hno, andb_false_r, Hyes, andb_true_r.
  assert (truthy (norm fs (posixpath.dirname p)) = true) as ->; [|done].
  apply truthy_ne, norm_nonempty.
Qed.

End Root.

(* ================================================================== *)
(** * Decimal numerals: printing then reading *)

Module Decimal10Facts.
Import Decimal10.

Local Open Scope Z_scope.

Lemma value_acc ds acc :
  fold_left (fun a d => 10 * a + d) ds acc
  = acc * 10 ^ Z.of_nat (length ds) + value ds.
Proof.
  unfold value. revert acc. induction ds as [|d ds IH]; intros acc.
  - cbn. lia.
  - cbn [fold_left length]. rewrite IH, (IH (10 * 0 + d)).
    rewrite Nat2Z.inj_succ, Z.pow_succ_r by lia. lia.
Qed.

Lemma value_app ds1 ds2 :
  value (ds1 ++ ds2) = value ds1 * 10 ^ Z.of_nat (length ds2) + value ds2.
Proof. unfold value at 1. rewrite fold_left_app. apply value_acc. Qed.

Lemma value_cons d ds : value (d :: ds) = d * 10 ^ Z.of_nat (length ds) + value ds.
Proof. change (d :: ds) with ([d] ++ ds). rewrite value_app. cbn. lia. Qed.

Lemma length_digits_fixed k n : length (digits_fixed k n) = k.
Proof.
  revert n. induction k as [|k IH]; intros n; [done|].
  cbn. rewrite length_app, IH. cbn. lia.
Qed.

Lemma value_digits_fixed k n :
  0 <= n → value (digits_fixed k n) = n mod 10 ^ Z.of_nat k.
Proof.
  revert n. induction k as [|k IH]; intros n Hn.
  - cbn. by rewrite Z.mod_1_r.
  - cbn [digits_fixed]. rewrite value_app, IH by (apply Z.div_pos; lia).
    cbn [length]. change (value [n mod 10]) with (10 * 0 + n mod 10).
    change (10 ^ Z.of_nat 1) with 10.
    replace (10 ^ Z.of_nat (S k)) with (10 * 10 ^ Z.of_nat k)
      by (rewrite Nat2Z.inj_succ, Z.pow_succ_r; lia).
    rewrite (Z.rem_mul_r n 10 (10 ^ Z.of_nat k)) by lia. lia.
Qed.

Lemma value_strip_zeros ds : value (strip_zeros ds) = value ds.
Proof.
  induction ds as [|d ds IH]; [done|]. cbn [strip_zeros].
  destruct ds as [|d' ds]; [done|].
  destruct (Z.eqb_spec d 0) as [->|]; [|done].
  rewrite IH. by rewrite (value_cons 0).
Qed.

Lemma value_digits n : 0 <= n → value (digits n) = n.
Proof.
  intros Hn. unfold digits. rewrite value_strip_zeros, value_digits_fixed by done.
  apply Z.mod_small. split; [done|].
  rewrite Nat2Z.inj_succ, Z2Nat.id by apply Z.log2_nonneg.
  destruct (Z.eq_dec n 0) as [->|Hne]; [cbn; lia|].
  pose proof (Z.log2_spec n ltac:(lia)) as [_ Hlt].
  eapply Z.lt_le_trans; [exact Hlt|].
  apply Z.pow_le_mono_l. pose proof (Z.log2_nonneg n). lia.
Qed.

Lemma digits_fixed_range k n : Forall is_digit (digits_fixed k n).
Proof.
  revert n. induction k as [|k IH]; intros n; [constructor|].
  cbn. apply Forall_app. split; [apply IH|].
  constructor; [|constructor]. unfold is_digit. apply Z.mod_pos_bound. lia.
Qed.

Lemma strip_zeros_range ds : Forall is_digit ds → Forall is_digit (strip_zeros ds).
Proof.
  induction 1 as [|d ds Hd Hds IH]; [constructor|]. cbn [strip_zeros].
  destruct ds; [by constructor|]. destruct (d =? 0); [done|by constructor].
Qed.

Lemma strip_zeros_not_nil ds : ds ≠ [] → strip_zeros ds ≠ [].
Proof.
  induction ds as [|d ds IH]; [done|]. intros _. cbn [strip_zeros].
  destruct ds; [done|]. destruct (d =? 0); [by apply IH|done].
Qed.

Lemma digits_range n : Forall is_digit (digits n).
Proof. apply strip_zeros_range, digits_fixed_range. Qed.

Lemma digits_not_nil n : digits n ≠ [].
Proof.
  unfold digits. apply strip_zeros_not_nil. intros E.
  apply (f_equal length) in E. by rewrite length_digits_fixed in E.
Qed.

Lemma is_digit_cases d :
  is_digit d →
  d = 0 ∨ d = 1 ∨ d = 2 ∨ d = 3 ∨ d = 4 ∨ d = 5 ∨ d = 6 ∨ d = 7 ∨ d = 8 ∨ d = 9.
Proof. unfold is_digit. lia. Qed.

Lemma digit_val_char d : is_digit d → digit_val (digit_char d) = Some d.
Proof.
  intros Hd. destruct (is_digit_cases d Hd) as [->|[->|[->|[->|[->|[->|[->|[->|[->| ->]]]]]]]]];
    reflexivity.
Qed.

End Decimal10Facts.

Module NumeralsFacts.
Import Decimal10 Decimal10Facts Numerals.

Lemma plain_app P a b : plain P (a +:+ b) = plain P a && plain P b.
Proof.
  unfold plain. induction a as [|x a IH]; [done|].
  rewrite app_cons_s. cbn [list_ascii_of_string forallb]. by rewrite IH, andb_assoc.
Qed.

Lemma plain_impl (P Q : ascii → bool) s :
  (∀ a, P a = true → Q a = true) → plain P s = true → plain Q s = true.
Proof.
  unfold plain. intros HPQ. induction s as [|x s IH]; [done|].
  cbn [list_ascii_of_string forallb]. intros [Hx Hs]%andb_true_iff.
  by rewrite (HPQ x Hx), IH.
Qed.

Lemma chars_cons d ds : chars (d :: ds) = String (digit_char d) (chars ds).
Proof. done. Qed.

Lemma is_digit_ascii_char d : is_digit d → is_digit_ascii (digit_char d) = true.
Proof. intros Hd. unfold is_digit_ascii. by rewrite digit_val_char. Qed.

Lemma plain_chars ds : Forall is_digit ds → plain is_digit_ascii (chars ds) = true.
Proof.
  induction 1 as [|d ds Hd _ IH]; [done|]. rewrite chars_cons.
  unfold plain in *. cbn [list_ascii_of_string forallb].
  by rewrite is_digit_ascii_char, IH.
Qed.

Lemma chars_not_empty ds : ds ≠ [] → chars ds ≠ "".
Proof. by destruct ds. Qed.

Lemma split_first_none p s :
  plain (fun a => negb (p a)) s = true → split_first p s = (s, None).
Proof.
  unfold plain. induction s as [|x s IH]; [done|].
  cbn [list_ascii_of_string forallb split_first].
  intros [Hx Hs]%andb_true_iff. apply negb_true_iff in Hx. by rewrite Hx, IH.
Qed.

Lemma split_first_at p s c rest :
  plain (fun a => negb (p a)) s = true → p c = true →
  split_first p (s +:+ String c rest) = (s, Some rest).
Proof.
  unfold plain. intros Hs Hc. induction s as [|x s IH].
  - rewrite app_nil_l_s. cbn. by rewrite Hc.
  - cbn [list_ascii_of_string forallb] in Hs.
    apply andb_true_iff in Hs as [Hx Hs]. apply negb_true_iff in Hx.
    rewrite app_cons_s. cbn [split_first]. by rewrite Hx, IH.
Qed.

Lemma digitpart_go_chars b ds :
  Forall is_digit ds → ds ≠ [] ∨ b = true →
  digitpart_go b (chars ds) = Some ds.
Proof.
  intros Hds. revert b. induction Hds as [|d ds Hd _ IH]; intros b Hb.
  - destruct Hb as [?| ->]; done.
  - rewrite chars_cons. cbn [digitpart_go]. rewrite digit_val_char by done.
    rewrite IH by auto. done.
Qed.

Lemma digitpart_chars ds :
  Forall is_digit ds → ds ≠ [] → digitpart (chars ds) = Some ds.
Proof. intros. apply digitpart_go_chars; auto. Qed.

Lemma digit_ascii_cases a :
  is_digit_ascii a = true →
  is_e a = false ∧ is_dot a = false ∧ Py.is_space a = false
  ∧ Ascii.eqb a "-" = false ∧ Ascii.eqb a "+" = false
  ∧ Ascii.eqb a Py.LF = false ∧ Ascii.eqb a Py.CR = false.
Proof.
  unfold is_digit_ascii, digit_val.
  destruct ((48 <=? N_of_ascii a)%N && (N_of_ascii a <=? 57)%N) eqn:E; [|done].
  intros _. apply andb_true_iff in E as [H1 H2].
  apply N.leb_le in H1, H2.
  assert (∀ b, N_of_ascii b < 48 ∨ 57 < N_of_ascii b → Ascii.eqb a b = false)%N as Hne.
  { intros b Hb. apply Ascii.eqb_neq. intros ->. lia. }
  unfold is_e, is_dot, Py.is_space.
  rewrite !Hne by (cbn; lia). repeat split; try done.
  repeat (apply orb_false_iff; split); try (apply andb_false_iff; (left + right); apply N.leb_gt; lia);
    apply N.eqb_neq; lia.
Qed.


Lemma strip_sign_digit d ds rest :
  is_digit d →
  strip_sign (chars (d :: ds) +:+ rest) = (false, chars (d :: ds) +:+ rest).
Proof.
  intros Hd. rewrite chars_cons, app_cons_s. unfold strip_sign.
  destruct (digit_ascii_cases _ (is_digit_ascii_char d Hd)) as (_&_&_&->&->&_).
  done.
Qed.

Lemma strip_sign_minus s : strip_sign ("-" +:+ s) = (true, s).
Proof. done. Qed.

Lemma plain_digits_not (P : ascii → bool) ds :
  (∀ a, is_digit_ascii a = true → P a = false) →
  Forall is_digit ds → plain (fun a => negb (P a)) (chars ds) = true.
Proof.
  intros HP Hds. apply (plain_impl is_digit_ascii); [|by apply plain_chars].
  intros a Ha. by rewrite (HP a Ha).
Qed.

Lemma not_e a : is_digit_ascii a = true → is_e a = false.
Proof. intros Ha. by destruct (digit_ascii_cases a Ha) as (->&_). Qed.

Lemma not_dot a : is_digit_ascii a = true → is_dot a = false.
Proof. intros Ha. by destruct (digit_ascii_cases a Ha) as (_&->&_). Qed.

Lemma mantissa_point i f :
  Forall is_digit i → Forall is_digit f → i ≠ [] → f ≠ [] →
  mantissa (chars i +:+ "." +:+ chars f) = Some (i, f).
Proof.
  intros Hi Hf Hin Hfn. unfold mantissa.
  change ("." +:+ chars f) with (String Py.dot (chars f)).
  rewrite split_first_at; [|by apply plain_digits_not; [apply not_dot|]|done].
  unfold digitpart_opt.
  rewrite !decide_False by by apply chars_not_empty.
  rewrite !digitpart_chars by done. cbn.
  rewrite decide_False; [done|]. by intros [? _].
Qed.

Lemma mantissa_whole i :
  Forall is_digit i → i ≠ [] → mantissa (chars i) = Some (i, []).
Proof.
  intros Hi Hin. unfold mantissa.
  rewrite split_first_none by by apply plain_digits_not; [apply not_dot|].
  by rewrite digitpart_chars.
Qed.

Lemma no_e_point i f :
  Forall is_digit i → Forall is_digit f →
  split_first is_e (chars i +:+ "." +:+ chars f)
  = (chars i +:+ "." +:+ chars f, None).
Proof.
  intros Hi Hf. apply split_first_none. rewrite !plain_app.
  rewrite !plain_digits_not by (done || apply not_e). done.
Qed.

Lemma no_e_whole i :
  Forall is_digit i → split_first is_e (chars i) = (chars i, None).
Proof. intros Hi. apply split_first_none. by apply plain_digits_not; [apply not_e|]. Qed.

Lemma of_str_point i f :
  Forall is_digit i → Forall is_digit f → i ≠ [] → f ≠ [] →
  of_str (chars i +:+ "." +:+ chars f) = Some (fixed_value i f).
Proof.
  intros Hi Hf Hin Hfn. unfold of_str. destruct i as [|d i]; [done|].
  rewrite strip_sign_digit by by inversion Hi.
  rewrite no_e_point, mantissa_point by done. done.
Qed.

Lemma of_str_minus_point i f :
  Forall is_digit i → Forall is_digit f → i ≠ [] → f ≠ [] →
  of_str ("-" +:+ chars i +:+ "." +:+ chars f)
  = Some (Qred (- fixed_value i f)).
Proof.
  intros Hi Hf Hin Hfn. unfold of_str. rewrite strip_sign_minus.
  rewrite no_e_point, mantissa_point by done. done.
Qed.

Lemma of_str_whole i :
  Forall is_digit i → i ≠ [] → of_str (chars i) = Some (fixed_value i []).
Proof.
  intros Hi Hin. unfold of_str. destruct i as [|d i]; [done|].
  rewrite <- (app_nil_r_s (chars (d :: i))) at 1.
  rewrite strip_sign_digit by by inversion Hi. rewrite app_nil_r_s.
  rewrite no_e_whole, mantissa_whole by done. done.
Qed.

Lemma of_str_minus_whole i :
  Forall is_digit i → i ≠ [] →
  of_str ("-" +:+ chars i) = Some (Qred (- fixed_value i [])).
Proof.
  intros Hi Hin. unfold of_str. rewrite strip_sign_minus.
  rewrite no_e_whole, mantissa_whole by done. done.
Qed.

End NumeralsFacts.

Module RoundingFacts.
Import Decimal10 Decimal10Facts Numerals NumeralsFacts.

Lemma fixed_value_point a b :
  (0 <= a)%Z → (0 <= b < 1000000)%Z →
  (fixed_value (digits a) (digits_fixed 6 b) == inject_Z (a * 1000000 + b) / 1000000)%Q.
Proof.
  intros Ha Hb. unfold fixed_value. rewrite Qred_correct.
  rewrite value_app, length_digits_fixed, value_digits, value_digits_fixed by lia.
  change (10 ^ Z.of_nat 6)%Z with 1000000%Z.
  rewrite Z.mod_small by lia.
  change (Qpower 10 (0 - Z.of_nat 6)) with (/ 1000000)%Q. reflexivity.
Qed.

Lemma fixed_value_whole n :
  (0 <= n)%Z → (fixed_value (digits n) [] == inject_Z n)%Q.
Proof.
  intros Hn. unfold fixed_value. rewrite Qred_correct, app_nil_r, value_digits by done.
  change (Qpower 10 (0 - Z.of_nat (length (@nil Z)))) with 1%Q. ring.
Qed.

Lemma round_half_even_floor q :
  round_half_even q = Qfloor q ∨ round_half_even q = (Qfloor q + 1)%Z.
Proof.
  unfold round_half_even.
  destruct (q - inject_Z (Qfloor q) ?= 1 # 2)%Q; [destruct (Z.even _)|..]; auto.
Qed.

Lemma round_half_even_near q :
  (- (1 # 2) <= inject_Z (round_half_even q) - q <= 1 # 2)%Q.
Proof.
  pose proof (Qfloor_le q) as Hlo. pose proof (Qlt_floor q) as Hhi.
  rewrite inject_Z_plus in Hhi. change (inject_Z 1) with 1%Q in Hhi.
  unfold round_half_even.
  destruct (q - inject_Z (Qfloor q) ?= 1 # 2)%Q eqn:E.
  - apply Qeq_alt in E. destruct (Z.even _); rewrite ?inject_Z_plus;
      change (inject_Z 1) with 1%Q; split; lra.
  - apply Qlt_alt in E. split; lra.
  - apply Qgt_alt in E. rewrite inject_Z_plus.
    change (inject_Z 1) with 1%Q. split; lra.
Qed.

Lemma round_half_even_Qeq q q' :
  (q == q')%Q → round_half_even q = round_half_even q'.
Proof.
  intros E. unfold round_half_even. rewrite (Qfloor_comp _ _ E).
  assert ((q - inject_Z (Qfloor q') ?= 1 # 2) = (q' - inject_Z (Qfloor q') ?= 1 # 2))%Q
    as ->; [|done].
  apply Qcompare_comp; [by rewrite E|reflexivity].
Qed.

Lemma round_half_even_Z n : round_half_even (inject_Z n) = n.
Proof.
  unfold round_half_even. rewrite Qfloor_Z.
  assert ((inject_Z n - inject_Z n ?= 1 # 2) = Lt)%Q as ->; [|done].
  assert (inject_Z n - inject_Z n == 0)%Q as -> by ring. done.
Qed.

Lemma round_half_even_nonneg q : (0 <= q)%Q → (0 <= round_half_even q)%Z.
Proof.
  intros Hq. assert (0 <= Qfloor q)%Z as H0.
  { change 0%Z with (Qfloor 0). by apply Qfloor_resp_le. }
  destruct (round_half_even_floor q) as [-> | ->]; lia.
Qed.

Lemma quantize_near q :
  (- (1 # 2000000) <= quantize q - q <= 1 # 2000000)%Q.
Proof.
  unfold quantize.
  pose proof (round_half_even_near (Qabs q * 1000000)) as Hn.
  set (n := round_half_even _) in *.
  destruct (Qlt_le_dec q 0) as [Hq|Hq].
  - rewrite Qabs_neg in Hn by lra. rewrite inject_Z_opp.
    unfold Qdiv. change (/ 1000000)%Q with (1 # 1000000)%Q. split; lra.
  - rewrite Qabs_pos in Hn by lra.
    unfold Qdiv. change (/ 1000000)%Q with (1 # 1000000)%Q. split; lra.
Qed.


Lemma of_str_format_6f q :
  ∃ q', of_str (to_str_6f q) = Some q' ∧ (q' == quantize q)%Q.
Proof.
  unfold to_str_6f, quantize.
  pose proof (round_half_even_nonneg (Qabs q * 1000000)) as Hn.
  set (n := round_half_even _) in *.
  assert (0 <= n)%Z as Hn'.
  { apply Hn. apply Qmult_le_0_compat; [apply Qabs_nonneg|done]. }
  assert (0 <= n / 1000000)%Z as Hi by (apply Z.div_pos; lia).
  assert (0 <= n mod 1000000 < 1000000)%Z as Hf by (apply Z.mod_pos_bound; lia).
  assert (fixed_value (digits (n / 1000000)) (digits_fixed 6 (n mod 1000000))
          == inject_Z n / 1000000)%Q as Hv.
  { rewrite fixed_value_point by done.
    replace (n / 1000000 * 1000000 + n mod 1000000)%Z with n; [reflexivity|].
    rewrite (Z.div_mod n 1000000) at 1 by lia. lia. }
  assert (digits_fixed 6 (n mod 1000000) ≠ []) as Hfn.
  { intros E. apply (f_equal length) in E. by rewrite length_digits_fixed in E. }
  destruct (Qlt_le_dec q 0) as [Hq|Hq].
  - eexists. split.
    + apply of_str_minus_point;
        auto using digits_range, digits_fixed_range, digits_not_nil.
    + rewrite Qred_correct, Hv, inject_Z_opp. unfold Qdiv. ring.
  - eexists. split.
    + rewrite app_nil_l_s. apply of_str_point;
        auto using digits_range, digits_fixed_range, digits_not_nil.
    + exact Hv.
Qed.

Lemma to_int_integer q n : (q == inject_Z n)%Q → to_int q = n.
Proof.
  unfold Qeq, to_int. cbn. intros E. rewrite Z.mul_1_r in E. rewrite E.
  by apply Z.quot_mul.
Qed.

Lemma of_str_str_of_int n :
  ∃ q', of_str (str_of_int n) = Some q' ∧ to_int q' = n.
Proof.
  unfold str_of_int. destruct (Z.ltb_spec n 0) as [Hn|Hn].
  - eexists. split.
    + apply of_str_minus_whole; auto using digits_range, digits_not_nil.
    + apply to_int_integer. rewrite Qred_correct, fixed_value_whole by lia.
      rewrite <- inject_Z_opp. f_equiv. lia.
  - eexists. split.
    + rewrite app_nil_l_s. apply of_str_whole; auto using digits_range, digits_not_nil.
    + apply to_int_integer. rewrite fixed_value_whole by lia. f_equiv. lia.
Qed.

Lemma quantize_Qeq q q' : (q == q')%Q → quantize q = quantize q'.
Proof.
  intros E. unfold quantize.
  rewrite (round_half_even_Qeq (Qabs q * 1000000) (Qabs q' * 1000000))
    by by rewrite E.
  destruct (Qlt_le_dec q 0), (Qlt_le_dec q' 0); try done; rewrite E in *; lra.
Qed.

Lemma quantize_sign q :
  (if Qlt_le_dec q 0 then quantize q <= 0 else 0 <= quantize q)%Q.
Proof.
  unfold quantize.
  pose proof (round_half_even_nonneg (Qabs q * 1000000)) as Hn.
  set (n := round_half_even _) in *.
  assert (0 <= inject_Z n)%Q as Hn'.
  { change 0%Q with (inject_Z 0). rewrite <- Zle_Qle. apply Hn.
    apply Qmult_le_0_compat; [apply Qabs_nonneg|done]. }
  unfold Qdiv. change (/ 1000000)%Q with (1 # 1000000)%Q.
  destruct (Qlt_le_dec q 0); rewrite ?inject_Z_opp; lra.
Qed.

(** The numeral [.6f] prints, its value and its sign. *)
Lemma of_str_to_str_6f q :
  ∃ q', of_str (to_str_6f q) = Some q' ∧ (q' == quantize q)%Q
        ∧ fst (strip_sign (to_str_6f q))
          = (if Qlt_le_dec q 0 then true else false).
Proof.
  destruct (of_str_format_6f q) as (q' & Hq' & Hv). exists q'.
  split; [done|]. split; [done|]. unfold to_str_6f.
  destruct (Qlt_le_dec q 0); [done|]. rewrite app_nil_l_s.
  pose proof (digits_not_nil (round_half_even (Qabs q * 1000000) / 1000000)) as Hne.
  pose proof (digits_range (round_half_even (Qabs q * 1000000) / 1000000)) as Hr.
  destruct (digits _) as [|d ds]; [done|].
  rewrite strip_sign_digit; [done|by inversion Hr].
Qed.

(** The numeral of an integer, its value and its sign. *)
Lemma of_str_of_int n :
  ∃ q', of_str (str_of_int n) = Some q' ∧ (q' == inject_Z n)%Q
        ∧ fst (strip_sign (str_of_int n)) = (n <? 0)%Z.
Proof.
  unfold str_of_int. destruct (Z.ltb_spec n 0) as [Hn|Hn].
  - eexists. split; [|split].
    + apply of_str_minus_whole; auto using digits_range, digits_not_nil.
    + rewrite Qred_correct, fixed_value_whole by lia.
      rewrite <- inject_Z_opp. f_equiv. lia.
    + done.
  - eexists. split; [|split].
    + rewrite app_nil_l_s. apply of_str_whole; auto using digits_range, digits_not_nil.
    + rewrite fixed_value_whole by lia. f_equiv. lia.
    + rewrite app_nil_l_s.
      pose proof (digits_not_nil (Z.abs n)) as Hne.
      pose proof (digits_range (Z.abs n)) as Hr.
      destruct (digits _) as [|d ds]; [done|].
      rewrite <- (app_nil_r_s (chars (d :: ds))).
      rewrite strip_sign_digit; [done|by inversion Hr].
Qed.

(** The printed numerals are made of digits, a sign and a point. *)
Lemma numeral_chars ds :
  Forall is_digit ds → plain is_numeral_ascii (chars ds) = true.
Proof.
  intros Hds. apply (plain_impl is_digit_ascii); [|by apply plain_chars].
  intros a Ha. unfold is_numeral_ascii. by rewrite Ha.
Qed.

Lemma numeral_sign (b : bool) :
  plain is_numeral_ascii (if b then "-" else "") = true.
Proof. by destruct b. Qed.

Lemma numeral_format_6f q :
  plain is_numeral_ascii (to_str_6f q) = true ∧ to_str_6f q ≠ "".
Proof.
  unfold to_str_6f. split.
  - rewrite !plain_app, !numeral_chars by auto using digits_range, digits_fixed_range.
    by destruct (Qlt_le_dec q 0).
  - destruct (Qlt_le_dec q 0); [done|]. rewrite app_nil_l_s.
    pose proof (digits_not_nil (round_half_even (Qabs q * 1000000) / 1000000)).
    by destruct (digits _).
Qed.

Lemma numeral_str_of_int n :
  plain is_numeral_ascii (str_of_int n) = true ∧ str_of_int n ≠ "".
Proof.
  unfold str_of_int. split.
  - rewrite plain_app, numeral_chars by auto using digits_range.
    by destruct (n <? 0)%Z.
  - destruct (n <? 0)%Z; [done|]. rewrite app_nil_l_s.
    pose proof (digits_not_nil (Z.abs n)). by destruct (digits _).
Qed.

End RoundingFacts.

(* ================================================================== *)
(** * Rounding to double precision *)

Module Binary64Facts.
Import Numerals RoundingFacts Binary64.
Local Open Scope Q_scope.


Lemma pow2_pos e : 0 < 2 ^ e.
Proof. by apply Qpower_0_lt. Qed.

Lemma pow2_plus a b : 2 ^ (a + b) == 2 ^ a * 2 ^ b.
Proof. by apply Qpower_plus. Qed.

Lemma pow2_le a b : (a <= b)%Z → 2 ^ a <= 2 ^ b.
Proof. intros Hab. by apply Qpower_le_compat_l. Qed.

Lemma pow2_cancel e : 2 ^ (- e) * 2 ^ e == 1.
Proof. rewrite <- pow2_plus. by replace (- e + e)%Z with 0%Z by lia. Qed.

Lemma eta_pos : 0 < eta.
Proof. apply pow2_pos. Qed.

Lemma eta_small : eta <= 1 # 1267650600228229401496703205376.
Proof.
  unfold eta. apply Qle_trans with (2 ^ (-100)); [by apply pow2_le|].
  apply Qle_bool_iff. by vm_compute.
Qed.

Lemma inject_pow2 k : (0 <= k)%Z → inject_Z (2 ^ k) == 2 ^ k.
Proof. intros Hk. by rewrite Zpower_Qpower. Qed.

Lemma ilog2_lower q : 0 < q → 2 ^ ilog2 q <= q.
Proof.
  intros Hq. unfold ilog2.
  set (ln := Z.log2 (Qnum q)). set (ld := Z.log2 (Z.pos (Qden q))).
  destruct (Qle_bool (2 ^ (ln - ld)) q) eqn:E; [by apply Qle_bool_iff|].
  assert (0 < Qnum q)%Z as Hn.
  { destruct q as [n d]. unfold Qlt in Hq. cbn in *. lia. }
  pose proof (Z.log2_spec _ Hn) as [Hn1 _]. fold ln in Hn1.
  pose proof (Z.log2_spec (Z.pos (Qden q)) ltac:(lia)) as [_ Hd2]. fold ld in Hd2.
  pose proof (Z.log2_nonneg (Qnum q)) as Hln. fold ln in Hln.
  pose proof (Z.log2_nonneg (Z.pos (Qden q))) as Hld. fold ld in Hld.
  replace (ln - ld - 1)%Z with (ln - (ld + 1))%Z by lia.
  rewrite Qpower_minus by done.
  rewrite <- !inject_pow2 by lia.
  apply Qle_shift_div_r.
  { change 0 with (inject_Z 0). rewrite <- Zlt_Qlt. apply Z.pow_pos_nonneg; lia. }
  destruct q as [n d]. unfold Qle. cbn in *.
  replace (Z.succ ld) with (ld + 1)%Z in Hd2 by lia.
  rewrite Z.mul_1_r. nia.
Qed.

(** The mantissa and the exponent [round] chooses are within half a unit
    of the last place. *)
Lemma half_ulp q :
  0 < q →
  let e := Z.max (ilog2 q - 52) (-1074) in
  2 ^ e * (1 # 2) <= u * q + eta.
Proof.
  intros Hq e. pose proof eta_pos as He. pose proof (ilog2_lower q Hq) as Hl.
  assert (0 <= u * q) as Huq by (unfold u; nra).
  destruct (Z.max_spec (ilog2 q - 52) (-1074)) as [[_ E]|[_ E]]; fold e in E;
    rewrite E.
  - assert (2 ^ (-1074) * (1 # 2) == eta) as ->; [|lra].
    unfold eta. change (1 # 2) with (2 ^ (-1)). by rewrite <- pow2_plus.
  - replace (ilog2 q - 52)%Z with (ilog2 q + -52)%Z by lia.
    rewrite pow2_plus.
    assert (2 ^ (-52) * (1 # 2) == u) as Hu by (apply Qeq_bool_iff; by vm_compute).
    assert (2 ^ ilog2 q * 2 ^ (-52) * (1 # 2) == u * 2 ^ ilog2 q) as ->
      by (rewrite <- Hu; ring).
    assert (u * 2 ^ ilog2 q <= u * q); [|lra].
    apply Qmult_le_l; [done|done].
Qed.

Lemma magnitude_round q :
  0 < q →
  let e := Z.max (ilog2 q - 52) (-1074) in
  let m := round_half_even (q * 2 ^ (- e)) in
  (0 <= m)%Z ∧ Qabs (magnitude m e - q) <= u * q + eta.
Proof.
  intros Hq e m. split.
  { apply round_half_even_nonneg. pose proof (pow2_pos (- e)). nra. }
  pose proof (half_ulp q Hq) as Hh. cbv zeta in Hh. fold e in Hh.
  pose proof (round_half_even_near (q * 2 ^ (- e))) as Hn. fold m in Hn.
  pose proof (pow2_pos e) as Hp. pose proof (pow2_cancel e) as Hc.
  unfold magnitude.
  assert (inject_Z m * 2 ^ e - q
          == (inject_Z m - q * 2 ^ (- e)) * 2 ^ e) as ->.
  { transitivity (inject_Z m * 2 ^ e - q * (2 ^ (- e) * 2 ^ e)); [|ring].
    rewrite Hc. ring. }
  set (d := inject_Z m - q * 2 ^ (- e)) in *. set (P := 2 ^ e) in *.
  destruct Hn as [Hn1 Hn2].
  assert (d * P <= (1 # 2) * P) by (apply Qmult_le_compat_r; lra).
  assert (- (1 # 2) * P <= d * P) by (apply Qmult_le_compat_r; lra).
  apply Qabs_Qle_condition. unfold u in *. split; lra.
Qed.


Lemma fin_is_finite x : fin x → is_finite x = true.
Proof. by destruct x. Qed.

Lemma representable_fin x : representable x = true → fin x.
Proof.
  destruct x as [s m e| |]; [|done..]. cbn. intros Hr.
  repeat (apply andb_true_iff in Hr as [Hr ?]). lia.
Qed.

Lemma magnitude_nonneg m e : (0 <= m)%Z → 0 <= magnitude m e.
Proof.
  intros Hm. unfold magnitude. pose proof (pow2_pos e).
  assert (0 <= inject_Z m) by (change 0 with (inject_Z 0); by rewrite <- Zle_Qle).
  nra.
Qed.

(** What [round] gives for a magnitude below the overflow threshold. *)
Lemma round_spec neg q :
  0 <= q → q <= 2 ^ 1023 →
  fin (round neg q)
  ∧ Qabs (value (round neg q) - (if neg then - q else q)) <= u * q + eta.
Proof.
  intros Hq Hmax. pose proof eta_pos as He. unfold round.
  destruct (Qle_bool q 0) eqn:E0.
  { apply Qle_bool_iff in E0. split; [done|].
    assert (q == 0) as Hz by lra.
    assert (value (Finite neg 0 0) == 0) as -> by (by destruct neg).
    apply Qabs_Qle_condition. destruct neg; split; unfold u; nra. }
  assert (0 < q) as Hpos.
  { destruct (Qlt_le_dec 0 q) as [|Hle]; [done|].
    apply Qle_bool_iff in Hle. congruence. }
  pose proof (magnitude_round q Hpos) as [Hm Hnear].
  set (e := Z.max (ilog2 q - 52) (-1074)) in *.
  set (m := round_half_even (q * 2 ^ (- e))) in *.
  pose proof (magnitude_nonneg m e Hm) as Hmag.
  apply Qabs_Qle_condition in Hnear as [Hlo Hhi].
  assert (1 <= 2 ^ 1023) as H1 by (by apply Qpower_1_le).
  assert (2 ^ 1024 == 2 * 2 ^ 1023) as H2.
  { change 1024%Z with (1 + 1023)%Z. by rewrite pow2_plus. }
  pose proof eta_small as Hes.
  destruct (Qle_bool (2 ^ 1024) (magnitude m e)) eqn:Eo.
  { apply Qle_bool_iff in Eo. rewrite H2 in Eo. unfold u in *. lra. }
  assert (magnitude (2 ^ 52) (e + 1) == magnitude (2 ^ 53) e) as Hcarry.
  { unfold magnitude. rewrite pow2_plus.
    change (inject_Z (2 ^ 53)) with (inject_Z (2 ^ 52) * 2). ring_simplify.
    change (2 ^ 1) with 2. ring. }
  assert (∀ m' e', (0 <= m')%Z → magnitude m' e' == magnitude m e →
            fin (Finite neg m' e')
            ∧ Qabs (value (Finite neg m' e') - (if neg then - q else q))
              <= u * q + eta) as Hfin.
  { intros m' e' Hm' Hv. split; [done|]. cbn [value].
    destruct neg; rewrite Hv; apply Qabs_Qle_condition; unfold u in *;
      split; lra. }
  destruct (m =? 2 ^ 53)%Z eqn:Em.
  - apply Z.eqb_eq in Em. apply Hfin; [lia|]. by rewrite Hcarry, Em.
  - by apply Hfin.
Qed.


Lemma value_signed s m e :
  value (Finite s m e) == (if s then - 1 else 1) * magnitude m e.
Proof. destruct s; cbn [value]; ring. Qed.

Lemma signed_abs (s : bool) (v : Q) :
  (if s then v <= 0 else 0 <= v) → (if s then - Qabs v else Qabs v) == v.
Proof.
  destruct s; intros Hv.
  - pose proof (Qabs_neg v Hv). lra.
  - pose proof (Qabs_pos v Hv). lra.
Qed.

Lemma near_subst (v t t' b : Q) :
  t == t' → Qabs (v - t) <= b → Qabs (v - t') <= b.
Proof. intros E Hv. by rewrite <- E. Qed.

Lemma of_Q_spec q :
  Qabs q <= 2 ^ 1023 →
  fin (of_Q q) ∧ Qabs (value (of_Q q) - q) <= u * Qabs q + eta.
Proof.
  intros Hq. unfold of_Q.
  destruct (round_spec (negb (Qle_bool 0 q)) (Qabs q) (Qabs_nonneg q) Hq)
    as [Hf Hv].
  split; [done|].
  assert ((if negb (Qle_bool 0 q) then - Qabs q else Qabs q) == q) as E.
  { apply signed_abs. destruct (Qle_bool 0 q) eqn:E; cbn.
    - by apply Qle_bool_iff.
    - destruct (Qlt_le_dec q 0) as [|Hle]; [lra|].
      apply Qle_bool_iff in Hle. congruence. }
  revert Hv. destruct (negb (Qle_bool 0 q)); by apply near_subst.
Qed.

Lemma add_spec x y :
  fin x → fin y → Qabs (value x + value y) <= 2 ^ 1023 →
  fin (add x y)
  ∧ Qabs (value (add x y) - (value x + value y))
    <= u * Qabs (value x + value y) + eta.
Proof.
  destruct x as [s m e| |], y as [t n f| |]; try done. intros Hx Hy Hq.
  unfold add. set (q := value (Finite s m e) + value (Finite t n f)) in *.
  destruct (Qeq_bool q 0) eqn:E; [|by apply of_Q_spec].
  apply Qeq_bool_iff in E. split; [done|].
  assert (value (Finite (s && t) 0 0) == 0) as -> by (by destruct (s && t)).
  pose proof eta_pos. pose proof (Qabs_nonneg q).
  assert (Qabs (0 - q) == 0) as -> by (by rewrite E).
  unfold u. lra.
Qed.

Lemma value_opp x : value (opp x) == - value x.
Proof. destruct x as [[] m e| |]; cbn; ring. Qed.

Lemma fin_opp x : fin x → fin (opp x).
Proof. by destruct x. Qed.

Lemma sub_spec x y :
  fin x → fin y → Qabs (value x - value y) <= 2 ^ 1023 →
  fin (sub x y)
  ∧ Qabs (value (sub x y) - (value x - value y))
    <= u * Qabs (value x - value y) + eta.
Proof.
  intros Hx Hy Hq. unfold sub.
  assert (value x - value y == value x + value (opp y)) as E
    by (rewrite value_opp; ring).
  rewrite E in *. by apply add_spec; [|apply fin_opp|].
Qed.

Lemma mul_spec x y :
  fin x → fin y → Qabs (value x * value y) <= 2 ^ 1023 →
  fin (mul x y)
  ∧ Qabs (value (mul x y) - value x * value y)
    <= u * Qabs (value x * value y) + eta.
Proof.
  destruct x as [s m e| |], y as [t n f| |]; try done. intros Hx Hy Hq.
  unfold mul. set (q := value (Finite s m e) * value (Finite t n f)) in *.
  destruct (round_spec (xorb s t) (Qabs q) (Qabs_nonneg q) Hq) as [Hf Hv].
  split; [done|].
  assert ((if xorb s t then - Qabs q else Qabs q) == q) as E.
  { pose proof (magnitude_nonneg m e Hx) as Ha.
    pose proof (magnitude_nonneg n f Hy) as Hb.
    assert (0 <= magnitude m e * magnitude n f) as Hab
      by (by apply Qmult_le_0_compat).
    assert (q == ((if s then - 1 else 1) * (if t then - 1 else 1))
                 * (magnitude m e * magnitude n f)) as Eq.
    { unfold q. rewrite !value_signed. ring. }
    apply signed_abs. clearbody q. destruct s, t; cbn in *; lra. }
  revert Hv. destruct (xorb s t); by apply near_subst.
Qed.

Lemma div_spec x y :
  fin x → fin y → ¬ value y == 0 → Qabs (value x / value y) <= 2 ^ 1023 →
  fin (div x y)
  ∧ Qabs (value (div x y) - value x / value y)
    <= u * Qabs (value x / value y) + eta.
Proof.
  destruct x as [s m e| |], y as [t n f| |]; try done. intros Hx Hy Hne Hq.
  unfold div, is_zero.
  destruct (Qeq_bool (value (Finite t n f)) 0) eqn:E0.
  { by apply Qeq_bool_iff in E0. }
  set (q := value (Finite s m e) / value (Finite t n f)) in *.
  destruct (round_spec (xorb s t) (Qabs q) (Qabs_nonneg q) Hq) as [Hf Hv].
  split; [done|].
  assert ((if xorb s t then - Qabs q else Qabs q) == q) as E.
  { pose proof (magnitude_nonneg m e Hx) as Ha.
    pose proof (magnitude_nonneg n f Hy) as Hb.
    assert (0 < magnitude n f) as Hb'.
    { destruct (Qlt_le_dec 0 (magnitude n f)) as [|Hle]; [done|].
      exfalso. apply Hne. rewrite value_signed.
      assert (magnitude n f == 0) as -> by lra. ring. }
    assert (0 <= magnitude m e / magnitude n f) as Hab.
    { apply Qle_shift_div_l; [done|]. lra. }
    assert (q == ((if s then - 1 else 1) * (if t then - 1 else 1))
                 * (magnitude m e / magnitude n f)) as Eq.
    { unfold q. rewrite !value_signed. destruct s, t; field; lra. }
    apply signed_abs. clearbody q. destruct s, t; cbn in *; lra. }
  revert Hv. destruct (xorb s t); by apply near_subst.
Qed.

(** A number of the format is what its rounding gives back. *)
Lemma round_exact neg q m e :
  (0 <= m < 2 ^ 53)%Z → (-1074 <= e)%Z → magnitude m e < 2 ^ 1024 →
  q == magnitude m e →
  fin (round neg q) ∧ value (round neg q) == value (Finite neg m e).
Proof.
  intros Hm He Hmax Hq. unfold round.
  pose proof (magnitude_nonneg m e ltac:(lia)) as Hnn.
  destruct (Qle_bool q 0) eqn:E0.
  { apply Qle_bool_iff in E0. split; [done|].
    assert (magnitude m e == 0) as Hz by lra.
    rewrite !value_signed, Hz. unfold magnitude. ring. }
  assert (0 < q) as Hpos.
  { destruct (Qlt_le_dec 0 q) as [|Hle]; [done|].
    apply Qle_bool_iff in Hle. congruence. }
  set (e' := Z.max (ilog2 q - 52) (-1074)).
  assert (e' <= e)%Z as Hee.
  { assert (ilog2 q < 53 + e)%Z; [|lia].
    apply (Qpower_lt_compat_l_inv 2); [|done].
    apply Qle_lt_trans with q; [by apply ilog2_lower|].
    rewrite Hq, pow2_plus. unfold magnitude.
    apply Qmult_lt_compat_r; [apply pow2_pos|].
    rewrite <- inject_pow2 by lia. rewrite <- Zlt_Qlt. lia. }
  assert (q * 2 ^ (- e') == inject_Z (m * 2 ^ (e - e'))) as Hint.
  { rewrite inject_Z_mult, inject_pow2 by lia.
    replace (e - e')%Z with (e + - e')%Z by lia.
    rewrite pow2_plus, Hq. unfold magnitude. ring. }
  rewrite (round_half_even_Qeq _ _ Hint), round_half_even_Z.
  assert (magnitude (m * 2 ^ (e - e')) e' == magnitude m e) as Hsame.
  { unfold magnitude. rewrite inject_Z_mult, inject_pow2 by lia.
    replace (e - e')%Z with (e + - e')%Z by lia.
    rewrite pow2_plus. pose proof (pow2_cancel e') as Hc.
    transitivity (inject_Z m * 2 ^ e * (2 ^ (- e') * 2 ^ e')); [ring|].
    rewrite Hc. ring. }
  destruct (Qle_bool (2 ^ 1024) (magnitude (m * 2 ^ (e - e')) e')) eqn:Eo.
  { apply Qle_bool_iff in Eo. rewrite Hsame in Eo. lra. }
  assert (0 <= m * 2 ^ (e - e'))%Z as Hm'.
  { apply Z.mul_nonneg_nonneg; [lia|]. apply Z.pow_nonneg. lia. }
  destruct (m * 2 ^ (e - e') =? 2 ^ 53)%Z eqn:Em.
  - apply Z.eqb_eq in Em. split; [done|].
    rewrite !value_signed, <- Hsame, Em. unfold magnitude.
    rewrite pow2_plus. change (inject_Z (2 ^ 53)) with (inject_Z (2 ^ 52) * 2).
    change (2 ^ 1) with 2. ring.
  - split; [done|]. by rewrite !value_signed, Hsame.
Qed.

Lemma of_Z_exact n :
  (Z.abs n < 2 ^ 53)%Z →
  fin (of_Z n) ∧ value (of_Z n) == inject_Z n.
Proof.
  intros Hn. unfold of_Z, of_Q.
  assert (Qabs (inject_Z n) == magnitude (Z.abs n) 0) as Hq.
  { unfold magnitude. change (2 ^ 0) with 1. rewrite Qmult_1_r. reflexivity. }
  assert (magnitude (Z.abs n) 0 < 2 ^ 1024) as Hmax.
  { unfold magnitude. change (2 ^ 0) with 1. rewrite Qmult_1_r.
    apply Qlt_trans with (2 ^ 53).
    - rewrite <- inject_pow2 by lia. by rewrite <- Zlt_Qlt.
    - by apply Qpower_lt_compat_l. }
  destruct (round_exact (negb (Qle_bool 0 (inject_Z n))) _ (Z.abs n) 0
              ltac:(lia) ltac:(lia) Hmax Hq) as [Hf Hv].
  split; [done|]. rewrite Hv, value_signed, <- Hq.
  assert ((if negb (Qle_bool 0 (inject_Z n)) then - Qabs (inject_Z n)
           else Qabs (inject_Z n)) == inject_Z n) as E.
  { apply signed_abs. destruct (Qle_bool 0 (inject_Z n)) eqn:E; cbn.
    - by apply Qle_bool_iff.
    - destruct (Qlt_le_dec (inject_Z n) 0) as [|Hle]; [lra|].
      apply Qle_bool_iff in Hle. congruence. }
  revert E. destruct (negb _); intros E; lra.
Qed.

Lemma of_int_exact n :
  (Z.abs n < 2 ^ 53)%Z → of_int n = Ok (of_Z n).
Proof.
  intros Hn. destruct (of_Z_exact n Hn) as [Hf _]. unfold of_int.
  by rewrite (fin_is_finite _ Hf).
Qed.


Lemma pow2_1023 : 2 ^ 1023 == 2 * 2 ^ 1022.
Proof. change 1023%Z with (1 + 1022)%Z. by rewrite pow2_plus. Qed.

Lemma one_le_pow2 k : (0 <= k)%Z → 1 <= 2 ^ k.
Proof. intros Hk. by apply Qpower_1_le. Qed.

(** Reading back what [.6f] printed. *)
Lemma of_str_str_6f x :
  fin x → Qabs (value x) <= 2 ^ 1022 →
  ∃ y, of_str (str_6f x) = Some y ∧ fin y
       ∧ Qabs (value y - quantize (value x))
         <= u * Qabs (quantize (value x)) + eta.
Proof.
  destruct x as [neg m e| |]; [|done..]. intros Hm Hmax.
  pose proof eta_pos as He. unfold str_6f.
  destruct (neg && Qeq_bool (magnitude m e) 0) eqn:Ez.
  { apply andb_true_iff in Ez as [-> Ez%Qeq_bool_iff].
    exists (Finite true 0 0). split; [by vm_compute|]. split; [done|].
    assert (value (Finite true m e) == 0) as Hv by (cbn [value]; lra).
    rewrite (quantize_Qeq _ _ Hv).
    assert (Qabs (value (Finite true 0 0) - quantize 0) == 0) as ->
      by reflexivity.
    assert (Qabs (quantize 0) == 0) as -> by reflexivity.
    unfold u. lra. }
  set (v := value (Finite neg m e)) in *.
  destruct (of_str_to_str_6f v) as (q' & Hq' & Hv & Hs).
  unfold of_str. rewrite Hq', Hs. eexists. split; [done|].
  pose proof (quantize_near v) as Hn. pose proof (quantize_sign v) as Hsg.
  pose proof (one_le_pow2 1022 ltac:(lia)) as H1. pose proof pow2_1023 as H2.
  assert (Qabs q' <= 2 ^ 1023) as Hq.
  { rewrite Hv. apply Qabs_Qle_condition.
    apply Qabs_Qle_condition in Hmax. split; lra. }
  destruct (round_spec (if Qlt_le_dec v 0 then true else false) (Qabs q')
              (Qabs_nonneg q') Hq) as [Hf Hr].
  split; [done|].
  assert ((if (if Qlt_le_dec v 0 then true else false) then - Qabs q'
           else Qabs q') == quantize v) as E.
  { destruct (Qlt_le_dec v 0).
    - pose proof (Qabs_neg q' ltac:(lra)). lra.
    - pose proof (Qabs_pos q' ltac:(lra)). lra. }
  assert (Qabs (quantize v) == Qabs q') as Ea by (by rewrite Hv).
  rewrite Ea. revert Hr E.
  destruct (if Qlt_le_dec v 0 then true else false); intros Hr E;
    by apply (near_subst _ _ _ _ E).
Qed.

Lemma numeral_str_6f x :
  fin x → plain is_numeral_ascii (str_6f x) = true ∧ str_6f x ≠ "".
Proof.
  destruct x as [neg m e| |]; [|done..]. intros _. unfold str_6f.
  destruct (neg && Qeq_bool (magnitude m e) 0); [done|].
  apply numeral_format_6f.
Qed.

Lemma to_int_abs_le q : Qabs (inject_Z (Numerals.to_int q)) <= Qabs q.
Proof.
  destruct q as [a b]. unfold Numerals.to_int, Qabs, Qle. cbn.
  rewrite Z.mul_1_r, <- Z.quot_abs by done.
  rewrite Z.quot_div_nonneg by lia. change (Z.abs (Z.pos b)) with (Z.pos b).
  pose proof (Z.mul_div_le (Z.abs a) (Z.pos b) ltac:(lia)). lia.
Qed.

(** The integer part of a number of the format is a number of the
    format. *)
Lemma to_int_class c n :
  representable c = true → to_int c = Ok n →
  ∃ m e, (0 <= m < 2 ^ 53)%Z ∧ (-1074 <= e)%Z ∧ magnitude m e < 2 ^ 1024
         ∧ Qabs (inject_Z n) == magnitude m e.
Proof.
  destruct c as [s m e| |]; [|done..]. cbn [representable].
  intros Hr Hn0.
  assert (Numerals.to_int (value (Finite s m e)) = n) as Hn
    by (unfold to_int in Hn0; congruence).
  clear Hn0.
  repeat (apply andb_true_iff in Hr as [Hr ?]).
  assert (0 <= m < 2 ^ 53)%Z as Hm by lia.
  assert (-1074 <= e <= 971)%Z as He by lia.
  assert (inject_Z m < 2 ^ 53) as Hm'.
  { rewrite <- inject_pow2 by lia. rewrite <- Zlt_Qlt. lia. }
  assert (0 <= inject_Z m) as Hm0.
  { change 0 with (inject_Z 0). rewrite <- Zle_Qle. lia. }
  destruct (Z.le_gt_cases 0 e) as [Hpos|Hneg].
  - exists m, e. split; [done|]. split; [lia|]. split.
    + unfold magnitude. apply Qlt_le_trans with (2 ^ 53 * 2 ^ e).
      * apply Qmult_lt_compat_r; [apply pow2_pos|done].
      * rewrite <- pow2_plus. apply pow2_le. lia.
    + assert (value (Finite s m e)
              == inject_Z ((if s then -1 else 1) * (m * 2 ^ e))) as Hv.
      { rewrite value_signed. unfold magnitude.
        rewrite !inject_Z_mult, inject_pow2 by lia. by destruct s. }
      rewrite (to_int_integer _ _ Hv) in Hn. subst n.
      unfold magnitude. rewrite <- inject_pow2, <- inject_Z_mult by lia.
      assert (0 <= m * 2 ^ e)%Z by (apply Z.mul_nonneg_nonneg; lia).
      change (Qabs (inject_Z ?z)) with (inject_Z (Z.abs z)).
      f_equiv. destruct s; lia.
  - exists (Z.abs n), 0%Z.
    assert (Qabs (inject_Z n) < 2 ^ 53) as Hlt.
    { apply Qle_lt_trans with (Qabs (value (Finite s m e)));
        [rewrite <- Hn; apply to_int_abs_le|].
      assert (Qabs (value (Finite s m e)) == magnitude m e) as ->.
      { pose proof (magnitude_nonneg m e ltac:(lia)) as Hnn.
        cbn [value]. destruct s; [rewrite Qabs_opp|]; by apply Qabs_pos. }
      unfold magnitude.
      assert (2 ^ e <= 1) as Hp by (change 1 with (2 ^ 0); apply pow2_le; lia).
      assert (2 ^ e * inject_Z m <= 1 * inject_Z m)
        by (by apply Qmult_le_compat_r).
      set (p := 2 ^ e) in *. lra. }
    change (Qabs (inject_Z n)) with (inject_Z (Z.abs n)) in *.
    assert (magnitude (Z.abs n) 0 == inject_Z (Z.abs n)) as Hmag.
    { unfold magnitude. change (2 ^ 0) with 1. ring. }
    split.
    { split; [lia|]. rewrite <- inject_pow2 in Hlt by lia.
      by rewrite <- Zlt_Qlt in Hlt. }
    split; [lia|]. split; [|by rewrite Hmag].
    rewrite Hmag. apply Qlt_trans with (2 ^ 53); [done|].
    by apply Qpower_lt_compat_l.
Qed.

(** Reading back the class id that was printed. *)
Lemma of_str_class c n :
  representable c = true → to_int c = Ok n →
  ∃ x, of_str (str_of_int n) = Some x ∧ to_int x = Ok n.
Proof.
  intros Hc Hn.
  destruct (to_int_class c n Hc Hn) as (m & e & Hm & He & Hmax & Hv).
  destruct (of_str_of_int n) as (q' & Hq' & Hq & Hs).
  unfold of_str. rewrite Hq', Hs.
  assert (Qabs q' == magnitude m e) as E by (by rewrite Hq).
  destruct (round_exact (n <? 0)%Z (Qabs q') m e Hm He Hmax E) as [Hf Hr].
  eexists. split; [done|].
  destruct (round (n <? 0)%Z (Qabs q')) as [s' m' e'| |]; [|done..].
  cbn [to_int]. f_equal. apply to_int_integer. rewrite Hr, value_signed, <- Hv.
  change (Qabs (inject_Z n)) with (inject_Z (Z.abs n)).
  destruct (Z.ltb_spec n 0).
  - rewrite <- (inject_Z_mult (-1)). f_equiv. lia.
  - rewrite <- (inject_Z_mult 1). f_equiv. lia.
Qed.

End Binary64Facts.
Module TextFacts.
Import NumeralsFacts.

Lemma numeral_ascii_cases a :
  is_numeral_ascii a = true →
  Unicode.isspace (N_of_ascii a) = false
  ∧ (N_of_ascii a <? 127)%N = true
  ∧ is_text_char a = true.
Proof.
  unfold is_numeral_ascii.
  intros [[Ha|Ha]%orb_true_iff|Ha]%orb_true_iff.
  - unfold is_digit_ascii, Decimal10.digit_val in Ha.
    destruct ((48 <=? N_of_ascii a)%N && (N_of_ascii a <=? 57)%N) eqn:E;
      [|done].
    apply andb_true_iff in E as [E1%N.leb_le E2%N.leb_le].
    assert (Ascii.eqb a Py.LF = false ∧ Ascii.eqb a Py.CR = false) as [H1 H2].
    { split; apply Ascii.eqb_neq; intros ->; cbn in *; lia. }
    unfold is_text_char, Unicode.isspace. rewrite H1, H2.
    repeat match goal with
           | |- context [(?x <=? ?y)%N] =>
               destruct (N.leb_spec x y); try lia
           | |- context [(?x =? ?y)%N] =>
               destruct (N.eqb_spec x y); try lia
           | |- context [(?x <? ?y)%N] =>
               destruct (N.ltb_spec x y); try lia
           end; done.
  - apply Ascii.eqb_eq in Ha as ->. done.
  - apply Ascii.eqb_eq in Ha as ->. done.
Qed.

Lemma of_string_cons a s :
  Unicode.of_string (String a s) = N_of_ascii a :: Unicode.of_string s.
Proof. done. Qed.

Lemma of_string_app a b :
  Unicode.of_string (a +:+ b) = Unicode.of_string a ++ Unicode.of_string b.
Proof.
  induction a as [|c a IH]; [by rewrite app_nil_l_s|].
  rewrite app_cons_s, !of_string_cons, IH. done.
Qed.

Lemma plain_cons P a s : plain P (String a s) = P a && plain P s.
Proof. done. Qed.

Lemma split_cons a b s :
  Unicode.split (a :: b :: s)
  = if Unicode.isspace a then Unicode.split (b :: s)
    else if Unicode.isspace b then [a] :: Unicode.split (b :: s)
    else match Unicode.split (b :: s) with
         | x :: xs => (a :: x) :: xs
         | [] => [[a]]
         end.
Proof. done. Qed.

(** A run of characters that are not white space, followed by white
    space, is one piece of the line. *)
Lemma split_token (t : text) c rest :
  Forall (fun x => Unicode.isspace x = false) t → t ≠ [] →
  Unicode.isspace c = true →
  Unicode.split (t ++ c :: rest) = t :: Unicode.split rest.
Proof.
  intros Ht Hne Hc. induction Ht as [|a t Ha Ht IH]; [done|]. clear Hne.
  destruct t as [|b t].
  - cbn [app]. rewrite split_cons, Ha, Hc.
    cbn [Unicode.split]. by rewrite Hc.
  - specialize (IH ltac:(done)).
    assert (Unicode.isspace b = false) as Hb by (by inversion Ht).
    cbn [app] in *. by rewrite split_cons, Ha, Hb, IH.
Qed.

Lemma numeral_text t :
  plain is_numeral_ascii t = true →
  Forall (fun x => Unicode.isspace x = false) (Unicode.of_string t).
Proof.
  induction t as [|a t IH]; [constructor|].
  rewrite plain_cons. intros [Ha Ht]%andb_true_iff.
  rewrite of_string_cons. constructor; [|by apply IH].
  by destruct (numeral_ascii_cases a Ha).
Qed.

Lemma of_string_not_nil t : t ≠ "" → Unicode.of_string t ≠ [].
Proof. by destruct t. Qed.

Lemma split_numeral t c rest :
  plain is_numeral_ascii t = true → t ≠ "" → Unicode.isspace c = true →
  Unicode.split (Unicode.of_string t ++ c :: rest)
  = Unicode.of_string t :: Unicode.split rest.
Proof.
  intros Ht Hne Hc.
  apply split_token; [by apply numeral_text|by apply of_string_not_nil|done].
Qed.

(** [float] is given a numeral as it is. *)
Lemma to_ascii_numeral decimal t :
  plain is_numeral_ascii t = true →
  Unicode.to_ascii decimal (Unicode.of_string t) = t.
Proof.
  induction t as [|a t IH]; [done|].
  rewrite plain_cons. intros [Ha Ht]%andb_true_iff.
  rewrite of_string_cons. cbn [Unicode.to_ascii].
  destruct (numeral_ascii_cases a Ha) as (_ & -> & _).
  by rewrite ascii_N_embedding, IH.
Qed.

Lemma text_numeral t :
  plain is_numeral_ascii t = true → plain is_text_char t = true.
Proof. apply plain_impl. intros a Ha. by destruct (numeral_ascii_cases a Ha) as (_&_&?). Qed.

(** ASCII text is its own encoding. *)
Lemma utf_8_encode_ascii s :
  plain (fun a => (N_of_ascii a <? 128)%N) s = true → codecs.utf_8_encode s = s.
Proof.
  induction s as [|a s IH]; [done|].
  rewrite plain_cons. intros [Ha Hs]%andb_true_iff.
  cbn [codecs.utf_8_encode]. by rewrite Ha, IH.
Qed.

Lemma text_char_cases a :
  is_text_char a = true →
  (N_of_ascii a <? 128)%N = true
  ∧ (N_of_ascii a =? Unicode.LF)%N = false
  ∧ (N_of_ascii a =? Unicode.CR)%N = false.
Proof.
  unfold is_text_char. intros [[H1 H2]%andb_true_iff H3]%andb_true_iff.
  split; [done|].
  apply negb_true_iff, Ascii.eqb_neq in H2. apply negb_true_iff, Ascii.eqb_neq in H3.
  split; apply N.eqb_neq; intros E; [apply H2|apply H3];
    rewrite <- (ascii_N_embedding a), E; done.
Qed.

(** Reading one line of ASCII text. *)
Lemma feed_line acc body rest :
  plain is_text_char body = true →
  io.feed (io.mkReader [] false acc)
          (Unicode.of_string body ++ Unicode.LF :: rest)
  = '(ls, r) ← io.feed io.start rest;
    Ok ((acc ++ Unicode.of_string body ++ [Unicode.LF]) :: ls, r).
Proof.
  revert acc. induction body as [|a body IH]; intros acc Hb.
  - cbn. reflexivity.
  - rewrite plain_cons in Hb. apply andb_true_iff in Hb as [Ha Hb].
    destruct (text_char_cases a Ha) as (H1 & H2 & H3).
    rewrite of_string_cons. cbn [app io.feed io.undecoded io.pendingcr
      io.unfinished codecs.utf_8_step].
    rewrite H1. cbn [mbind res_bind]. unfold io.accept. rewrite H2, H3.
    rewrite (IH (acc ++ [N_of_ascii a]) Hb).
    unfold mbind, res_bind.
    destruct (io.feed io.start rest) as [[ls r]|e]; [|done].
    by rewrite <- !app_assoc.
Qed.

Lemma join_empty_cons x xs : Py.join "" (x :: xs) = x +:+ Py.join "" xs.
Proof. destruct xs; cbn [Py.join]; by rewrite ?app_nil_r_s, ?app_nil_l_s. Qed.

Lemma terminated_ascii l :
  terminated_line l → plain (fun a => (N_of_ascii a <? 128)%N) l = true.
Proof.
  intros (body & -> & Hb). rewrite plain_app. apply andb_true_iff. split; [|done].
  revert Hb. apply plain_impl. intros a Ha. by destruct (text_char_cases a Ha).
Qed.

Lemma join_ascii lines :
  Forall terminated_line lines →
  plain (fun a => (N_of_ascii a <? 128)%N) (Py.join "" lines) = true.
Proof.
  induction 1 as [|l lines Hl _ IH]; [done|].
  rewrite join_empty_cons, plain_app, IH, terminated_ascii; done.
Qed.

Lemma feed_join lines :
  Forall terminated_line lines →
  io.feed io.start (bytes_of (Py.join "" lines))
  = Ok (map Unicode.of_string lines, io.start).
Proof.
  induction 1 as [|l lines (body & -> & Hb) _ IH]; [done|].
  rewrite join_empty_cons. change bytes_of with Unicode.of_string in *.
  rewrite !of_string_app. change (Unicode.of_string (String Py.LF ""))
    with [Unicode.LF].
  rewrite <- app_assoc. cbn [app].
  rewrite (feed_line [] body _ Hb), IH. cbn. by rewrite of_string_app.
Qed.

(** The lines of a file that was written line by line are the lines
    that were written. *)
Lemma lines_join lines :
  Forall terminated_line lines →
  io.lines (bytes_of (codecs.utf_8_encode (Py.join "" lines)))
  = Ok (map Unicode.of_string lines).
Proof.
  intros Hl. rewrite utf_8_encode_ascii by by apply join_ascii.
  unfold io.lines. rewrite feed_join by done. cbn. by rewrite app_nil_r.
Qed.

Lemma terminated_not_empty l : terminated_line l → l ≠ "".
Proof. intros (body & -> & _). by destruct body. Qed.

Lemma join_not_empty l lines :
  terminated_line l → Py.join "" (l :: lines) ≠ "".
Proof.
  intros Hl%terminated_not_empty. rewrite join_empty_cons. by destruct l.
Qed.

Lemma encode_not_empty s : s ≠ "" → codecs.utf_8_encode s ≠ "".
Proof.
  destruct s as [|a s]; [done|]. intros _. cbn.
  by destruct (N_of_ascii a <? 128)%N.
Qed.

End TextFacts.

(* ================================================================== *)
(** * One axis of a rectangle through a label line *)

Module AxisFacts.
Import Numerals RoundingFacts Binary64 Binary64Facts.
Local Open Scope Q_scope.

Lemma err_norm (v q B : Q) :
  Qabs (v - q) <= u * Qabs q + eta → Qabs q <= B →
  - (u * B + eta) <= v - q <= u * B + eta.
Proof.
  intros Hv Hq. apply Qabs_Qle_condition.
  apply Qle_trans with (u * Qabs q + eta); [done|]. unfold u in *. lra.
Qed.

Lemma abs_scaled (x W : Q) : 0 < W → Qabs (x * W) == Qabs x * W.
Proof. intros HW. rewrite Qabs_Qmult, (Qabs_pos W) by lra. reflexivity. Qed.

Lemma err_scaled (v q W Y B : Q) :
  0 < W → q * W == Y →
  Qabs (v - q) <= u * Qabs q + eta → Qabs Y <= B →
  - (u * B + eta * W) <= v * W - Y <= u * B + eta * W.
Proof.
  intros HW HY Hv HB. apply Qabs_Qle_condition.
  assert (v * W - Y == (v - q) * W) as -> by (rewrite <- HY; ring).
  rewrite abs_scaled by done.
  assert (Qabs (v - q) * W <= (u * Qabs q + eta) * W) as H1
    by (apply Qmult_le_compat_r; lra).
  assert (Qabs q * W <= B) as H2 by (by rewrite <- abs_scaled, HY).
  unfold u in *. lra.
Qed.

Lemma norm_small (q W Y B : Q) :
  1 <= W → q * W == Y → Qabs Y <= B → Qabs q <= B.
Proof.
  intros HW HY HB. rewrite <- HY, abs_scaled in HB by lra.
  pose proof (Qabs_nonneg q) as Hq.
  assert (Qabs q * 1 <= Qabs q * W) as H1.
  { rewrite !(Qmult_comm (Qabs q)). by apply Qmult_le_compat_r. }
  lra.
Qed.

Lemma quantize_scaled (c W : Q) :
  0 < W →
  - ((1 # 2000000) * W) <= quantize c * W - c * W <= (1 # 2000000) * W.
Proof.
  intros HW. pose proof (quantize_near c) as [Hlo Hhi].
  assert (quantize c * W - c * W == (quantize c - c) * W) as -> by ring.
  assert ((quantize c - c) * W <= (1 # 2000000) * W)
    by (apply Qmult_le_compat_r; lra).
  assert (- (1 # 2000000) * W <= (quantize c - c) * W)
    by (apply Qmult_le_compat_r; lra).
  lra.
Qed.


Lemma half_eq (x : Q) : x / 2 == x * (1 # 2).
Proof. field. Qed.

Lemma div_mul_cancel (x W : Q) : 0 < W → x / W * W == x.
Proof. intros HW. field. lra. Qed.

Lemma abs_bounds (x : Q) : - Qabs x <= x <= Qabs x.
Proof. apply Qabs_Qle_condition. lra. Qed.

Ltac by_bounds := apply Qabs_Qle_condition; unfold u in *; split; lra.

(** The centre and the size of the interval [[a, b]] are computed,
    printed with six decimals and read back, and the two ends are
    computed from what was read: every operation is finite, and each end
    comes back within [pixel_eps] of what it was. *)
Lemma axis_round_trip (a b : float64) (w : Z) :
  fin a → fin b →
  Qabs (value a) <= 2 ^ 1000 → Qabs (value b) <= 2 ^ 1000 →
  (0 < w < 2 ^ 53)%Z →
  let Wf := of_Z w in
  let two := of_Z 2 in
  let cx := div (div (add a b) two) Wf in
  let bw := div (sub b a) Wf in
  fin cx ∧ fin bw
  ∧ ∃ cx' bw',
      of_str (str_6f cx) = Some cx' ∧ of_str (str_6f bw) = Some bw'
      ∧ let g := div bw' two in
        let lo := mul (sub cx' g) Wf in
        let hi := mul (add cx' g) Wf in
        fin lo ∧ near (pixel_eps w (value a) (value b)) (value lo) (value a)
        ∧ fin hi ∧ near (pixel_eps w (value a) (value b)) (value hi) (value b).
Proof.
  intros Ha Hb Hva Hvb Hw Wf two cx bw.
  destruct (of_Z_exact w ltac:(lia)) as [HWf HWv]. fold Wf in HWf, HWv.
  destruct (of_Z_exact 2 ltac:(lia)) as [Htf Htv]. fold two in Htf, Htv.
  change (inject_Z 2) with 2 in Htv.
  unfold near, pixel_eps.
  set (va := value a) in *. set (vb := value b) in *.
  set (W := inject_Z w) in *.
  assert (1 <= W) as HW1.
  { change 1 with (inject_Z 1). unfold W. rewrite <- Zle_Qle. lia. }
  assert (W <= 2 ^ 53) as HW2.
  { rewrite <- inject_pow2 by lia. unfold W. rewrite <- Zle_Qle. lia. }
  assert (2 ^ 53 <= 2 ^ 1000) as HM1 by (by apply pow2_le).
  assert (2 ^ 1023 == 8388608 * 2 ^ 1000) as HM2.
  { change 1023%Z with (23 + 1000)%Z. by rewrite pow2_plus. }
  assert (2 ^ 1022 == 4194304 * 2 ^ 1000) as HM3.
  { change 1022%Z with (22 + 1000)%Z. by rewrite pow2_plus. }
  set (M := 2 ^ 1000) in *.
  pose proof eta_pos as He0. pose proof eta_small as He1.
  assert (eta * W <= (1 # 1267650600228229401496703205376) * W) as He2
    by (apply Qmult_le_compat_r; lra).
  assert (0 <= eta * W) as He3 by (apply Qmult_le_0_compat; lra).
  pose proof (abs_bounds va) as Hba. pose proof (abs_bounds vb) as Hbb.
  set (A := Qabs va) in *. set (A' := Qabs vb) in *.
  set (B := (1025 # 1024) * (A + A' + W)).
  assert (B == (1025 # 1024) * (A + A' + W)) as HB by reflexivity.
  clearbody B.
  (* the centre *)
  destruct (add_spec a b Ha Hb) as [Hs Hse]; [fold va vb; by_bounds|].
  fold va vb in Hse.
  apply (err_norm _ _ B) in Hse; [|by_bounds].
  set (vs := value (add a b)) in *.
  destruct (div_spec (add a b) two Hs Htf) as [Hh Hhe];
    [rewrite Htv; lra|fold vs; rewrite Htv, half_eq; by_bounds|].
  fold vs in Hhe. rewrite Htv, half_eq in Hhe.
  apply (err_norm _ _ B) in Hhe; [|by_bounds].
  set (vh := value (div (add a b) two)) in *.
  destruct (div_spec (div (add a b) two) Wf Hh HWf) as [Hc Hce];
    [rewrite HWv; lra| |].
  { fold vh. rewrite HWv.
    apply (norm_small _ W vh); [done|by apply div_mul_cancel; lra|by_bounds]. }
  fold vh cx in Hc, Hce. rewrite HWv in Hce.
  assert (Qabs vh <= B) as Hvh by (by_bounds).
  pose proof (norm_small _ W vh B HW1 (div_mul_cancel vh W ltac:(lra)) Hvh) as Hcn.
  apply (err_scaled _ _ W vh B) in Hce;
    [|lra|by apply div_mul_cancel; lra|done].
  set (vc := value cx) in *.
  assert (Qabs (vc * W) <= B) as HvcW by (by_bounds).
  assert (Qabs vc <= B) as Hvc by (by apply (norm_small _ W (vc * W))).
  destruct (of_str_str_6f cx Hc) as (cx' & Hcx' & Hc2 & Hc2e);
    [fold vc; apply Qle_trans with B; [done|lra]|].
  fold vc in Hc2e.
  pose proof (quantize_scaled vc W ltac:(lra)) as Hqc.
  set (qc := quantize vc) in *.
  assert (Qabs (qc * W) <= B) as HqcW by (by_bounds).
  apply (err_scaled _ _ W (qc * W) B) in Hc2e; [|lra|reflexivity|done].
  set (vc2 := value cx') in *.
  (* the size *)
  destruct (sub_spec b a Hb Ha) as [Ht Hte]; [fold va vb; by_bounds|].
  fold va vb in Hte.
  apply (err_norm _ _ B) in Hte; [|by_bounds].
  set (vt := value (sub b a)) in *.
  assert (Qabs vt <= B) as Hvt by (by_bounds).
  destruct (div_spec (sub b a) Wf Ht HWf) as [Hbw Hbwe];
    [rewrite HWv; lra| |].
  { fold vt. rewrite HWv.
    apply (norm_small _ W vt); [done|by apply div_mul_cancel; lra|by_bounds]. }
  fold vt bw in Hbw, Hbwe. rewrite HWv in Hbwe.
  apply (err_scaled _ _ W vt B) in Hbwe;
    [|lra|by apply div_mul_cancel; lra|done].
  set (vbw := value bw) in *.
  assert (Qabs (vbw * W) <= B) as HvbW by (by_bounds).
  assert (Qabs vbw <= B) as Hvbw by (by apply (norm_small _ W (vbw * W))).
  destruct (of_str_str_6f bw Hbw) as (bw' & Hbw' & Hb2 & Hb2e);
    [fold vbw; apply Qle_trans with B; [done|lra]|].
  fold vbw in Hb2e.
  pose proof (quantize_scaled vbw W ltac:(lra)) as Hqb.
  set (qb := quantize vbw) in *.
  assert (Qabs (qb * W) <= B) as HqbW by (by_bounds).
  apply (err_scaled _ _ W (qb * W) B) in Hb2e; [|lra|reflexivity|done].
  set (vb2 := value bw') in *.
  split; [done|]. split; [done|]. exists cx', bw'.
  split; [done|]. split; [done|]. cbv zeta.
  set (g := div bw' two). set (lo := mul (sub cx' g) Wf).
  set (hi := mul (add cx' g) Wf).
  (* half the size *)
  assert (Qabs (vb2 * W) <= B) as Hvb2W by (by_bounds).
  assert (vb2 * (1 # 2) * W == vb2 * W * (1 # 2)) as Hg0 by ring.
  destruct (div_spec bw' two Hb2 Htf) as [Hg Hge];
    [rewrite Htv; lra| |].
  { fold vb2. rewrite Htv, half_eq.
    apply (norm_small _ W (vb2 * W * (1 # 2))); [done|done|by_bounds]. }
  fold vb2 g in Hg, Hge. rewrite Htv, half_eq in Hge.
  apply (err_scaled _ _ W (vb2 * W * (1 # 2)) B) in Hge;
    [|lra|done|by_bounds].
  set (vg := value g) in *.
  assert (Qabs (vc2 * W) <= B) as Hvc2W by (by_bounds).
  (* the lower end *)
  assert ((vc2 - vg) * W == vc2 * W - vg * W) as Hd0 by ring.
  destruct (sub_spec cx' g Hc2 Hg) as [Hd1 Hd1e].
  { fold vc2 vg.
    apply (norm_small _ W (vc2 * W - vg * W)); [done|done|by_bounds]. }
  fold vc2 vg in Hd1e.
  apply (err_scaled _ _ W (vc2 * W - vg * W) B) in Hd1e;
    [|lra|done|by_bounds].
  set (vd1 := value (sub cx' g)) in *.
  destruct (mul_spec (sub cx' g) Wf Hd1 HWf) as [Hlo Hloe];
    [fold vd1; rewrite HWv; by_bounds|].
  fold vd1 lo in Hlo, Hloe. rewrite HWv in Hloe.
  apply (err_norm _ _ B) in Hloe; [|by_bounds].
  (* the upper end *)
  assert ((vc2 + vg) * W == vc2 * W + vg * W) as Hu0 by ring.
  destruct (add_spec cx' g Hc2 Hg) as [Hd2 Hd2e].
  { fold vc2 vg.
    apply (norm_small _ W (vc2 * W + vg * W)); [done|done|by_bounds]. }
  fold vc2 vg in Hd2e.
  apply (err_scaled _ _ W (vc2 * W + vg * W) B) in Hd2e;
    [|lra|done|by_bounds].
  set (vd2 := value (add cx' g)) in *.
  destruct (mul_spec (add cx' g) Wf Hd2 HWf) as [Hhi Hhie];
    [fold vd2; rewrite HWv; by_bounds|].
  fold vd2 hi in Hhi, Hhie. rewrite HWv in Hhie.
  apply (err_norm _ _ B) in Hhie; [|by_bounds].
  split; [done|]. split; [by_bounds|].
  split; [done|]. by_bounds.
Qed.

Lemma field_near (x y : float64) :
  Qabs (value y - quantize (value x))
  <= u * Qabs (quantize (value x)) + eta →
  near (field_eps (value x)) (value y) (value x).
Proof.
  intros Hy. unfold near, field_eps.
  pose proof (quantize_near (value x)) as Hq.
  pose proof eta_pos as He0. pose proof eta_small as He1.
  pose proof (abs_bounds (value x)) as Hb.
  set (v := value x) in *. set (q := quantize v) in *.
  set (A := Qabs v) in *.
  assert (Qabs q <= A + (1 # 2000000)) as Hqa by (by_bounds).
  apply (err_norm _ _ (A + (1 # 2000000))) in Hy; [|done].
  by_bounds.
Qed.

(** The centre and the size as they are printed and read back: each
    comes back within [field_eps] of the number that was printed. *)
Lemma axis_fields (a b : float64) (w : Z) :
  fin a → fin b →
  Qabs (value a) <= 2 ^ 1000 → Qabs (value b) <= 2 ^ 1000 →
  (0 < w < 2 ^ 53)%Z →
  let Wf := of_Z w in
  let two := of_Z 2 in
  let cx := div (div (add a b) two) Wf in
  let bw := div (sub b a) Wf in
  fin cx ∧ fin bw
  ∧ ∃ cx' bw',
      of_str (str_6f cx) = Some cx' ∧ of_str (str_6f bw) = Some bw'
      ∧ fin cx' ∧ near (field_eps (value cx)) (value cx') (value cx)
      ∧ fin bw' ∧ near (field_eps (value bw)) (value bw') (value bw).
Proof.
  intros Ha Hb Hva Hvb Hw Wf two cx bw.
  destruct (of_Z_exact w ltac:(lia)) as [HWf HWv]. fold Wf in HWf, HWv.
  destruct (of_Z_exact 2 ltac:(lia)) as [Htf Htv]. fold two in Htf, Htv.
  change (inject_Z 2) with 2 in Htv.
  set (va := value a) in *. set (vb := value b) in *.
  set (W := inject_Z w) in *.
  assert (1 <= W) as HW1.
  { change 1 with (inject_Z 1). unfold W. rewrite <- Zle_Qle. lia. }
  assert (W <= 2 ^ 53) as HW2.
  { rewrite <- inject_pow2 by lia. unfold W. rewrite <- Zle_Qle. lia. }
  assert (2 ^ 53 <= 2 ^ 1000) as HM1 by (by apply pow2_le).
  assert (2 ^ 1023 == 8388608 * 2 ^ 1000) as HM2.
  { change 1023%Z with (23 + 1000)%Z. by rewrite pow2_plus. }
  assert (2 ^ 1022 == 4194304 * 2 ^ 1000) as HM3.
  { change 1022%Z with (22 + 1000)%Z. by rewrite pow2_plus. }
  set (M := 2 ^ 1000) in *.
  pose proof eta_pos as He0. pose proof eta_small as He1.
  assert (eta * W <= (1 # 1267650600228229401496703205376) * W) as He2
    by (apply Qmult_le_compat_r; lra).
  assert (0 <= eta * W) as He3 by (apply Qmult_le_0_compat; lra).
  pose proof (abs_bounds va) as Hba. pose proof (abs_bounds vb) as Hbb.
  set (A := Qabs va) in *. set (A' := Qabs vb) in *.
  set (B := (1025 # 1024) * (A + A' + W)).
  assert (B == (1025 # 1024) * (A + A' + W)) as HB by reflexivity.
  clearbody B.
  (* the centre *)
  destruct (add_spec a b Ha Hb) as [Hs Hse]; [fold va vb; by_bounds|].
  fold va vb in Hse.
  apply (err_norm _ _ B) in Hse; [|by_bounds].
  set (vs := value (add a b)) in *.
  destruct (div_spec (add a b) two Hs Htf) as [Hh Hhe];
    [rewrite Htv; lra|fold vs; rewrite Htv, half_eq; by_bounds|].
  fold vs in Hhe. rewrite Htv, half_eq in Hhe.
  apply (err_norm _ _ B) in Hhe; [|by_bounds].
  set (vh := value (div (add a b) two)) in *.
  destruct (div_spec (div (add a b) two) Wf Hh HWf) as [Hc Hce];
    [rewrite HWv; lra| |].
  { fold vh. rewrite HWv.
    apply (norm_small _ W vh); [done|by apply div_mul_cancel; lra|by_bounds]. }
  fold vh cx in Hc, Hce. rewrite HWv in Hce.
  assert (Qabs vh <= B) as Hvh by (by_bounds).
  apply (err_scaled _ _ W vh B) in Hce;
    [|lra|by apply div_mul_cancel; lra|done].
  set (vc := value cx) in *.
  assert (Qabs (vc * W) <= B) as HvcW by (by_bounds).
  assert (Qabs vc <= B) as Hvc by (by apply (norm_small _ W (vc * W))).
  destruct (of_str_str_6f cx Hc) as (cx' & Hcx' & Hc2 & Hc2e);
    [fold vc; apply Qle_trans with B; [done|lra]|].
  (* the size *)
  destruct (sub_spec b a Hb Ha) as [Ht Hte]; [fold va vb; by_bounds|].
  fold va vb in Hte.
  apply (err_norm _ _ B) in Hte; [|by_bounds].
  set (vt := value (sub b a)) in *.
  assert (Qabs vt <= B) as Hvt by (by_bounds).
  destruct (div_spec (sub b a) Wf Ht HWf) as [Hbw Hbwe];
    [rewrite HWv; lra| |].
  { fold vt. rewrite HWv.
    apply (norm_small _ W vt); [done|by apply div_mul_cancel; lra|by_bounds]. }
  fold vt bw in Hbw, Hbwe. rewrite HWv in Hbwe.
  apply (err_scaled _ _ W vt B) in Hbwe;
    [|lra|by apply div_mul_cancel; lra|done].
  set (vbw := value bw) in *.
  assert (Qabs (vbw * W) <= B) as HvbW by (by_bounds).
  assert (Qabs vbw <= B) as Hvbw by (by apply (norm_small _ W (vbw * W))).
  destruct (of_str_str_6f bw Hbw) as (bw' & Hbw' & Hb2 & Hb2e);
    [fold vbw; apply Qle_trans with B; [done|lra]|].
  split; [done|]. split; [done|]. exists cx', bw'.
  repeat split; try done; by apply field_near.
Qed.

End AxisFacts.

Module CodecFacts.
Import Numerals NumeralsFacts RoundingFacts TextFacts.
Import Binary64 Binary64Facts AxisFacts.

Section WithExtern.

Context `{Extern float64}.

Lemma split_line t0 t1 t2 t3 t4 :
  Forall (fun t => plain is_numeral_ascii t = true ∧ t ≠ "") [t0; t1; t2; t3; t4] →
  Unicode.split
    (Unicode.of_string
       (t0 +:+ " " +:+ t1 +:+ " " +:+ t2 +:+ " " +:+ t3 +:+ " " +:+ t4
        +:+ String Py.LF ""))
  = map Unicode.of_string [t0; t1; t2; t3; t4].
Proof.
  intros Ht. repeat (apply Forall_cons in Ht as [[? ?] Ht]).
  rewrite !of_string_app.
  change (Unicode.of_string " ") with [32%N].
  change (Unicode.of_string (String Py.LF "")) with [Unicode.LF].
  cbn [app]. rewrite !split_numeral by done. done.
Qed.

Lemma terminated_line_tokens t0 t1 t2 t3 t4 :
  Forall (fun t => plain is_numeral_ascii t = true ∧ t ≠ "") [t0; t1; t2; t3; t4] →
  terminated_line (t0 +:+ " " +:+ t1 +:+ " " +:+ t2 +:+ " " +:+ t3 +:+ " " +:+ t4
                   +:+ String Py.LF "").
Proof.
  intros Ht. repeat (apply Forall_cons in Ht as [[?%text_numeral ?] Ht]).
  exists (t0 +:+ " " +:+ t1 +:+ " " +:+ t2 +:+ " " +:+ t3 +:+ " " +:+ t4). split.
  - by rewrite !app_assoc_s.
  - rewrite !plain_app. repeat (apply andb_true_iff; split); done.
Qed.

Lemma float_of_text_numeral t :
  plain is_numeral_ascii t = true →
  float_of_text (Unicode.of_string t) = of_str t.
Proof. intros Ht. unfold float_of_text. by rewrite to_ascii_numeral. Qed.

Lemma moderate_fin x :
  moderate x → fin x ∧ (Qabs (value x) <= 2 ^ 1000)%Q.
Proof. intros [Hr Hv]. split; [by apply representable_fin|done]. Qed.

(** One rectangle through its label line. *)
Lemma decode_encode_rect (a1 b1 a2 b2 c : float64) (w h : Z) (line : string) :
  saveable [a1; b1; a2; b2; c] →
  (0 < w < 2 ^ 53)%Z → (0 < h < 2 ^ 53)%Z →
  encode_rect [a1; b1; a2; b2; c] w h = Ok line →
  terminated_line line
  ∧ ∃ o, decode_line (Unicode.of_string line) w h = Ok (Some o)
         ∧ round_trip_close w h [a1; b1; a2; b2; c] o.
Proof.
  intros (Ha1 & Hb1 & Ha2 & Hb2 & Hc) Hw Hh.
  apply moderate_fin in Ha1 as [Ha1 Hva1], Hb1 as [Hb1 Hvb1],
    Ha2 as [Ha2 Hva2], Hb2 as [Hb2 Hvb2].
  destruct (axis_round_trip a1 a2 w Ha1 Ha2 Hva1 Hva2 Hw)
    as (Hcx & Hbw & cx' & bw' & Hpcx & Hpbw & Hx1 & Hx1e & Hx2 & Hx2e).
  destruct (axis_round_trip b1 b2 h Hb1 Hb2 Hvb1 Hvb2 Hh)
    as (Hcy & Hbh & cy' & bh' & Hpcy & Hpbh & Hy1 & Hy1e & Hy2 & Hy2e).
  assert (of_int 2 = Ok (of_Z 2)) as H2 by (by apply of_int_exact).
  assert (of_int w = Ok (of_Z w)) as HWi by (apply of_int_exact; lia).
  assert (of_int h = Ok (of_Z h)) as HHi by (apply of_int_exact; lia).
  assert ((w =? 0)%Z = false) as Hw0 by lia.
  assert ((h =? 0)%Z = false) as Hh0 by lia.
  unfold encode_rect, to_yolo, div_int.
  cbn [float_of_int binary64]. rewrite H2, HWi, HHi, Hw0, Hh0.
  cbn [mbind res_bind Z.eqb fadd fsub fdiv fmul format_6f
       int_of_float binary64].
  destruct (to_int c) as [n|e] eqn:Hn; [|done]. intros [= <-].
  destruct (of_str_class c n Hc Hn) as (xn & Hpn & Hxn).
  set (cx := div (div (add a1 a2) (of_Z 2)) (of_Z w)) in *.
  set (bw := div (sub a2 a1) (of_Z w)) in *.
  set (cy := div (div (add b1 b2) (of_Z 2)) (of_Z h)) in *.
  set (bh := div (sub b2 b1) (of_Z h)) in *.
  assert (Forall (fun t => plain is_numeral_ascii t = true ∧ t ≠ "")
            [str_of_int n; str_6f cx; str_6f cy; str_6f bw; str_6f bh]) as Htok.
  { repeat constructor; apply numeral_str_of_int || by apply numeral_str_6f. }
  split; [by apply terminated_line_tokens|].
  unfold decode_line. rewrite split_line by done. cbn [map].
  pose proof Htok as Htok'.
  repeat (apply Forall_cons in Htok' as [[? ?] Htok']).
  rewrite !float_of_text_numeral by done.
  rewrite Hpn, Hpcx, Hpcy, Hpbw, Hpbh.
  unfold div_int, mul_int.
  cbn [float_of_int binary64]. rewrite H2, HWi, HHi.
  cbn [mbind res_bind Z.eqb fadd fsub fdiv fmul format_6f
       int_of_float binary64].
  rewrite Hxn. eexists. split; [reflexivity|].
  unfold round_trip_close. cbn [x1 y1 x2 y2 cid].
  repeat split; try done; by apply fin_is_finite.
Qed.

End WithExtern.

End CodecFacts.

Section SaveThenRead.
Context {F : Type} `{PyFloat F}.

Lemma write_text_stat p data fs fs' :
  os.write_text p data fs = (Ok tt, fs') →
  os.stat fs' p = Some (File (codecs.utf_8_encode data)).
Proof.
  unfold os.write_text, os.write_bytes, os.stat.
  destruct (os.resolve fs p) as [k|] eqn:Hk; [|done].
  destruct (os.creat_error fs k) eqn:Hc; [done|]. intros [= <-].
  rewrite resolve_set_tree, Hk. cbn [mbind option_bind].
  destruct k as [|n k]; [done|]. cbn. by rewrite lookup_insert_eq.
Qed.

Lemma remove_isfile p fs fs' :
  os.remove p fs = (Ok tt, fs') → os.isfile fs' p = false.
Proof.
  unfold os.remove, os.isfile, os.stat.
  destruct (os.resolve fs p) as [k|] eqn:Hk; [|done].
  destruct (os.node_at fs k) as [[d|]|] eqn:Hn; [|done..]. intros [= <-].
  rewrite resolve_set_tree, Hk. cbn [mbind option_bind].
  destruct k as [|n k]; [done|]. cbn. by rewrite lookup_delete_eq.
Qed.

Lemma exists_isfile fs p : os.exists_ fs p = false → os.isfile fs p = false.
Proof. unfold os.exists_, os.isfile. by destruct (os.stat fs p) as [[?|]|]. Qed.

(** What a call of [save_yolo_labels] that returns has left at the path. *)
Lemma save_yolo_labels_ok p (rects : list (list F)) w h fs fs' :
  save_yolo_labels p rects w h fs = (Ok tt, fs') →
  match rects with
  | [] => os.isfile fs' p = false
  | _ => ∃ lines, encode_rects rects w h = Ok lines
                  ∧ os.stat fs' p
                    = Some (File (codecs.utf_8_encode (Py.join "" lines)))
  end.
Proof.
  unfold save_yolo_labels. rewrite bind_eq.
  destruct (os.makedirs (posixpath.dirname p) fs) as [[[]|e] fs1]; [|done].
  destruct rects as [|r rects].
  - unfold when_. destruct (os.exists_ fs1 p) eqn:Hex.
    + apply remove_isfile.
    + intros [= <-]. by apply exists_isfile.
  - rewrite bind_eq. unfold lift_res.
    destruct (encode_rects (r :: rects) w h) as [lines|e]; [|done].
    intros Hw%write_text_stat. eauto.
Qed.

End SaveThenRead.

Module RoundTripFacts.
Import Numerals CodecFacts TextFacts Binary64.

Section WithExtern.

Context `{Extern float64}.

Lemma decode_encode_rects (rects : list (list float64)) (w h : Z)
    (lines : list string) :
  (0 < w < 2 ^ 53)%Z → (0 < h < 2 ^ 53)%Z →
  Forall saveable rects →
  encode_rects rects w h = Ok lines →
  Forall terminated_line lines
  ∧ ∃ out, decode_lines (map Unicode.of_string lines) w h = Ok out
           ∧ Forall2 (round_trip_close w h) rects out.
Proof.
  intros Hw Hh Hrs. revert lines.
  induction Hrs as [|r rects Hr _ IH]; intros lines.
  - intros [= <-]. split; [constructor|]. exists []. by split; [|constructor].
  - cbn [encode_rects]. unfold mbind, res_bind.
    destruct (encode_rect r w h) as [line|e] eqn:Henc; [|done].
    destruct (encode_rects rects w h) as [rest|e] eqn:Hrs; [|done].
    intros [= <-].
    destruct r as [|a1 [|b1 [|a2 [|b2 [|c [|? ?]]]]]]; try done.
    destruct (decode_encode_rect _ _ _ _ _ _ _ _ Hr Hw Hh Henc)
      as (Hl & o & Hd & Hc).
    destruct (IH rest eq_refl) as (Hls & out & Hds & Hcs).
    split; [by constructor|]. exists (o :: out).
    cbn [map decode_lines]. unfold mbind, res_bind. rewrite Hd, Hds.
    split; [done|by constructor].
Qed.

(** C1, as the code has it, in double precision. Whenever
    [save_yolo_labels] returns, for rectangles whose fields are numbers
    of the format with coordinates of magnitude at most 2^1000 and for
    dimensions below 2^53, reading the same path with the same
    dimensions returns one rectangle for each saved one, in order:
    every x coordinate is within
    0.75 * 10^-6 * W + 2^-49 * (|x1| + |x2| + W) of the saved one, every
    y coordinate within 0.75 * 10^-6 * H + 2^-49 * (|y1| + |y2| + H), and
    the class id is [int(cid)]. *)
Theorem save_read_round_trip (fs fs' : FS) (label_path : string)
    (rects : list (list float64)) (w h : Z) :
  (0 < w < 2 ^ 53)%Z → (0 < h < 2 ^ 53)%Z →
  Forall saveable rects →
  save_yolo_labels label_path rects w h fs = (Ok tt, fs') →
  ∃ out, read_yolo_labels fs' label_path w h = Ok out
         ∧ Forall2 (round_trip_close w h) rects out.
Proof.
  intros Hw Hh Hrs Hsave%save_yolo_labels_ok. destruct rects as [|r rects].
  - exists []. split; [|constructor]. unfold read_yolo_labels. by rewrite Hsave.
  - destruct Hsave as (lines & Henc & Hst).
    destruct (decode_encode_rects _ _ _ _ Hw Hh Hrs Henc) as (Hl & out & Hd & Hc).
    exists out. split; [|done].
    rewrite (read_yolo_labels_lines _ _ _ _ _ _ Hst (lines_join _ Hl)). done.
Qed.

End WithExtern.

End RoundTripFacts.

(* ================================================================== *)
(** * The statements at the sample project *)

(** C6: a root directory that holds [images/train] is not found.
    [norm("/").rstrip("/")] is the empty string, which the candidate loop
    skips, and the candidates after it are derived from the empty string
    and so name the working directory; [os.listdir("")] then raises, which
    is caught, and the result is [None] although the input path
    qualifies. *)
Theorem yolo_root_misses_slash :
  os.isdir Sample.fs "/images/train" = true
  ∧ ok Sample.fs "/" = true
  ∧ yolo_root Sample.fs "/" = None.
Proof. vm_compute. done. Qed.

(** Away from the root directory the resolution works: from
    [/data/images] the parent [/data] is found. *)
Lemma yolo_root_parent_sample :
  yolo_root Sample.fs "/data/images" = Some "/data".
Proof. vm_compute. done. Qed.

(** C1: the bound of half a millionth of the larger dimension fails for
    [Sample.wide_rect] in a 640 x 480 image: the line written is
    [0 0.110937 0.000000 0.195312 0.000000], and the right edge 133.5 is
    read back as 133.49952 and a little less, 0.00048 away, while the
    bound is 0.00032. *)
Lemma round_trip_half_bound_fails :
  fst Sample.saved = Ok tt
  ∧ os.stat (snd Sample.saved) "/data/labels/val/b.txt"
    = Some (File ("0 0.110937 0.000000 0.195312 0.000000" +:+ String Py.LF ""))
  ∧ ∃ o, @read_yolo_labels Binary64.float64 Binary64.binary64 Sample.ext
           (snd Sample.saved) "/data/labels/val/b.txt" 640 480 = Ok [o]
         ∧ ¬ near ((1 # 2000000) * inject_Z (Z.max 640 480))
                  (Binary64.value (x2 o)) (267 # 2).
Proof.
  split; [by vm_compute|]. split; [by vm_compute|].
  eexists. split; [vm_compute; reflexivity|].
  vm_compute. intros Hle. by apply Hle.
Qed.

Lemma save_read_round_trip_witness :
  ∃ out, @read_yolo_labels Binary64.float64 Binary64.binary64 Sample.ext
           (snd Sample.saved) "/data/labels/val/b.txt" 640 480 = Ok out
         ∧ Forall2 (round_trip_close 640 480) [Sample.wide_rect] out.
Proof.
  refine (@RoundTripFacts.save_read_round_trip Sample.ext Sample.fs
            (snd Sample.saved) "/data/labels/val/b.txt" [Sample.wide_rect]
            640 480 _ _ _ _).
  - lia.
  - lia.
  - repeat constructor; vm_compute; congruence.
  - vm_compute. reflexivity.
Defined.

Lemma save_empty_deletes_witness :
  let r := @save_yolo_labels Binary64.float64 Binary64.binary64
             "/data/labels/train/a.txt" [] 640 480 Sample.fs in
  os.isfile Sample.fs "/data/labels/train/a.txt" = true
  ∧ os.isfile (snd r) "/data/labels/train/a.txt" = false.
Proof.
  intros r. split; [vm_compute; reflexivity|].
  assert (succeeds (os.makedirs (posixpath.dirname "/data/labels/train/a.txt"))
            Sample.fs = true) as Hmk by (vm_compute; reflexivity).
  exact (proj1 (proj1 (proj2 (@save_empty_deletes Binary64.float64
                                Binary64.binary64 Sample.fs
                                "/data/labels/train/a.txt" 640 480)) Hmk)).
Defined.

(** C4: a line of five fields that are not numbers makes the read raise,
    and so does a line of two fields with a byte that is not UTF-8,
    although a line of five numbers follows. *)
Lemma read_raises_on_malformed_lines :
  os.stat Sample.fs "/data/labels/val/bad.txt" = Some (File Sample.bad_text)
  ∧ @read_yolo_labels Binary64.float64 Binary64.binary64 Sample.ext Sample.fs
      "/data/labels/val/bad.txt" 640 480 = Raise ValueError
  ∧ os.stat Sample.latin_fs "/data/labels/train/a.txt"
    = Some (File Sample.latin_text)
  ∧ @read_yolo_labels Binary64.float64 Binary64.binary64 Sample.ext
      Sample.latin_fs "/data/labels/train/a.txt" 640 480
    = Raise UnicodeDecodeError.
Proof. vm_compute. done. Qed.

Lemma read_skips_other_field_counts_witness :
  ∃ rects, @read_yolo_labels Binary64.float64 Binary64.binary64 Sample.ext
             Sample.fs "/data/labels/train/a.txt" 640 480 = Ok rects
           ∧ length rects = 1%nat.
Proof.
  refine (proj2 (proj1 (proj2 (@read_skips_other_field_counts Binary64.float64
                                 Binary64.binary64 Sample.ext Sample.fs
                                 "/data/labels/train/a.txt" Sample.label_text
                                 640 480 _))
                   (map Unicode.of_string
                      ["0 0.5 0.5 0.2 0.4" +:+ String Py.LF "";
                       "1 2 3 4" +:+ String Py.LF ""]) _) _).
  - vm_compute. reflexivity.
  - vm_compute. reflexivity.
  - repeat constructor; intros _; vm_compute; reflexivity.
Defined.

Lemma read_missing_or_empty_witness :
  @read_yolo_labels Binary64.float64 Binary64.binary64 Sample.ext Sample.fs
    "/data/labels/val/b.txt" 640 480 = Ok [].
Proof.
  apply read_missing_or_empty. left. vm_compute. reflexivity.
Defined.

(** C5: the format [XML] is answered like [JSON]: the call returns and the
    manifests are written. *)
Lemma export_unknown_format_writes :
  let r := @export_all Binary64.float64 Binary64.binary64 Sample.ext
             (mkExportReq "/out" "XML") Sample.world in
  fst r = Ok (mkExportResp 2 "/out")
  ∧ os.isfile (files (snd r)) "/out/annotations/train.json" = true
  ∧ os.isfile (files (snd r)) "/out/annotations/val.json" = true.
Proof. vm_compute. done. Qed.

Lemma export_other_format_is_json_witness :
  @export_all Binary64.float64 Binary64.binary64 Sample.ext
    (mkExportReq "/out" "XML") Sample.world
  = @export_all Binary64.float64 Binary64.binary64 Sample.ext
      (mkExportReq "/out" "JSON") Sample.world.
Proof.
  apply (@export_other_format_is_json Binary64.float64 Binary64.binary64
           Sample.ext (mkExportReq "/out" "XML") Sample.world).
  simpl. discriminate.
Defined.




Lemma remove_image_flat_keeps_list_witness :
  let r := @remove_image Binary64.float64 Sample.ext
             (mkRemoveReq "/flat/c.jpg" "train") Sample.flat_world in
  images (state (snd r)) = ["/flat/c.jpg"]
  ∧ ∃ resp,
      fst r = Ok resp
      ∧ os.stat (files (snd r)) (rem_img_dir "/flat" "train" +:+ "/" +:+ "c.jpg")
        = Some (File "JPEG")
      ∧ os.exists_ (files (snd r)) "/flat/c.jpg" = false
      ∧ ("/flat/c.jpg" ∈ images (state Sample.flat_world) →
         "/flat/c.jpg" ∈ move_images resp).
Proof.
  intros r.
  assert (truthy (root (state Sample.flat_world)) = true) as H1
    by (vm_compute; reflexivity).
  assert (simple_name "train" = true) as H2 by (vm_compute; reflexivity).
  assert (os.isdir Sample.fs (images_dir "/flat" "train") = false) as H3
    by (vm_compute; reflexivity).
  pose proof (@remove_image_flat_keeps_list Binary64.float64 Sample.ext
                (mkRemoveReq "/flat/c.jpg" "train") Sample.flat_world H1 H2 H3)
    as (Hkeep & _ & Hmove).
  split; [exact Hkeep|].
  refine (Hmove "JPEG" _ _ _ _); vm_compute; reflexivity.
Defined.


(* ================================================================== *)
(** * Root resolution and path normalisation, continued *)

Section RootMore.

Lemma existsb_SPLITS (f : string → bool) :
  existsb f SPLITS = true ↔ ∃ s, s ∈ SPLITS ∧ f s = true.
Proof.
  rewrite existsb_exists. split; intros (s & Hin & Hs); exists s.
  - by rewrite list_elem_of_In.
  - by rewrite <- list_elem_of_In.
Qed.

(** X1. A root that [yolo_root] returns qualifies: it is not empty and one of
    its [images/train], [images/val], [images/test] is a directory. *)
Theorem yolo_root_sound (fs : FS) (path c : string) :
  yolo_root fs path = Some c →
  c ≠ "" ∧ ∃ s, s ∈ SPLITS ∧ os.isdir fs (c +:+ "/images/" +:+ s) = true.
Proof.
  unfold yolo_root. set (p := Py.rstrip Py.slash (norm fs path)).
  destruct (find _ [p; _; _]) as [c'|] eqn:Hf.
  - intros [= ->]. apply find_some in Hf as [_ [Ht Hok]%andb_true_iff].
    split; [by apply truthy_ne|]. by apply existsb_SPLITS.
  - destruct (os.listdir fs p) as [entries|]; [|done].
    intros [Hin [_ Hok]%andb_true_iff]%find_some.
    apply in_map_iff in Hin as (child & <- & _).
    split; [apply norm_nonempty|]. by apply existsb_SPLITS.
Qed.

End RootMore.

Section NormFacts.

Lemma split_on_no_sep c s :
  Forall (fun x => Py.contains_char c x = false) (Py.split_on c s).
Proof.
  induction s as [|a s IH]; cbn [Py.split_on]; [by constructor|].
  destruct (Ascii.eqb a c) eqn:E; [by constructor|].
  destruct (Py.split_on c s) as [|x xs]; inversion IH; subst;
    constructor; try done; unfold Py.contains_char in *; cbn;
    by rewrite Ascii.eqb_sym, E.
Qed.

Lemma Forall_removelast {A} (P : A → Prop) l :
  Forall P l → Forall P (removelast l).
Proof.
  induction 1 as [|x l Hx Hl IH]; [constructor|]. cbn.
  destruct l; [constructor|]. by constructor.
Qed.

Lemma step_simple_stack stack comp :
  Forall (fun n => simple_name n = true) stack →
  Py.contains_char Py.slash comp = false →
  Forall (fun n => simple_name n = true) (posixpath.step stack comp).
Proof.
  intros Hs Hc. unfold posixpath.step.
  destruct (decide (comp = "" ∨ comp = ".")) as [|Hn1]; [done|].
  destruct (decide (comp = "..")) as [|Hn2]; [by apply Forall_removelast|].
  apply Forall_app. split; [done|]. constructor; [|constructor].
  unfold simple_name. rewrite Hc. cbn.
  rewrite !andb_true_iff, !negb_true_iff, !String.eqb_neq. naive_solver.
Qed.

Lemma fold_step_simple_stack comps stack :
  Forall (fun n => simple_name n = true) stack →
  Forall (fun x => Py.contains_char Py.slash x = false) comps →
  Forall (fun n => simple_name n = true) (fold_left posixpath.step comps stack).
Proof.
  intros Hs Hc. revert stack Hs.
  induction Hc as [|c comps Hc _ IH]; intros stack Hs; [done|].
  cbn. apply IH. by apply step_simple_stack.
Qed.

Lemma components_simple x :
  Forall (fun n => simple_name n = true) (posixpath.components x).
Proof.
  unfold posixpath.components. apply fold_step_simple_stack; [constructor|].
  apply split_on_no_sep.
Qed.

Lemma components_rooted names :
  Forall (fun n => simple_name n = true) names →
  posixpath.components ("/" +:+ Py.join "/" names) = names
  ∧ posixpath.components ("//" +:+ Py.join "/" names) = names.
Proof.
  intros Hn. destruct (decide (names = [])) as [->|Hne]; [done|].
  split.
  - change ("/" +:+ Py.join "/" names)
      with ("" +:+ String Py.slash (Py.join "/" names)).
    rewrite components_app, split_on_join by done.
    by rewrite fold_step_simple.
  - change ("//" +:+ Py.join "/" names)
      with ("/" +:+ String Py.slash (Py.join "/" names)).
    rewrite components_app, split_on_join by done.
    by rewrite fold_step_simple.
Qed.

Lemma initial_slashes_cases p :
  posixpath.initial_slashes p = "/" ∨ posixpath.initial_slashes p = "//".
Proof.
  unfold posixpath.initial_slashes.
  destruct p as [|a [|b [|c p]]]; auto;
    repeat match goal with |- context [if ?b then _ else _] => destruct b end;
    auto.
Qed.

Lemma components_normpath_abs x :
  posixpath.components (posixpath.normpath_abs x) = posixpath.components x.
Proof.
  unfold posixpath.normpath_abs.
  destruct (components_rooted _ (components_simple x)) as [H1 H2].
  by destruct (initial_slashes_cases x) as [-> | ->].
Qed.

Lemma simple_name_head n :
  simple_name n = true → ∃ c r, n = String c r ∧ Ascii.eqb c Py.slash = false.
Proof.
  unfold simple_name. destruct n as [|c r]; [done|].
  intros [[[Hs _]%andb_true_iff _]%andb_true_iff _]%andb_true_iff.
  exists c, r. split; [done|]. apply negb_true_iff in Hs.
  unfold Py.contains_char in Hs. cbn in Hs.
  apply orb_false_iff in Hs as [Hs _]. by rewrite Ascii.eqb_sym.
Qed.

Lemma join_head names :
  Forall (fun n => simple_name n = true) names →
  Py.join "/" names = ""
  ∨ ∃ c r, Py.join "/" names = String c r ∧ Ascii.eqb c Py.slash = false.
Proof.
  intros [|n rest Hn _]; [by left|]. right.
  destruct (simple_name_head n Hn) as (c & r & -> & Hc).
  destruct rest; cbn [Py.join]; rewrite ?app_cons_s; eauto.
Qed.

Lemma initial_slashes_normpath_abs x :
  posixpath.initial_slashes (posixpath.normpath_abs x)
  = posixpath.initial_slashes x.
Proof.
  unfold posixpath.normpath_abs.
  destruct (join_head _ (components_simple x)) as [->|(c & r & -> & Hc)];
    destruct (initial_slashes_cases x) as [-> | ->]; try done.
  - change ("/" +:+ String c r) with (String Py.slash (String c r)).
    unfold posixpath.initial_slashes. rewrite Hc, Ascii.eqb_refl.
    by destruct r.
  - change ("//" +:+ String c r)
      with (String Py.slash (String Py.slash (String c r))).
    unfold posixpath.initial_slashes. by rewrite Hc, Ascii.eqb_refl.
Qed.

Lemma normpath_abs_idempotent x :
  posixpath.normpath_abs (posixpath.normpath_abs x) = posixpath.normpath_abs x.
Proof.
  unfold posixpath.normpath_abs at 1.
  by rewrite initial_slashes_normpath_abs, components_normpath_abs.
Qed.

Lemma isabs_normpath_abs x : posixpath.isabs (posixpath.normpath_abs x) = true.
Proof.
  unfold posixpath.normpath_abs.
  by destruct (initial_slashes_cases x) as [-> | ->].
Qed.

Lemma absolute_isabs fs p : posixpath.isabs p = true → os.absolute fs p = p.
Proof. unfold os.absolute. by intros ->. Qed.

Lemma abspath_idempotent fs p : os.abspath fs (os.abspath fs p) = os.abspath fs p.
Proof.
  unfold os.abspath at 1. rewrite absolute_isabs by apply isabs_normpath_abs.
  apply normpath_abs_idempotent.
Qed.


Lemma contains_char_cons c a s :
  Py.contains_char c (String a s) = Ascii.eqb c a || Py.contains_char c s.
Proof. done. Qed.

Lemma split_on_keeps c sep s :
  Py.contains_char c s = false →
  Forall (fun x => Py.contains_char c x = false) (Py.split_on sep s).
Proof.
  induction s as [|a s IH]; cbn [Py.split_on]; [by constructor|].
  rewrite contains_char_cons. intros [Ha Hs]%orb_false_iff.
  specialize (IH Hs).
  destruct (Ascii.eqb a sep); [by constructor|].
  destruct (Py.split_on sep s) as [|x xs]; inversion IH; subst;
    constructor; try done; rewrite contains_char_cons; by rewrite Ha.
Qed.

Lemma fold_step_keeps (P : string → Prop) comps stack :
  Forall P stack → Forall P comps →
  Forall P (fold_left posixpath.step comps stack).
Proof.
  intros Hs Hc. revert stack Hs.
  induction Hc as [|x comps Hx _ IH]; intros stack Hs; [done|].
  cbn. apply IH. unfold posixpath.step.
  destruct (decide _); [done|].
  destruct (decide _); [by apply Forall_removelast|].
  apply Forall_app. split; [done|]. by constructor.
Qed.

Lemma join_keeps c xs :
  c ≠ Py.slash →
  Forall (fun x => Py.contains_char c x = false) xs →
  Py.contains_char c (Py.join "/" xs) = false.
Proof.
  intros Hc. induction 1 as [|x xs Hx Hxs IH]; [done|].
  destruct xs as [|y ys]; [done|].
  change (Py.join "/" (x :: y :: ys)) with (x +:+ "/" +:+ Py.join "/" (y :: ys)).
  rewrite !contains_char_app, Hx, IH. cbn.
  rewrite !orb_false_r. by apply Ascii.eqb_neq.
Qed.

Lemma normpath_abs_keeps c x :
  c ≠ Py.slash →
  Py.contains_char c x = false →
  Py.contains_char c (posixpath.normpath_abs x) = false.
Proof.
  intros Hc Hx. unfold posixpath.normpath_abs.
  rewrite contains_char_app, join_keeps; [|done|].
  - apply Ascii.eqb_neq in Hc. unfold Py.slash in Hc.
    destruct (initial_slashes_cases x) as [-> | ->]; cbn; by rewrite Hc.
  - apply fold_step_keeps; [constructor|]. by apply split_on_keeps.
Qed.

Lemma absolute_keeps c fs p :
  c ≠ Py.slash →
  Py.contains_char c (getcwd fs) = false → Py.contains_char c p = false →
  Py.contains_char c (os.absolute fs p) = false.
Proof.
  intros Hc Hcwd Hp. unfold os.absolute, posixpath.join.
  destruct (posixpath.isabs p); [done|]. case_decide; [done|].
  destruct (Py.endswith _ _); rewrite !contains_char_app, Hcwd, Hp; [done|].
  cbn. rewrite !orb_false_r. by apply Ascii.eqb_neq.
Qed.

Lemma replace_absent a b s :
  Py.contains_char a s = false → Py.replace a b s = s.
Proof.
  unfold Py.replace. induction s as [|x s IH]; [done|].
  rewrite contains_char_cons. intros [Hx Hs]%orb_false_iff.
  cbn [Py.map_chars]. rewrite Ascii.eqb_sym, Hx. by rewrite IH.
Qed.

Lemma replace_removes a b s :
  a ≠ b → Py.contains_char a (Py.replace a b s) = false.
Proof.
  intros Hab. unfold Py.replace. induction s as [|x s IH]; [done|].
  cbn [Py.map_chars]. rewrite contains_char_cons, IH, orb_false_r.
  destruct (Ascii.eqb x a) eqn:E.
  - by apply Ascii.eqb_neq.
  - by rewrite Ascii.eqb_sym.
Qed.

Lemma isabs_replace s :
  posixpath.isabs s = true →
  posixpath.isabs (Py.replace Py.backslash Py.slash s) = true.
Proof.
  destruct s as [|a s]; [done|]. cbn. intros ->%Ascii.eqb_eq. done.
Qed.

(** X4. [norm] returns an absolute path without backslashes; and when neither
    the working directory nor the path has a backslash, normalising twice
    is normalising once. *)
Theorem norm_idempotent (fs : FS) (path : string) :
  posixpath.isabs (norm fs path) = true
  ∧ Py.contains_char Py.backslash (norm fs path) = false
  ∧ (Py.contains_char Py.backslash (getcwd fs) = false →
     Py.contains_char Py.backslash path = false →
     norm fs (norm fs path) = norm fs path).
Proof.
  unfold norm. split; [|split].
  - apply isabs_replace, isabs_normpath_abs.
  - by apply replace_removes.
  - intros Hcwd Hp.
    assert (Py.contains_char Py.backslash (os.abspath fs path) = false) as Hn.
    { apply normpath_abs_keeps; [done|]. by apply absolute_keeps. }
    rewrite (replace_absent _ _ _ Hn), abspath_idempotent.
    by apply replace_absent.
Qed.

End NormFacts.

Section ListImages.
Context {F : Type} `{Extern F}.

(** X5. The image list of a directory [x/s] without pattern characters: the
    entries of the directory that are not hidden, have a dot in their
    name and end in an allowed extension whatever the case, each joined to
    the directory, in sorted order. The entries are not required to be
    regular files; a directory that cannot be listed has no images. *)
Theorem list_images_spec (fs : FS) (x s f : string) :
  simple_name s = true →
  glob.has_magic (x +:+ "/" +:+ s) = false →
  let d := x +:+ "/" +:+ s in
  Sorted String.le (list_images fs d)
  ∧ (f ∈ list_images fs d ↔
     ∃ entries n,
       os.listdir fs d = Ok entries ∧ n ∈ entries
       ∧ f = posixpath.join d n
       ∧ glob.is_hidden n = false
       ∧ Py.contains_char Py.dot n = true
       ∧ Py.endswith_any (Py.lower f) ALLOWED_EXTS = true).
Proof.
  intros Hs Hm d. split; [apply list_images_sorted|].
  unfold list_images, glob.glob_star_dot_star. subst d.
  rewrite dirname_pattern, Hm by done. set (d := x +:+ "/" +:+ s).
  rewrite merge_sort_Permutation, list_elem_of_filter.
  destruct (os.listdir fs d) as [entries|e].
  - rewrite list_elem_of_In, in_map_iff. split.
    + intros (Hext & n & <- & [Hh Hd]%list_elem_of_In%list_elem_of_filter).
      apply andb_prop_elim in Hh as [Hh Hd'].
      exists entries, n. repeat split; try done.
      * by apply negb_prop_elim, Is_true_false in Hh.
      * by apply Is_true_true.
      * by apply Is_true_true.
    + intros (entries' & n & [= <-] & Hin & -> & Hh & Hdot & Hext).
      split; [by apply Is_true_true|]. exists n. split; [done|].
      apply list_elem_of_In, list_elem_of_filter. split; [|done].
      unfold glob.matches_star_dot_star. rewrite Hh, Hdot. done.
  - split; [by intros [_ ?%elem_of_nil]|]. by intros (? & ? & ? & _).
Qed.

End ListImages.

(* ================================================================== *)
(** * Class names *)

Section Classes.

Lemma rstrip_space_cons a s :
  Py.rstrip_space (String a s)
  = match Py.rstrip_space s with
    | "" => if Py.is_space a then "" else String a ""
    | t => String a t
    end.
Proof. done. Qed.

Lemma rstrip_space_idempotent s :
  Py.rstrip_space (Py.rstrip_space s) = Py.rstrip_space s.
Proof.
  induction s as [|a s IH]; [done|]. rewrite rstrip_space_cons.
  destruct (Py.rstrip_space s) as [|b t] eqn:E.
  - destruct (Py.is_space a) eqn:Ha; [done|]. cbn. by rewrite Ha.
  - by rewrite rstrip_space_cons, IH.
Qed.

Lemma rstrip_space_head c r :
  Py.is_space c = false →
  ∃ r', Py.rstrip_space (String c r) = String c r'.
Proof.
  intros Hc. rewrite rstrip_space_cons, Hc.
  destruct (Py.rstrip_space r); eauto.
Qed.

Lemma lstrip_head s :
  Py.lstrip s = "" ∨ ∃ c r, Py.lstrip s = String c r ∧ Py.is_space c = false.
Proof.
  induction s as [|a s IH]; [by left|]. cbn [Py.lstrip].
  destruct (Py.is_space a) eqn:Ha; [done|]. right. eauto.
Qed.

Lemma lstrip_fixed c r : Py.is_space c = false → Py.lstrip (String c r) = String c r.
Proof. intros Hc. cbn. by rewrite Hc. Qed.

Lemma strip_idempotent s : Py.strip (Py.strip s) = Py.strip s.
Proof.
  unfold Py.strip. destruct (lstrip_head s) as [->|(c & r & -> & Hc)]; [done|].
  destruct (rstrip_space_head c r Hc) as (r' & Hr). rewrite Hr.
  rewrite lstrip_fixed by done. rewrite <- Hr. apply rstrip_space_idempotent.
Qed.

Lemma rstrip_space_last s :
  Py.rstrip_space s = ""
  ∨ ∃ t c, Py.rstrip_space s = t +:+ String c "" ∧ Py.is_space c = false.
Proof.
  induction s as [|a s IH]; [by left|]. rewrite rstrip_space_cons.
  destruct IH as [->|(t & c & -> & Hc)].
  - destruct (Py.is_space a) eqn:Ha; [by left|]. right. by exists "", a.
  - right. exists (String a t), c. split; [|done].
    destruct t; by rewrite ?app_cons_s, ?app_nil_l_s.
Qed.

(** The class names [set_classes] will keep for the names of a request. *)
Lemma kept_names_fixed l :
  let kept := map Py.strip
                (filter (fun n => negb (String.eqb (Py.strip n) "")) l) in
  map Py.strip (filter (fun n => negb (String.eqb (Py.strip n) "")) kept)
  = kept.
Proof.
  induction l as [|n l IH]; [done|]. cbn zeta in *.
  rewrite filter_cons. destruct (decide _) as [Hn|Hn]; [|exact IH].
  cbn [map]. rewrite filter_cons, strip_idempotent.
  rewrite decide_True by done. cbn [map]. by rewrite strip_idempotent, IH.
Qed.

(** The names kept, one request name after the other. *)
Lemma kept_names_omap l :
  map Py.strip (filter (fun n => negb (String.eqb (Py.strip n) "")) l)
  = omap (fun m => if decide (Py.strip m = "") then None
                   else Some (Py.strip m)) l.
Proof.
  induction l as [|n l IH]; [done|].
  rewrite filter_cons. cbn [omap list_omap].
  destruct (decide (Py.strip n = "")) as [E|E].
  - rewrite decide_False; [exact IH|]. rewrite E. by intros [].
  - rewrite decide_True; [by cbn [map]; rewrite IH|].
    apply negb_prop_intro. intros E'%Is_true_true%String.eqb_eq. done.
Qed.

(** X13. When [set_classes] returns, the class names are the names it
    returns: the names of the request that are not blank, in their order
    and as often as they occur, each without white space at its ends and
    none of them empty; and sending the answer back changes nothing. *)
Theorem set_classes_strips (req : ClassesReq) (w w' : World) (kept : list string) :
  set_classes req w = (Ok kept, w') →
  class_names w' = kept
  ∧ kept ≠ []
  ∧ Forall (fun n => n ≠ "" ∧ Py.strip n = n
                     ∧ Py.lstrip n = n ∧ Py.rstrip_space n = n) kept
  ∧ (∀ n, n ∈ kept ↔ ∃ m, m ∈ names req ∧ Py.strip m ≠ "" ∧ n = Py.strip m)
  ∧ kept = omap (fun m => if decide (Py.strip m = "") then None
                          else Some (Py.strip m)) (names req)
  ∧ state w' = state w ∧ files w' = files w
  ∧ set_classes (mkClassesReq kept) w' = (Ok kept, w').
Proof.
  unfold set_classes. case_bool_decide as Hnil; [done|].
  intros [= <- <-]. cbn [class_names state files].
  split; [done|]. split; [done|].
  split; [|split; [|split; [apply kept_names_omap|split; [done|split; [done|]]]]].
  - apply Forall_forall. intros n (m & <- & [Hm _]%list_elem_of_In%list_elem_of_filter)%list_elem_of_In%in_map_iff.
    apply negb_prop_elim in Hm. rewrite strip_idempotent.
    assert (Py.strip m ≠ "") as Hne.
    { intros E. apply Hm. rewrite E. done. }
    split; [done|]. split; [done|]. unfold Py.strip in *.
    destruct (lstrip_head m) as [E|(c & r & E & Hc)]; rewrite E in *; [done|].
    destruct (rstrip_space_head c r Hc) as (r' & Hr). rewrite Hr.
    split; [by apply lstrip_fixed|]. rewrite <- Hr. apply rstrip_space_idempotent.
  - intros n. rewrite list_elem_of_In, in_map_iff. split.
    + intros (m & <- & [Hm Hin]%list_elem_of_In%list_elem_of_filter).
      exists m. split; [done|]. split; [|done].
      apply negb_prop_elim in Hm. intros E. apply Hm. by rewrite E.
    + intros (m & Hin & Hne & ->). exists m. split; [done|].
      apply list_elem_of_In, list_elem_of_filter. split; [|done].
      apply negb_prop_intro. intros E%Is_true_true%String.eqb_eq. done.
  - cbn [names]. rewrite kept_names_fixed.
    rewrite bool_decide_false by done. done.
Qed.

(** X14. Whatever the request, [set_classes] touches neither the project
    state nor the files; when it raises, it is with status 400 and the
    class names stay; and a list of class names that is not empty is
    never replaced by an empty one. *)
Theorem set_classes_never_empties (req : ClassesReq) (w : World) :
  let r := set_classes req w in
  state (snd r) = state w ∧ files (snd r) = files w
  ∧ (∀ e, fst r = Raise e →
          e = HTTPException 400 "Class names cannot be empty" ∧ snd r = w
          ∧ Forall (fun n => Py.strip n = "") (names req))
  ∧ (class_names w ≠ [] → class_names (snd r) ≠ []).
Proof.
  unfold set_classes. case_bool_decide as Hnil; cbn.
  - split; [done|]. split; [done|]. split; [|done].
    intros e [= <-]. split; [done|]. split; [done|].
    apply Forall_forall. intros n Hn.
    destruct (decide (Py.strip n = "")) as [|Hne]; [done|]. exfalso.
    assert (Py.strip n ∈ map Py.strip
              (filter (fun n => negb (String.eqb (Py.strip n) "")) (names req)))
      as Hin.
    { apply list_elem_of_In, in_map_iff. exists n. split; [done|].
      apply list_elem_of_In, list_elem_of_filter. split; [|done].
      apply negb_prop_intro. intros E%Is_true_true%String.eqb_eq. done. }
    rewrite Hnil in Hin. by apply elem_of_nil in Hin.
  - split; [done|]. split; [done|]. split; [done|]. done.
Qed.

End Classes.

(* ================================================================== *)
(** * The model library *)

Section Models.

Lemma components_slash_end p :
  posixpath.components (p +:+ "/") = posixpath.components p.
Proof.
  change (p +:+ "/") with (p +:+ String Py.slash "").
  by rewrite components_app.
Qed.

(** The normalised empty path names the working directory. *)
Lemma resolve_norm_empty fs :
  posixpath.isabs (getcwd fs) = true →
  Py.contains_char Py.backslash (getcwd fs) = false →
  os.resolve fs (norm fs "") = os.resolve fs (getcwd fs).
Proof.
  intros Habs Hbs.
  assert (getcwd fs ≠ "") as Hne by (intros E; by rewrite E in Habs).
  unfold os.resolve. rewrite decide_False by apply norm_nonempty.
  rewrite decide_False by done. f_equal.
  rewrite absolute_isabs.
  2:{ unfold norm. apply isabs_replace, isabs_normpath_abs. }
  rewrite (absolute_isabs fs (getcwd fs)) by done.
  unfold norm. rewrite replace_absent.
  2:{ apply normpath_abs_keeps; [done|]. by apply absolute_keeps. }
  unfold os.abspath. rewrite components_normpath_abs.
  unfold os.absolute, posixpath.join. cbn [posixpath.isabs].
  rewrite decide_False by done.
  destruct (Py.endswith _ _); rewrite ?app_nil_r_s; [done|].
  change (getcwd fs +:+ "/" +:+ "") with (getcwd fs +:+ "/").
  apply components_slash_end.
Qed.

(** X15. When [import_model] returns, the selected path is the normalised
    path of a regular file and is in the library; the library is the old
    one, with the path added at its end only if it was missing, so it
    gains no duplicate; and importing the same file again changes
    nothing. *)
Theorem import_model_adds_once (fs : FS) (payload : gmap string string)
    (lib lib' : list string) (resp : ImportResp) :
  import_model fs payload lib = (Ok resp, lib') →
  import_selected resp = norm fs (payload_get payload "path" "")
  ∧ os.isfile fs (import_selected resp) = true
  ∧ import_models resp = lib'
  ∧ import_selected resp ∈ lib'
  ∧ lib' = (if bool_decide (import_selected resp ∈ lib) then lib
            else lib ++ [import_selected resp])
  ∧ (NoDup lib → NoDup lib')
  ∧ import_model fs payload lib' = (Ok resp, lib').
Proof.
  unfold import_model. fold (norm fs (payload_get payload "path" "")).
  set (path := norm fs _).
  destruct (os.isfile fs path) eqn:Hf; [|done]. cbn [negb].
  unfold when_, mbind, M_bind, modify, gets, mret, M_ret.
  case_bool_decide as Hin; cbn; intros E; injection E as <- <-; cbn.
  - rewrite !bool_decide_true by done. cbn. by repeat split.
  - assert (path ∈ lib ++ [path]) as Hnew.
    { apply elem_of_app. right. apply list_elem_of_here. }
    rewrite (bool_decide_true (path ∈ lib ++ [path])) by done.
    rewrite (bool_decide_false (path ∈ lib)) by done. cbn.
    repeat split; try done.
    intros Hnd. apply NoDup_app. repeat split; [done| |apply NoDup_singleton].
    intros x Hx ->%list_elem_of_singleton. done.
Qed.

(** X16. [import_model] raises exactly when the normalised path names no
    regular file, and then with status 400 and the library as it was. A
    payload without the key [path] is refused in this way, its path being
    the working directory (here: absolute, without backslash, and a
    directory). *)
Theorem import_model_refuses (fs : FS) (payload : gmap string string)
    (lib : list string) :
  let path := norm fs (payload_get payload "path" "") in
  (os.isfile fs path = false →
   import_model fs payload lib
   = (Raise (HTTPException 400 "Model file not found"), lib))
  ∧ (is_ok (fst (import_model fs payload lib)) = false →
     os.isfile fs path = false)
  ∧ (payload !! "path" = None →
     posixpath.isabs (getcwd fs) = true →
     Py.contains_char Py.backslash (getcwd fs) = false →
     os.isdir fs (getcwd fs) = true →
     import_model fs payload lib
     = (Raise (HTTPException 400 "Model file not found"), lib)).
Proof.
  intros path.
  assert (os.isfile fs path = false →
          import_model fs payload lib
          = (Raise (HTTPException 400 "Model file not found"), lib)) as Hno.
  { intros Hf. unfold import_model.
    fold (norm fs (payload_get payload "path" "")). fold path. by rewrite Hf. }
  split; [done|]. split.
  - unfold import_model. fold (norm fs (payload_get payload "path" "")).
    fold path. destruct (os.isfile fs path); [|done]. cbn [negb].
    unfold when_, mbind, M_bind, modify, gets, mret, M_ret.
    by case_bool_decide.
  - intros Hp Habs Hbs Hdir. apply Hno. unfold path, payload_get.
    rewrite Hp. cbn [default]. unfold os.isfile, os.isdir, os.stat in *.
    rewrite resolve_norm_empty by done.
    by destruct (os.resolve fs (getcwd fs) ≫= os.node_at fs) as [[|]|].
Qed.

End Models.

(* ================================================================== *)
(** * Computations that only make directories *)

Section OnlyMkdir.

Lemma only_mkdir_ret {A} (a : A) : only_mkdir (mret a : M FS A).
Proof. intros fs. cbn. done. Qed.

Lemma only_mkdir_bind {A B} (m : M FS A) (f : A → M FS B) :
  only_mkdir m → (∀ a, only_mkdir (f a)) → only_mkdir (m ≫= f).
Proof.
  intros Hm Hf fs. rewrite bind_eq. destruct (Hm fs) as (Hc & Hfile & Hdir).
  destruct (m fs) as [[a|e] fs'] eqn:E; cbn [snd] in *; [|done].
  destruct (Hf a fs') as (Hc' & Hfile' & Hdir').
  split; [congruence|]. split.
  - intros K d. by rewrite Hfile', Hfile.
  - intros K HK. by apply Hdir', Hdir.
Qed.

Lemma only_mkdir_when (test : FS → bool) (m : M FS unit) :
  only_mkdir m → only_mkdir (when_ test m).
Proof.
  intros Hm fs. unfold when_. destruct (test fs); [apply Hm|]. cbn. done.
Qed.

Lemma only_mkdir_for_each {A} (xs : list A) (body : A → M FS unit) :
  (∀ x, only_mkdir (body x)) → only_mkdir (for_each xs body).
Proof.
  intros Hb. induction xs as [|x xs IH]; [apply only_mkdir_ret|].
  cbn [for_each]. apply only_mkdir_bind; [apply Hb|done].
Qed.

Lemma find_is_file_at fs k K d :
  find (os.is_file_at fs) (os.prefixes k) = None →
  K ∈ os.prefixes k → tree fs !! K ≠ Some (File d).
Proof.
  intros Hf Hin HK. apply list_elem_of_In in Hin as Hin'.
  eapply find_none in Hf; [|done].
  apply elem_of_prefixes in Hin as [Hne _].
  unfold os.is_file_at in Hf. rewrite node_at_cons, HK in Hf by done. done.
Qed.

Lemma only_mkdir_makedirs p : only_mkdir (os.makedirs p).
Proof.
  intros fs. unfold os.makedirs.
  destruct (os.resolve fs p) as [k|] eqn:Hk; [|done].
  destruct (find _ _) eqn:Hf; [done|]. cbn. split; [done|]. split.
  - intros K d. rewrite lookup_mkdirs. case_decide as Hin; [|done].
    split; [done|]. intros HK. by eapply find_is_file_at in HK.
  - intros K HK. rewrite lookup_mkdirs. by case_decide.
Qed.

Lemma only_mkdir_ensure_labels rootp : only_mkdir (ensure_labels rootp).
Proof.
  apply only_mkdir_for_each. intros s.
  apply only_mkdir_when, only_mkdir_makedirs.
Qed.

(** What the frame gives for the path predicates. *)
Lemma only_mkdir_stat {A} (m : M FS A) fs p d :
  only_mkdir m →
  os.stat (snd (m fs)) p = Some (File d) ↔ os.stat fs p = Some (File d).
Proof.
  intros Hm. destruct (Hm fs) as (Hc & Hfile & _).
  unfold os.stat, os.resolve, os.absolute. rewrite Hc.
  case_decide; [done|]. cbn [mbind option_bind].
  destruct (posixpath.components _) as [|n k]; [done|]. cbn. apply Hfile.
Qed.

Lemma only_mkdir_isfile {A} (m : M FS A) fs p :
  only_mkdir m → os.isfile (snd (m fs)) p = os.isfile fs p.
Proof.
  intros Hm. destruct (os.isfile fs p) eqn:E.
  - apply isfile_stat in E as [d Hd]. apply isfile_stat. exists d.
    by apply only_mkdir_stat.
  - apply not_true_iff_false. intros [d Hd]%isfile_stat.
    apply (only_mkdir_stat m fs p d Hm) in Hd.
    assert (os.isfile fs p = true) as E' by (apply isfile_stat; by exists d).
    congruence.
Qed.

Lemma only_mkdir_isdir {A} (m : M FS A) fs p :
  only_mkdir m → os.isdir fs p = true → os.isdir (snd (m fs)) p = true.
Proof.
  intros Hm. destruct (Hm fs) as (Hc & _ & Hdir).
  unfold os.isdir, os.stat, os.resolve, os.absolute. rewrite Hc.
  case_decide; [done|]. cbn [mbind option_bind].
  destruct (posixpath.components _) as [|n k]; [done|]. cbn.
  destruct (tree fs !! (n :: k)) as [[|]|] eqn:E; try done.
  intros _. by rewrite (Hdir _ E).
Qed.

Lemma makedirs_isdir p fs fs' :
  os.makedirs p fs = (Ok tt, fs') → os.isdir fs' p = true.
Proof.
  unfold os.makedirs, os.isdir, os.stat.
  destruct (os.resolve fs p) as [k|] eqn:Hk; [|done].
  destruct (find _ _); [done|]. intros [= <-].
  rewrite resolve_set_tree, Hk. cbn [mbind option_bind].
  destruct (decide (k = [])) as [->|Hne]; [done|].
  rewrite node_at_set_tree by done. rewrite lookup_mkdirs_prefix; done.
Qed.

End OnlyMkdir.

(* ================================================================== *)
(** * Opening a project, continued *)

Section EnsureLabels.

Lemma for_each_cons_ok {A} (x : A) xs (body : A → M FS unit) fs fs' :
  for_each (x :: xs) body fs = (Ok tt, fs') →
  ∃ fs1, body x fs = (Ok tt, fs1) ∧ for_each xs body fs1 = (Ok tt, fs').
Proof.
  cbn [for_each]. rewrite bind_eq.
  destruct (body x fs) as [[[]|e] fs1]; [|done]. eauto.
Qed.

Lemma ensure_labels_post rootp xs fs fs' s :
  for_each xs (fun s =>
    when_ (fun fs => os.isdir fs (rootp +:+ "/images/" +:+ s))
          (os.makedirs (rootp +:+ "/labels/" +:+ s))) fs = (Ok tt, fs') →
  s ∈ xs →
  os.isdir fs (rootp +:+ "/images/" +:+ s) = true →
  os.isdir fs' (rootp +:+ "/labels/" +:+ s) = true.
Proof.
  revert fs. induction xs as [|x xs IH]; intros fs Hrun Hin Hdir.
  - by apply elem_of_nil in Hin.
  - apply for_each_cons_ok in Hrun as (fs1 & Hx & Hrest).
    assert (only_mkdir (when_ (fun fs => os.isdir fs (rootp +:+ "/images/" +:+ x))
                              (os.makedirs (rootp +:+ "/labels/" +:+ x)))) as Hbody
      by apply only_mkdir_when, only_mkdir_makedirs.
    apply elem_of_cons in Hin as [->|Hin].
    + unfold when_ in Hx. rewrite Hdir in Hx. apply makedirs_isdir in Hx.
      pose proof (only_mkdir_isdir
                    (for_each xs (fun s =>
                       when_ (fun fs => os.isdir fs (rootp +:+ "/images/" +:+ s))
                             (os.makedirs (rootp +:+ "/labels/" +:+ s))))
                    fs1 (rootp +:+ "/labels/" +:+ x)) as Hmono.
      rewrite Hrest in Hmono. apply Hmono; [|done].
      apply only_mkdir_for_each. intros s.
      apply only_mkdir_when, only_mkdir_makedirs.
    + apply (IH fs1); [done..|].
      pose proof (only_mkdir_isdir _ fs (rootp +:+ "/images/" +:+ s) Hbody Hdir)
        as Hmono.
      by rewrite Hx in Hmono.
Qed.

(** X6. [ensure_labels] at most makes directories: no regular file appears,
    changes or goes away, and no directory goes away; and when it
    returns, every split whose [images/<s>] was a directory has its
    [labels/<s>] directory. *)
Theorem ensure_labels_makes_label_dirs (rootp : string) (fs : FS) :
  let fs' := snd (ensure_labels rootp fs) in
  getcwd fs' = getcwd fs
  ∧ (∀ K d, tree fs' !! K = Some (File d) ↔ tree fs !! K = Some (File d))
  ∧ (∀ K, tree fs !! K = Some Dir → tree fs' !! K = Some Dir)
  ∧ (fst (ensure_labels rootp fs) = Ok tt →
     ∀ s, s ∈ SPLITS →
          os.isdir fs (rootp +:+ "/images/" +:+ s) = true →
          os.isdir fs' (rootp +:+ "/labels/" +:+ s) = true).
Proof.
  intros fs'. destruct (only_mkdir_ensure_labels rootp fs) as (Hc & Hf & Hd).
  split; [done|]. split; [done|]. split; [done|].
  intros Hok s Hs Hdir. apply (ensure_labels_post rootp SPLITS fs fs' s); [|done..].
  unfold fs'. fold (ensure_labels rootp).
  destruct (ensure_labels rootp fs) as [r fs1]. cbn in *. by rewrite Hok.
Qed.

End EnsureLabels.

Section OpenMore.

Context {F : Type} `{Extern F}.

Lemma raises_os_ensure_labels rootp : raises_os (ensure_labels rootp).
Proof.
  apply raises_os_for_each. intros s. apply raises_os_when, raises_os_makedirs.
Qed.

(** [open_project] on a folder whose root has no [images] directory. *)
Lemma open_project_flat req w :
  let fs := files w in
  let path := norm fs (open_path req) in
  let rootp := pick_root fs (open_mode req) path in
  os.isdir fs path = true →
  os.isdir fs (rootp +:+ "/images") = false →
  open_project req w
  = let st' := mkState rootp (open_mode req) "train" (list_images fs rootp) in
    match os.makedirs (rootp +:+ "/labels/train") fs with
    | (Ok _, fs1) =>
        (Ok (mkOpenProjectResp rootp (open_mode req) "train" (images st')
               (length (images st')) (class_names w)),
         mkWorld st' (class_names w) fs1)
    | (Raise e, fs1) => (Raise e, mkWorld st' (class_names w) fs1)
    end.
Proof.
  destruct w as [[r m s i] cn fs0]. cbn zeta. cbn [files state class_names].
  intros Hp Hi. unfold open_project.
  rewrite bind_eq. cbn [gets files]. rewrite Hp. cbn [negb].
  rewrite bind_eq. cbn [set_state modify]. rewrite bind_eq.
  cbn [set_state modify]. rewrite bind_eq. rewrite Hi.
  repeat (rewrite bind_eq; cbn [set_state modify gets]).
  unfold on_files. cbn [files state class_names].
  destruct (os.makedirs _ fs0) as [[[]|e] fs1]; reflexivity.
Qed.

Lemma open_project_no_folder req w :
  os.isdir (files w) (norm (files w) (open_path req)) = false →
  open_project req w = (Raise (HTTPException 400 "Folder not found"), w).
Proof.
  intros Hp. unfold open_project. rewrite bind_eq. cbn [gets]. by rewrite Hp.
Qed.

(** X7. [open_project] answers 400 exactly when the normalised path is no
    directory, and then nothing has changed; no other outcome is an HTTP
    error. *)
Theorem open_project_folder_not_found (req : OpenProjectReq) (w : World) :
  let path := norm (files w) (open_path req) in
  (os.isdir (files w) path = false →
   open_project req w = (Raise (HTTPException 400 "Folder not found"), w))
  ∧ (∀ code detail,
       fst (open_project req w) = Raise (HTTPException code detail) →
       os.isdir (files w) path = false).
Proof.
  intros path. split; [apply open_project_no_folder|].
  intros code detail Hr.
  destruct (os.isdir (files w) path) eqn:Hp; [exfalso|done].
  destruct (os.isdir (files w)
              (pick_root (files w) (open_mode req) path +:+ "/images")) eqn:Hi.
  - rewrite open_project_structured in Hr by done.
    pose proof (raises_os_ensure_labels
                  (pick_root (files w) (open_mode req) path) (files w)) as Hos.
    destruct (ensure_labels _ (files w)) as [[[]|e] fs1]; [done|].
    cbn in Hr. injection Hr as ->. by apply (Hos _ eq_refl).
  - rewrite open_project_flat in Hr by done.
    pose proof (raises_os_makedirs
                  (pick_root (files w) (open_mode req) path +:+ "/labels/train")
                  (files w)) as Hos.
    cbn zeta in Hr.
    destruct (os.makedirs _ (files w)) as [[[]|e] fs1]; [done|].
    cbn in Hr. injection Hr as ->. by apply (Hos _ eq_refl).
Qed.

(** X8. [open_project] at most makes directories, whatever its outcome: the
    regular files and their content, the directories that exist, the
    working directory and the class names are as before. *)
Theorem open_project_only_makes_dirs (req : OpenProjectReq) (w : World) :
  let w' := snd (open_project req w) in
  class_names w' = class_names w
  ∧ getcwd (files w') = getcwd (files w)
  ∧ (∀ K d, tree (files w') !! K = Some (File d)
            ↔ tree (files w) !! K = Some (File d))
  ∧ (∀ K, tree (files w) !! K = Some Dir → tree (files w') !! K = Some Dir).
Proof.
  intros w'. subst w'.
  destruct (os.isdir (files w) (norm (files w) (open_path req))) eqn:Hp.
  2:{ rewrite open_project_no_folder by done. done. }
  set (rootp := pick_root (files w) (open_mode req)
                  (norm (files w) (open_path req))).
  destruct (os.isdir (files w) (rootp +:+ "/images")) eqn:Hi.
  - rewrite open_project_structured by done. fold rootp.
    destruct (only_mkdir_ensure_labels rootp (files w)) as (Hc & Hf & Hd).
    destruct (ensure_labels rootp (files w)) as [[[]|e] fs1]; done.
  - rewrite open_project_flat by done. fold rootp. cbn zeta.
    destruct (only_mkdir_makedirs (rootp +:+ "/labels/train") (files w))
      as (Hc & Hf & Hd).
    destruct (os.makedirs _ (files w)) as [[[]|e] fs1]; done.
Qed.

(** X9. Opening a folder whose root has no [images] directory: the split is
    [train], the image list is the sorted listing of the root itself, the
    answer repeats them, and [labels/train] is a directory afterwards. *)
Theorem open_project_flat_folder (req : OpenProjectReq) (w w' : World)
    (resp : OpenProjectResp) :
  open_project req w = (Ok resp, w') →
  let rootp := root (state w') in
  os.isdir (files w) (rootp +:+ "/images") = false →
  rootp = pick_root (files w) (open_mode req) (norm (files w) (open_path req))
  ∧ mode (state w') = open_mode req
  ∧ split (state w') = "train"
  ∧ images (state w') = list_images (files w) rootp
  ∧ resp = mkOpenProjectResp rootp (open_mode req) "train" (images (state w'))
                             (length (images (state w'))) (class_names w)
  ∧ os.isdir (files w') (rootp +:+ "/labels/train") = true.
Proof.
  intros Hopen. destruct (open_project_root _ _ _ _ Hopen) as [Hp Hroot].
  cbn zeta. rewrite Hroot. intros Hi.
  rewrite open_project_flat in Hopen by done. cbn zeta in Hopen.
  destruct (os.makedirs _ (files w)) as [[[]|e] fs1] eqn:Hmk; [|done].
  injection Hopen as <- <-. cbn [state files root mode split images].
  repeat split; try done. by apply makedirs_isdir in Hmk.
Qed.

End OpenMore.

(* ================================================================== *)
(** * Changing the split and asking for the project's description *)

Section SplitInfo.

Context {F : Type} `{Extern F}.

Lemma change_split_eq payload w :
  truthy (root (state w)) = true →
  change_split payload w
  = let requested := payload_get payload "split" "train" in
    let st' :=
      if os.isdir (files w) (images_dir (root (state w)) requested)
      then mkState (root (state w)) (mode (state w)) requested
                   (list_images (files w) (images_dir (root (state w)) requested))
      else mkState (root (state w)) (mode (state w)) "train" [] in
    (Ok (mkSplitResp (split st') (images st')),
     mkWorld st' (class_names w) (files w)).
Proof.
  destruct w as [[r m s i] cn fs0]. cbn [files state class_names root mode].
  intros Hr. unfold change_split, images_dir.
  rewrite bind_eq. cbn [gets state root]. rewrite Hr. cbn [negb].
  rewrite bind_eq. cbn [gets files]. cbn zeta.
  destruct (os.isdir fs0 _); reflexivity.
Qed.

(** X10. In a loaded project [change_split] always returns. It touches
    neither the files, the root, the mode nor the class names. When
    [images/<requested>] is a directory, the requested split becomes the
    active one with its sorted listing; otherwise the active split is
    [train] and the image list is empty, whatever [images/train] holds.
    Without the key [split] the request is for [train]. *)
Theorem change_split_behaviour (payload : gmap string string) (w : World) :
  truthy (root (state w)) = true →
  let requested := payload_get payload "split" "train" in
  let present := os.isdir (files w) (images_dir (root (state w)) requested) in
  ∃ resp w',
    change_split payload w = (Ok resp, w')
    ∧ files w' = files w ∧ class_names w' = class_names w
    ∧ root (state w') = root (state w) ∧ mode (state w') = mode (state w)
    ∧ split (state w') = (if present then requested else "train")
    ∧ images (state w')
      = (if present
         then list_images (files w) (images_dir (root (state w)) requested)
         else [])
    ∧ Sorted String.le (images (state w'))
    ∧ split_split resp = split (state w')
    ∧ split_images resp = images (state w')
    ∧ (payload !! "split" = None → requested = "train").
Proof.
  intros Hr requested present. rewrite change_split_eq by done. cbn zeta.
  fold requested. fold present. do 2 eexists. split; [reflexivity|].
  cbn [files class_names state].
  destruct present; cbn [root mode split images split_split split_images];
    repeat split; try done; try apply list_images_sorted; try constructor;
    intros Hp; unfold requested, payload_get; by rewrite Hp.
Qed.

Lemma choose_split_absent fs rootp :
  split_present fs rootp (choose_split (split_files fs rootp)) = false →
  choose_split (split_files fs rootp) = "train"
  ∧ ∀ s, s ∈ SPLITS → split_present fs rootp s = false.
Proof.
  rewrite choose_split_expected.
  unfold expected_split, split_nonempty, split_present, images_dir, SPLITS.
  cbn [find].
  destruct (os.isdir fs (rootp +:+ "/images/" +:+ "train")) eqn:E1;
    destruct (os.isdir fs (rootp +:+ "/images/" +:+ "val")) eqn:E2;
    destruct (os.isdir fs (rootp +:+ "/images/" +:+ "test")) eqn:E3;
    cbn [andb negb];
    repeat match goal with
           | |- context [bool_decide ?P] => destruct (bool_decide P)
           end;
    cbn [andb negb]; rewrite ?E1, ?E2, ?E3; try done;
    intros _; (split; [done|]); intros s Hs;
    repeat (apply elem_of_cons in Hs as [->|Hs]); try done;
    by apply elem_of_nil in Hs.
Qed.

Lemma pick_root_truthy fs mode path :
  path ≠ "" → truthy (pick_root fs mode path) = true.
Proof.
  intros Hp. apply truthy_ne in Hp. unfold pick_root.
  repeat match goal with
         | |- context [if ?b then _ else _] => destruct b eqn:?
         end; try done;
    match goal with
    | E : _ && truthy _ = true |- _ => by apply andb_true_iff in E as [_ ?]
    end.
Qed.

(** X11. Right after a project with an [images] directory was opened, asking
    for the split that is active gives back the same split and the same
    image list, and changes nothing. *)
Theorem change_split_after_open (req : OpenProjectReq) (w w' : World)
    (resp : OpenProjectResp) :
  open_project req w = (Ok resp, w') →
  os.isdir (files w) (root (state w') +:+ "/images") = true →
  change_split {[ "split" := split (state w') ]} w'
  = (Ok (mkSplitResp (resp_split resp) (resp_images resp)), w').
Proof.
  intros Hopen. destruct (open_project_root _ _ _ _ Hopen) as [Hp Hroot].
  rewrite Hroot. intros Hi.
  rewrite (open_project_structured req w Hp Hi) in Hopen.
  set (rootp := pick_root _ _ _) in *.
  assert (truthy rootp = true) as Hrt by apply pick_root_truthy, norm_nonempty.
  destruct (ensure_labels rootp (files w)) as [[[]|e] fs1]; [|done].
  injection Hopen as <- <-. rewrite change_split_eq by done.
  cbn [state files class_names root mode split images resp_split resp_images].
  unfold payload_get. rewrite lookup_singleton_eq. cbn [default]. cbn zeta.
  rewrite (dict_get_choose_split fs1 rootp). unfold split_present.
  destruct (os.isdir fs1 (images_dir rootp _)) eqn:E; [done|].
  destruct (choose_split_absent fs1 rootp E) as [Ht _].
  cbn [split images]. by rewrite Ht.
Qed.

Lemma project_info_eq w :
  truthy (root (state w)) = true →
  project_info w
  = (Ok (mkInfoResp (root (state w)) (mode (state w)) (split (state w))
           (if os.isdir (files w) (root (state w) +:+ "/images")
            then filter (fun s => os.isdir (files w)
                                    (root (state w) +:+ "/images/" +:+ s))
                        SPLITS
            else ["train"])
           (length (images (state w))) (class_names w)),
     w).
Proof.
  destruct w as [[r m s i] cn fs0]. cbn [files state class_names root mode].
  intros Hr. unfold project_info.
  rewrite bind_eq. cbn [gets state root]. rewrite Hr. cbn [negb].
  reflexivity.
Qed.

(** Making [rootp/labels/train] does not make [rootp/images]. *)
Lemma makedirs_labels_keeps_images rootp fs fs' :
  rootp ≠ "" →
  os.makedirs (rootp +:+ "/labels/train") fs = (Ok tt, fs') →
  os.isdir fs' (rootp +:+ "/images") = os.isdir fs (rootp +:+ "/images").
Proof.
  intros Hr Hmk. destruct (resolve_is_Some fs rootp Hr) as [kr Hkr].
  assert (os.resolve fs (rootp +:+ "/labels/train") = Some (kr ++ ["labels"; "train"]))
    as Hl.
  { apply (resolve_layout fs rootp kr Hr Hkr ["labels"; "train"]); [done|].
    by repeat constructor. }
  assert (os.resolve fs (rootp +:+ "/images") = Some (kr ++ ["images"])) as Hi.
  { apply (resolve_layout fs rootp kr Hr Hkr ["images"]); [done|].
    by repeat constructor. }
  assert (succeeds (os.makedirs (rootp +:+ "/labels/train")) fs = true) as Hs.
  { unfold succeeds. by rewrite Hmk. }
  destruct (makedirs_ok _ _ _ Hl Hs) as [Heq _]. rewrite Hmk in Heq.
  injection Heq as ->.
  unfold os.isdir, os.stat. rewrite resolve_set_tree, Hi. cbn [mbind option_bind].
  rewrite node_at_set_tree, node_at_cons by (by destruct kr).
  rewrite lookup_mkdirs_other; [done|].
  intros [l Hl']. rewrite <- app_assoc in Hl'. apply app_inv_head in Hl'.
  done.
Qed.

(** X12. Right after a project was opened, [project_info] returns, changes
    nothing and agrees with the answer of [open_project] on the root, the
    mode, the active split, the number of images and the class names;
    and the active split is one of the splits it lists, unless it lists
    none. *)
Theorem project_info_after_open (req : OpenProjectReq) (w w' : World)
    (resp : OpenProjectResp) :
  open_project req w = (Ok resp, w') →
  ∃ info,
    project_info w' = (Ok info, w')
    ∧ info_root info = resp_root resp ∧ info_mode info = resp_mode resp
    ∧ info_split info = resp_split resp ∧ info_count info = resp_count resp
    ∧ info_class_names info = resp_class_names resp
    ∧ (info_splits info ≠ [] → info_split info ∈ info_splits info).
Proof.
  intros Hopen. destruct (open_project_root _ _ _ _ Hopen) as [Hp Hroot].
  set (rootp := pick_root _ _ _) in *.
  assert (truthy rootp = true) as Hrt by apply pick_root_truthy, norm_nonempty.
  rewrite project_info_eq by by rewrite Hroot.
  eexists. split; [reflexivity|]. cbn [info_root info_mode info_split
    info_count info_class_names info_splits].
  destruct (os.isdir (files w) (rootp +:+ "/images")) eqn:Hi.
  - rewrite (open_project_structured req w Hp Hi) in Hopen. fold rootp in Hopen.
    pose proof (only_mkdir_isdir (ensure_labels rootp) (files w)
                  (rootp +:+ "/images") (only_mkdir_ensure_labels rootp) Hi)
      as Hi'.
    destruct (ensure_labels rootp (files w)) as [[[]|e] fs1]; [|done].
    injection Hopen as <- <-. cbn [snd] in Hi'.
    cbn [state files class_names root mode split images resp_root resp_mode
         resp_split resp_count resp_class_names].
    rewrite Hi'. repeat split; try done.
    intros Hne.
    destruct (split_present fs1 rootp (choose_split (split_files fs1 rootp)))
      eqn:E.
    + apply list_elem_of_filter. split; [|apply choose_split_in_SPLITS].
      by apply Is_true_true.
    + destruct (choose_split_absent fs1 rootp E) as [_ Hall]. exfalso.
      apply Hne.
      assert (∀ s, s ∈ SPLITS →
                   ¬ Is_true (os.isdir fs1 (rootp +:+ "/images/" +:+ s))) as Hno.
      { intros s Hs. specialize (Hall s Hs).
        unfold split_present, images_dir in Hall. rewrite Hall. exact id. }
      unfold SPLITS in *. rewrite !filter_cons, filter_nil.
      rewrite !decide_False by (apply Hno; repeat constructor). done.
  - rewrite (open_project_flat req w Hp Hi) in Hopen. fold rootp in Hopen.
    cbn zeta in Hopen.
    destruct (os.makedirs _ (files w)) as [[[]|e] fs1] eqn:Hmk; [|done].
    injection Hopen as <- <-.
    cbn [state files class_names root mode split images resp_root resp_mode
         resp_split resp_count resp_class_names].
    rewrite (makedirs_labels_keeps_images rootp (files w) fs1), Hi;
      [|by apply truthy_ne|done].
    repeat split; try done. intros _. repeat constructor.
Qed.

End SplitInfo.

(* ================================================================== *)
(** * Saving labels: what else is touched *)

Section SaveFrame.

Context {F : Type} `{PyFloat F}.

Lemma resolve_getcwd fs fs' p :
  getcwd fs' = getcwd fs → os.resolve fs' p = os.resolve fs p.
Proof. intros Hc. unfold os.resolve, os.absolute. by rewrite Hc. Qed.

Lemma touches_only_mkdir {A} p (m : M FS A) : only_mkdir m → touches_only p m.
Proof.
  intros Hm fs. destruct (Hm fs) as (Hc & Hf & Hd). split; [done|].
  split; [|done]. intros K d _. apply Hf.
Qed.

Lemma touches_only_bind {A B} p (m : M FS A) (f : A → M FS B) :
  touches_only p m → (∀ a, touches_only p (f a)) → touches_only p (m ≫= f).
Proof.
  intros Hm Hf fs. rewrite bind_eq. destruct (Hm fs) as (Hc & Hfile & Hdir).
  destruct (m fs) as [[a|e] fs'] eqn:E; cbn [snd] in *; [|done].
  destruct (Hf a fs') as (Hc' & Hfile' & Hdir').
  split; [congruence|]. split.
  - intros K d HK. rewrite Hfile', Hfile; [done..|].
    by rewrite (resolve_getcwd fs fs').
  - intros K HK. by apply Hdir', Hdir.
Qed.

Lemma touches_only_when p (test : FS → bool) (m : M FS unit) :
  touches_only p m → touches_only p (when_ test m).
Proof.
  intros Hm fs. unfold when_. destruct (test fs); [apply Hm|]. cbn. done.
Qed.

Lemma touches_only_lift_res {A} p (r : res A) : touches_only p (lift_res r).
Proof. intros fs. cbn. done. Qed.

Lemma touches_only_remove p : touches_only p (os.remove p).
Proof.
  intros fs. unfold os.remove.
  destruct (os.resolve fs p) as [k|] eqn:Hk; [|done].
  destruct (os.node_at fs k) as [[d0|]|] eqn:Hn; [|done..]. cbn.
  split; [done|]. split.
  - intros K d HK. rewrite lookup_delete_ne; [done|]. congruence.
  - intros K HK. rewrite lookup_delete_ne; [done|]. intros ->.
    destruct K; [done|]. cbn in Hn. congruence.
Qed.

Lemma touches_only_write_text p data : touches_only p (os.write_text p data).
Proof.
  intros fs. unfold os.write_text, os.write_bytes.
  destruct (os.resolve fs p) as [k|] eqn:Hk; [|done].
  destruct (os.creat_error fs k) eqn:Hc; [done|]. cbn.
  split; [done|]. split.
  - intros K d HK. rewrite lookup_insert_ne; [done|]. congruence.
  - intros K HK. rewrite lookup_insert_ne; [done|]. intros ->.
    unfold os.creat_error in Hc. destruct K as [|n K]; [done|].
    destruct (os.node_at fs (removelast (n :: K))) as [[|]|]; try done.
    cbn [os.node_at] in Hc. by rewrite HK in Hc.
Qed.

Lemma touches_only_save p (rects : list (list F)) w h :
  touches_only p (save_yolo_labels p rects w h).
Proof.
  unfold save_yolo_labels. apply touches_only_bind.
  { apply touches_only_mkdir, only_mkdir_makedirs. }
  intros _. destruct rects as [|r rects].
  - apply touches_only_when, touches_only_remove.
  - apply touches_only_bind; [apply touches_only_lift_res|].
    intros lines. apply touches_only_write_text.
Qed.

(** X17. Whatever its outcome, [save_yolo_labels] leaves every regular file
    other than the label file as it was, with its content; it keeps the
    working directory and removes no directory. *)
Theorem save_yolo_labels_touches_one_file (label_path : string)
    (rects : list (list F)) (w h : Z) (fs : FS) :
  let fs' := snd (save_yolo_labels label_path rects w h fs) in
  getcwd fs' = getcwd fs
  ∧ (∀ K d, os.resolve fs label_path ≠ Some K →
            tree fs' !! K = Some (File d) ↔ tree fs !! K = Some (File d))
  ∧ (∀ K, tree fs !! K = Some Dir → tree fs' !! K = Some Dir).
Proof. apply touches_only_save. Qed.

Lemma encode_rects_bad_arity (rects : list (list F)) w h :
  Exists (fun r => length r ≠ 5%nat) rects →
  is_ok (encode_rects rects w h) = false.
Proof.
  induction 1 as [r rects Hr|r rects _ IH]; cbn [encode_rects];
    unfold mbind, res_bind.
  - destruct r as [|a1 [|b1 [|a2 [|b2 [|c [|? ?]]]]]]; try done.
    all: cbn [encode_rect]; try done.
  - destruct (encode_rect r w h); [|done].
    by destruct (encode_rects rects w h).
Qed.

Lemma div_int_zero (x : F) : is_ok (div_int x 0) = false.
Proof. unfold div_int, mbind, res_bind. by destruct (float_of_int 0). Qed.

Lemma to_yolo_zero (a1 b1 a2 b2 : F) w h :
  w = 0%Z ∨ h = 0%Z → is_ok (to_yolo a1 b1 a2 b2 w h) = false.
Proof.
  intros Hz. unfold to_yolo, mbind, res_bind.
  destruct (div_int (fadd a1 a2) 2) as [s|]; [|done].
  destruct (div_int s w) as [cx|] eqn:Hcx; [|done].
  destruct (div_int (fadd b1 b2) 2) as [t|]; [|done].
  destruct (div_int t h) as [cy|] eqn:Hcy; [|done].
  destruct Hz as [-> | ->].
  - pose proof (div_int_zero s) as Hs. by rewrite Hcx in Hs.
  - pose proof (div_int_zero t) as Ht. by rewrite Hcy in Ht.
Qed.

Lemma encode_rects_zero (rects : list (list F)) w h :
  rects ≠ [] → w = 0%Z ∨ h = 0%Z →
  is_ok (encode_rects rects w h) = false.
Proof.
  intros Hne Hz. destruct rects as [|r rects]; [done|].
  cbn [encode_rects]. unfold mbind, res_bind.
  destruct r as [|a1 [|b1 [|a2 [|b2 [|c [|? ?]]]]]]; try done.
  unfold encode_rect, mbind, res_bind.
  pose proof (to_yolo_zero a1 b1 a2 b2 w h Hz) as Hy.
  by destruct (to_yolo a1 b1 a2 b2 w h).
Qed.

(** X18. A save that cannot encode its rectangles writes nothing. When the
    list is not empty and a rectangle does not have five fields, or a
    dimension of the image is 0, [save_yolo_labels] raises; every regular
    file, the label file of before included, is then as it was. *)
Theorem save_yolo_labels_bad_rects_keep_files (label_path : string)
    (rects : list (list F)) (w h : Z) (fs : FS) :
  rects ≠ [] →
  Exists (fun r => length r ≠ 5%nat) rects ∨ w = 0%Z ∨ h = 0%Z →
  let r := save_yolo_labels label_path rects w h fs in
  is_ok (fst r) = false
  ∧ (∀ K d, tree (snd r) !! K = Some (File d) ↔ tree fs !! K = Some (File d)).
Proof.
  intros Hne Hbad.
  assert (is_ok (encode_rects rects w h) = false) as Henc.
  { destruct Hbad as [Hbad|Hbad]; [by apply encode_rects_bad_arity|].
    by apply encode_rects_zero. }
  cbn zeta. unfold save_yolo_labels. rewrite bind_eq.
  destruct (only_mkdir_makedirs (posixpath.dirname label_path) fs)
    as (_ & Hfile & _).
  destruct (os.makedirs (posixpath.dirname label_path) fs) as [[[]|e] fs1];
    [|done].
  cbn [snd] in Hfile. destruct rects as [|r rects]; [done|].
  rewrite bind_eq. unfold lift_res.
  destruct (encode_rects (r :: rects) w h); [done|]. done.
Qed.

End SaveFrame.

(* ================================================================== *)
(** * The label endpoints *)

Section LabelEndpoints.

Context {F : Type} `{PyFloat F} `{Extern F}.

Lemma image_open_files img fs : snd (image_open img fs) = fs.
Proof.
  unfold image_open. destruct (os.read_bytes fs img); [|done].
  by destruct (image_size _).
Qed.

Lemma image_open_ok img fs wh fs' :
  image_open img fs = (Ok wh, fs') →
  fs' = fs ∧ ∃ data, os.stat fs img = Some (File data) ∧ image_size data = Some wh.
Proof.
  unfold image_open, os.read_bytes.
  destruct (os.stat fs img) as [[data|]|]; [|done..].
  destruct (image_size data) as [wh'|] eqn:E; [|done].
  intros [= <- <-]. eauto.
Qed.

(** [get_labels] past its two guards. *)
Lemma get_labels_eq image_path split w :
  truthy (root (state w)) = true →
  os.isfile (files w) (norm (files w) image_path) = true →
  get_labels image_path split w
  = let img := norm (files w) image_path in
    let lbl := label_of (root (state w)) split img in
    match image_open img (files w) with
    | (Ok wh, _) =>
        match read_yolo_labels (files w) lbl (fst wh) (snd wh) with
        | Ok rects =>
            (Ok (mkLabelsResp rects (fst wh) (snd wh)
                   (match os.stat (files w) lbl with
                    | Some (File d) => Nat.ltb 0 (String.length d)
                    | _ => false
                    end)),
             w)
        | Raise e => (Raise e, w)
        end
    | (Raise e, _) => (Raise e, w)
    end.
Proof.
  destruct w as [st cn fs0]. cbn [files state class_names].
  intros Hr Hf. unfold get_labels.
  rewrite bind_eq. cbn [gets state]. rewrite Hr. cbn [negb].
  rewrite bind_eq. cbn [gets files]. rewrite Hf. cbn [negb]. cbn zeta.
  rewrite bind_eq. unfold on_files at 1. cbn [files].
  pose proof (image_open_files (norm fs0 image_path) fs0) as Hio.
  destruct (image_open (norm fs0 image_path) fs0) as [[wh|e] fs1];
    cbn [snd] in Hio; subst fs1; [|done].
  rewrite bind_eq. unfold on_files at 1. cbn [files state].
  destruct (read_yolo_labels fs0 _ (fst wh) (snd wh)) as [rects|e]; [|done].
  rewrite bind_eq. cbn [gets files].
  unfold os.isfile, os.getsize.
  destruct (os.stat fs0 _) as [[d|]|]; reflexivity.
Qed.

(** X19. [get_labels] changes nothing, whatever its outcome. When it returns,
    the width and height are those of the image, the rectangles are those
    [read_yolo_labels] decodes for them, [has_label_file] tells that the
    label path names a regular file that is not empty, and without such a
    file there are no rectangles. *)
Theorem get_labels_read_only (image_path split : string) (w : World) :
  let r := get_labels image_path split w in
  let img := norm (files w) image_path in
  let lbl := label_of (root (state w)) split img in
  snd r = w
  ∧ ∀ resp, fst r = Ok resp →
      (∃ data, os.stat (files w) img = Some (File data)
               ∧ image_size data = Some (labels_width resp, labels_height resp))
      ∧ read_yolo_labels (files w) lbl (labels_width resp) (labels_height resp)
        = Ok (labels_rects resp)
      ∧ (has_label_file resp = true
         ↔ ∃ d, os.stat (files w) lbl = Some (File d) ∧ d ≠ "")
      ∧ (has_label_file resp = false → labels_rects resp = []).
Proof.
  intros r img lbl. subst r.
  destruct (truthy (root (state w))) eqn:Hr.
  2:{ unfold get_labels. rewrite bind_eq. cbn [gets]. rewrite Hr. done. }
  destruct (os.isfile (files w) img) eqn:Hf.
  2:{ unfold get_labels. rewrite bind_eq. cbn [gets]. rewrite Hr. cbn [negb].
      rewrite bind_eq. cbn [gets]. fold img. rewrite Hf. done. }
  rewrite get_labels_eq by done. cbn zeta. fold img. fold lbl.
  destruct (image_open img (files w)) as [[[iw ih]|e] fs1] eqn:Hio; [|done].
  apply image_open_ok in Hio as (_ & data & Hdata & Hsize). cbn [fst snd].
  destruct (read_yolo_labels (files w) lbl iw ih) as [rects|e] eqn:Hread;
    [|done].
  split; [done|]. intros resp [= <-].
  cbn [labels_width labels_height labels_rects has_label_file].
  split; [eauto|]. split; [done|].
  revert Hread. unfold read_yolo_labels, os.isfile, os.getsize, os.read_bytes.
  destruct (os.stat (files w) lbl) as [[d|]|]; cbn.
  - destruct d as [|a d]; cbn.
    + intros [= <-]. split; [|done]. split; [done|]. by intros (? & [= <-] & ?).
    + intros _. split; [|done]. split; [|done]. intros _. by eexists.
  - intros [= <-]. split; [|done]. split; [done|]. by intros (? & ? & _).
  - intros [= <-]. split; [|done]. split; [done|]. by intros (? & ? & _).
Qed.

(** [save_labels] past its two guards. *)
Lemma save_labels_eq (req : SaveReq F) w :
  truthy (root (state w)) = true →
  os.isfile (files w) (norm (files w) (save_image_path req)) = true →
  save_labels req w
  = let img := norm (files w) (save_image_path req) in
    let lbl := label_of (root (state w)) (save_split req) img in
    match image_open img (files w) with
    | (Ok wh, _) =>
        let r := save_yolo_labels lbl (save_rects req) (fst wh) (snd wh)
                                  (files w) in
        (fst r, mkWorld (state w) (class_names w) (snd r))
    | (Raise e, _) => (Raise e, w)
    end.
Proof.
  destruct w as [st cn fs0]. cbn [files state class_names].
  intros Hr Hf. unfold save_labels.
  rewrite bind_eq. cbn [gets state]. rewrite Hr. cbn [negb].
  rewrite bind_eq. cbn [gets files]. rewrite Hf. cbn [negb]. cbn zeta.
  rewrite bind_eq. unfold on_files at 1. cbn [files].
  pose proof (image_open_files (norm fs0 (save_image_path req)) fs0) as Hio.
  destruct (image_open (norm fs0 (save_image_path req)) fs0) as [[wh|e] fs1];
    cbn [snd] in Hio; subst fs1; [|done].
  unfold on_files. cbn [files state class_names].
  by destruct (save_yolo_labels _ _ _ _ fs0).
Qed.

End LabelEndpoints.

Module LabelRoundTrip.
Import Numerals CodecFacts TextFacts RoundTripFacts Binary64.

Section WithExtern.

Context `{Extern float64}.

Lemma image_open_stat img fs data wh :
  os.stat fs img = Some (File data) → image_size data = Some wh →
  image_open img fs = (Ok wh, fs).
Proof.
  intros Hst Hsz. unfold image_open, os.read_bytes. by rewrite Hst, Hsz.
Qed.

Lemma encode_rects_length (rects : list (list float64)) w h lines :
  encode_rects rects w h = Ok lines → length lines = length rects.
Proof.
  revert lines. induction rects as [|r rects IH]; intros lines.
  - by intros [= <-].
  - cbn [encode_rects]. unfold mbind, res_bind.
    destruct (encode_rect r w h); [|done].
    destruct (encode_rects rects w h) as [ls|]; [|done].
    intros [= <-]. cbn. by rewrite (IH ls).
Qed.

(** X20. Saving through [/api/labels/save] and asking back through
    [/api/labels], in double precision: for an image whose width and
    height are positive and below 2^53 and which is not itself the label
    file, and for rectangles whose fields are numbers of the format with
    coordinates of magnitude at most 2^1000, a save that returns is
    followed by a [get_labels] that returns, changes nothing, reports the
    same width and height, gives one rectangle for each saved one, every
    x coordinate within 0.75 * 10^-6 * W + 2^-49 * (|x1| + |x2| + W) and
    every y coordinate within 0.75 * 10^-6 * H + 2^-49 * (|y1| + |y2| + H)
    of the saved one, with the class id [int(cid)]; and [has_label_file]
    is true exactly when the saved list was not empty. *)
Theorem save_labels_then_get_labels (req : SaveReq float64) (w w' : World)
    (data : string) (iw ih : Z) :
  let img := norm (files w) (save_image_path req) in
  let lbl := label_of (root (state w)) (save_split req) img in
  (0 < iw < 2 ^ 53)%Z → (0 < ih < 2 ^ 53)%Z →
  Forall saveable (save_rects req) →
  os.stat (files w) img = Some (File data) →
  image_size data = Some (iw, ih) →
  os.resolve (files w) img ≠ os.resolve (files w) lbl →
  save_labels req w = (Ok tt, w') →
  ∃ resp,
    get_labels (save_image_path req) (save_split req) w' = (Ok resp, w')
    ∧ labels_width resp = iw ∧ labels_height resp = ih
    ∧ Forall2 (round_trip_close iw ih) (save_rects req) (labels_rects resp)
    ∧ has_label_file resp = negb (bool_decide (save_rects req = [])).
Proof.
  intros img lbl Hw Hh Hrs Hst Hsz Hne Hsave.
  assert (os.isfile (files w) img = true) as Hf.
  { apply isfile_stat. eauto. }
  assert (truthy (root (state w)) = true) as Hr.
  { destruct (truthy (root (state w))) eqn:E; [done|].
    unfold save_labels in Hsave. rewrite bind_eq in Hsave. cbn [gets] in Hsave.
    by rewrite E in Hsave. }
  rewrite save_labels_eq in Hsave by done. cbn zeta in Hsave.
  fold img in Hsave. fold lbl in Hsave.
  rewrite (image_open_stat img (files w) data (iw, ih)) in Hsave by done.
  cbn [fst snd] in Hsave.
  destruct (touches_only_save lbl (save_rects req) iw ih (files w))
    as (Hcwd & Hfile & _).
  destruct (save_yolo_labels lbl (save_rects req) iw ih (files w))
    as [r fs'] eqn:Hrun.
  cbn [fst snd] in *. injection Hsave as -> <-.
  assert (norm fs' (save_image_path req) = img) as Himg.
  { unfold img, norm, os.abspath, os.absolute. by rewrite Hcwd. }
  assert (os.stat fs' img = Some (File data)) as Hst'.
  { destruct (stat_file_key _ _ _ Hst) as (ki & Hki & Hkne & Hlook).
    unfold os.stat. rewrite (resolve_getcwd (files w) fs') by done.
    rewrite Hki. cbn [mbind option_bind]. rewrite node_at_cons by done.
    apply Hfile; [|done]. intros E. apply Hne. by rewrite Hki, E. }
  rewrite get_labels_eq; cbn [files state class_names]; rewrite ?Himg;
    [|done|apply isfile_stat; eauto].
  cbn zeta. fold lbl.
  rewrite (image_open_stat img fs' data (iw, ih)) by done. cbn [fst snd].
  apply save_yolo_labels_ok in Hrun.
  destruct (save_rects req) as [|r rects] eqn:Hrects.
  - unfold read_yolo_labels. rewrite Hrun. cbn [negb].
    eexists. split; [reflexivity|].
    cbn [labels_width labels_height labels_rects has_label_file].
    repeat split; [constructor|].
    unfold os.isfile in Hrun. by destruct (os.stat fs' lbl) as [[|]|].
  - destruct Hrun as (lines & Henc & Hlbl).
    destruct (decode_encode_rects _ _ _ _ Hw Hh Hrs Henc)
      as (Hl & out & Hd & Hc).
    rewrite (read_yolo_labels_lines _ _ _ _ _ _ Hlbl (lines_join _ Hl)), Hd.
    eexists. split; [reflexivity|].
    cbn [labels_width labels_height labels_rects has_label_file].
    repeat split; [done|]. rewrite Hlbl.
    apply encode_rects_length in Henc as Hlen.
    destruct lines as [|l ls]; [done|]. inversion Hl; subst.
    pose proof (encode_not_empty _ (join_not_empty l ls ltac:(done))) as Hj.
    by destruct (codecs.utf_8_encode (Py.join "" (l :: ls))).
Qed.

End WithExtern.

End LabelRoundTrip.

(* ================================================================== *)
(** * Restoring, and the endpoints without a project *)

Section RestoreMore.

Context {F : Type} `{PyFloat F} `{Extern F}.

Lemma restore_image_missing req w :
  truthy (root (state w)) = true →
  os.isfile (files w) (rem_img_dir (root (state w)) (restore_split req)
                       +:+ "/" +:+ restore_filename req) = false →
  restore_image req w
  = (Raise (HTTPException 404 "Removed file not found"), w).
Proof.
  intros Hr Hf. unfold restore_image. rewrite bind_eq. cbn [gets].
  rewrite Hr. cbn [negb]. rewrite bind_eq. cbn [gets]. by rewrite Hf.
Qed.

(** X21. With a project loaded, [restore_image] answers 404, and changes
    nothing, when [removed/<split>/images/<filename>] is no regular file;
    and it answers with an HTTP error in no other case: what else goes
    wrong is an error of the file system. *)
Theorem restore_image_not_found (req : RestoreReq) (w : World) :
  truthy (root (state w)) = true →
  let rem_img := rem_img_dir (root (state w)) (restore_split req)
                 +:+ "/" +:+ restore_filename req in
  (os.isfile (files w) rem_img = false →
   restore_image req w
   = (Raise (HTTPException 404 "Removed file not found"), w))
  ∧ (∀ code detail,
       fst (restore_image req w) = Raise (HTTPException code detail) →
       os.isfile (files w) rem_img = false).
Proof.
  intros Hr rem_img. split; [by apply restore_image_missing|].
  intros code detail Hd.
  destruct (os.isfile (files w) rem_img) eqn:Hf; [exfalso|done].
  rewrite restore_image_eq in Hd by done.
  destruct (restore_files _ _ _ (files w)) as [[[]|e] fs'] eqn:E; [done|].
  cbn in Hd. injection Hd as ->.
  rewrite restore_files_transfer in E.
  eapply (raises_os_transfer _ _ _ _ _ (files w) (HTTPException code detail)).
  by rewrite E.
Qed.

Lemma restore_list_eq split w :
  truthy (root (state w)) = true →
  restore_list split w
  = (if os.isdir (files w) (rem_img_dir (root (state w)) split)
     then match os.listdir (files w) (rem_img_dir (root (state w)) split) with
          | Ok entries =>
              Ok (merge_sort String.le
                    (filter (fun f => Py.endswith_any (Py.lower f) ALLOWED_EXTS)
                            entries))
          | Raise e => Raise e
          end
     else Ok [],
     w).
Proof.
  destruct w as [st cn fs0]. cbn [files state class_names].
  intros Hr. unfold restore_list.
  rewrite bind_eq. cbn [gets state]. rewrite Hr. cbn [negb].
  rewrite bind_eq. cbn [gets files].
  destruct (os.isdir fs0 _); [|done]. cbn [negb].
  rewrite bind_eq. unfold on_files, lift_res. cbn [files state class_names].
  by destruct (os.listdir fs0 _).
Qed.

Lemma listdir_isdir fs p :
  os.isdir fs p = true → ∃ k, os.resolve fs p = Some k
                              ∧ os.listdir fs p = Ok (elements (os.children fs k)).
Proof.
  unfold os.isdir, os.stat, os.listdir.
  destruct (os.resolve fs p) as [k|]; [|done]. cbn [mbind option_bind].
  destruct (os.node_at fs k) as [[|]|]; try done. eauto.
Qed.

(** X22. With a project loaded, [restore_list] returns and changes nothing.
    Its answer is sorted; it holds the entries of
    [removed/<split>/images] that end in an allowed extension, whatever
    the case, and nothing when that is no directory; and every file that
    [restore_image] would accept under a plain name with such an
    extension is in it. *)
Theorem restore_list_lists (split : string) (w : World) :
  truthy (root (state w)) = true →
  let dir := rem_img_dir (root (state w)) split in
  ∃ listed,
    restore_list split w = (Ok listed, w)
    ∧ Sorted String.le listed
    ∧ (os.isdir (files w) dir = false → listed = [])
    ∧ (∀ f, f ∈ listed ↔
            ∃ entries, os.isdir (files w) dir = true
                       ∧ os.listdir (files w) dir = Ok entries ∧ f ∈ entries
                       ∧ Py.endswith_any (Py.lower f) ALLOWED_EXTS = true)
    ∧ (∀ filename,
         simple_name filename = true →
         os.isdir (files w) dir = true →
         os.isfile (files w) (dir +:+ "/" +:+ filename) = true →
         Py.endswith_any (Py.lower filename) ALLOWED_EXTS = true →
         filename ∈ listed).
Proof.
  intros Hr dir. rewrite restore_list_eq by done. fold dir.
  destruct (os.isdir (files w) dir) eqn:Hd.
  - destruct (listdir_isdir _ _ Hd) as (k & Hk & ->).
    eexists. split; [reflexivity|]. split; [apply Sorted_merge_sort; apply _|].
    split; [done|]. split.
    + intros f. rewrite merge_sort_Permutation, list_elem_of_filter. split.
      * intros [He Hin]. eexists. repeat split; try done. by apply Is_true_true.
      * intros (entries & _ & [= <-] & Hin & He). split; [|done].
        by apply Is_true_true.
    + intros filename Hname _ Hf Hext.
      rewrite merge_sort_Permutation, list_elem_of_filter.
      split; [by apply Is_true_true|].
      apply elem_of_elements, elem_of_children.
      apply isfile_stat in Hf as [d Hst].
      assert (dir ≠ "") as Hdne.
      { unfold dir, rem_img_dir. apply truthy_ne in Hr. by destruct (root (state w)). }
      rewrite (stat_resolve _ _ (k ++ [filename])) in Hst
        by by apply resolve_child.
      rewrite node_at_cons in Hst by by apply app_ne_nil_key. by rewrite Hst.
  - eexists. split; [reflexivity|]. split; [constructor|]. split; [done|].
    split; [|done]. intros f. split; [by intros ?%elem_of_nil|].
    by intros (? & ? & _).
Qed.

(** X23. Without a project ([state.root] empty) each of these endpoints
    answers 400 and changes nothing. *)
Theorem no_project_loaded (w : World) :
  truthy (root (state w)) = false →
  let refused {A} (r : res A * World) :=
    r = (Raise (HTTPException 400 "No project loaded"), w) in
  (∀ payload, refused (change_split payload w))
  ∧ refused (project_info w)
  ∧ (∀ image_path split, refused (get_labels image_path split w))
  ∧ (∀ req, refused (save_labels req w))
  ∧ (∀ req, refused (remove_image req w))
  ∧ (∀ split, refused (restore_list split w))
  ∧ (∀ req, refused (restore_image req w))
  ∧ (∀ req, refused (export_all req w)).
Proof.
  intros Hr refused. unfold refused.
  unfold change_split, project_info, get_labels, save_labels, remove_image,
    restore_list, restore_image, export_all.
  repeat split; intros; rewrite bind_eq; cbn [gets]; by rewrite Hr.
Qed.

End RestoreMore.

(* ================================================================== *)
(** * The fields of a label line *)

Module CodecMore.
Import Numerals NumeralsFacts RoundingFacts TextFacts CodecFacts.
Import Binary64 Binary64Facts AxisFacts.

Section WithExtern.

Context `{Extern float64}.

(** What [to_yolo] computes for dimensions that are not zero and below
    2^53. *)
Lemma to_yolo_eq (a1 b1 a2 b2 : float64) (w h : Z) :
  (0 < w < 2 ^ 53)%Z → (0 < h < 2 ^ 53)%Z →
  to_yolo a1 b1 a2 b2 w h
  = Ok (div (div (add a1 a2) (of_Z 2)) (of_Z w),
        div (div (add b1 b2) (of_Z 2)) (of_Z h),
        div (sub a2 a1) (of_Z w),
        div (sub b2 b1) (of_Z h)).
Proof.
  intros Hw Hh.
  assert (of_int 2 = Ok (of_Z 2)) as H2 by (by apply of_int_exact).
  assert (of_int w = Ok (of_Z w)) as HWi by (apply of_int_exact; lia).
  assert (of_int h = Ok (of_Z h)) as HHi by (apply of_int_exact; lia).
  assert ((w =? 0)%Z = false) as Hw0 by lia.
  assert ((h =? 0)%Z = false) as Hh0 by lia.
  unfold to_yolo, div_int. cbn [float_of_int binary64].
  by rewrite H2, HWi, HHi, Hw0, Hh0.
Qed.

(** X24. The normalised fields, in double precision: for a rectangle
    whose fields are numbers of the format with coordinates of magnitude
    at most 2^1000, and dimensions that are positive and below 2^53, the
    line written splits into five fields that [float] accepts; the class
    field reads back as [int(cid)], and each of the four others as a
    finite number within 0.5 * 10^-6 + 2^-53 * (|v| + 1) of the centre
    or size [v] that [to_yolo] computed and that was printed. *)
Theorem label_line_fields_close (a1 b1 a2 b2 c : float64) (w h : Z)
    (line : string) :
  saveable [a1; b1; a2; b2; c] →
  (0 < w < 2 ^ 53)%Z → (0 < h < 2 ^ 53)%Z →
  encode_rect [a1; b1; a2; b2; c] w h = Ok line →
  ∃ cx cy bw bh t0 t1 t2 t3 t4 n cx' cy' bw' bh',
    to_yolo a1 b1 a2 b2 w h = Ok (cx, cy, bw, bh)
    ∧ Unicode.split (Unicode.of_string line)
      = map Unicode.of_string [t0; t1; t2; t3; t4]
    ∧ float_of_text (Unicode.of_string t0) = Some n ∧ to_int n = to_int c
    ∧ float_of_text (Unicode.of_string t1) = Some cx'
    ∧ float_of_text (Unicode.of_string t2) = Some cy'
    ∧ float_of_text (Unicode.of_string t3) = Some bw'
    ∧ float_of_text (Unicode.of_string t4) = Some bh'
    ∧ Forall (fun x => is_finite x = true) [cx'; cy'; bw'; bh']
    ∧ near (field_eps (value cx)) (value cx') (value cx)
    ∧ near (field_eps (value cy)) (value cy') (value cy)
    ∧ near (field_eps (value bw)) (value bw') (value bw)
    ∧ near (field_eps (value bh)) (value bh') (value bh).
Proof.
  intros (Ha1 & Hb1 & Ha2 & Hb2 & Hc) Hw Hh.
  apply moderate_fin in Ha1 as [Ha1 Hva1], Hb1 as [Hb1 Hvb1],
    Ha2 as [Ha2 Hva2], Hb2 as [Hb2 Hvb2].
  destruct (axis_fields a1 a2 w Ha1 Ha2 Hva1 Hva2 Hw)
    as (Hcx & Hbw & cx' & bw' & Hpcx & Hpbw & Hfx & Hxe & Hfw & Hwe).
  destruct (axis_fields b1 b2 h Hb1 Hb2 Hvb1 Hvb2 Hh)
    as (Hcy & Hbh & cy' & bh' & Hpcy & Hpbh & Hfy & Hye & Hfh & Hhe).
  unfold encode_rect. rewrite to_yolo_eq by done.
  cbn [mbind res_bind format_6f int_of_float binary64].
  destruct (to_int c) as [n|e] eqn:Hn; [|done]. intros [= <-].
  destruct (of_str_class c n Hc Hn) as (xn & Hpn & Hxn).
  set (cx := div (div (add a1 a2) (of_Z 2)) (of_Z w)) in *.
  set (bw := div (sub a2 a1) (of_Z w)) in *.
  set (cy := div (div (add b1 b2) (of_Z 2)) (of_Z h)) in *.
  set (bh := div (sub b2 b1) (of_Z h)) in *.
  assert (Forall (fun t => plain is_numeral_ascii t = true ∧ t ≠ "")
            [str_of_int n; str_6f cx; str_6f cy; str_6f bw; str_6f bh]) as Htok.
  { repeat constructor; apply numeral_str_of_int || by apply numeral_str_6f. }
  exists cx, cy, bw, bh, (str_of_int n), (str_6f cx), (str_6f cy),
    (str_6f bw), (str_6f bh), xn, cx', cy', bw', bh'.
  split; [done|]. split; [by apply split_line|].
  repeat (apply Forall_cons in Htok as [[? ?] Htok]).
  rewrite !float_of_text_numeral by done.
  cbn [float_of_str binary64].
  repeat split; try done.
  repeat constructor; by apply fin_is_finite.
Qed.

End WithExtern.

End CodecMore.

(* ================================================================== *)
(** * Detection: the choice of the model and the cache *)

Section DetectFacts.

Context {F Model : Type} `{Detector F Model}.

(** X26. [detect] refuses, and leaves the cache as it is: with 400 when the
    detector is not installed, whatever the request; else with 404 when
    the image is no regular file, whatever the model; else with 404 when
    the model is given as a path (it has a slash or a backslash) that
    names no regular file. *)
Theorem detect_refuses (fs : FS) (model_library : list string)
    (req : DetectReq F) (cache : gmap string Model) :
  let img := norm fs (detect_image_path req) in
  let raw_model := Py.strip (detect_model_path req) in
  (HAS_YOLO = false →
   detect fs model_library req cache
   = (Raise (HTTPException 400 "ultralytics not installed"), cache))
  ∧ (HAS_YOLO = true → os.isfile fs img = false →
     detect fs model_library req cache
     = (Raise (HTTPException 404 "Image not found"), cache))
  ∧ (HAS_YOLO = true → os.isfile fs img = true →
     Py.contains_char Py.slash raw_model = true
     ∨ Py.contains_char Py.backslash raw_model = true →
     os.isfile fs (norm fs raw_model) = false →
     detect fs model_library req cache
     = (Raise (HTTPException 404 "Model not found"), cache)).
Proof.
  intros img raw_model. unfold detect. fold img. fold raw_model.
  split; [by intros ->|]. split; [by intros -> ->|].
  intros -> -> Hsep Hnf. cbn [negb]. rewrite bind_eq. unfold lift_res.
  assert (raw_model ≠ "") as Hne.
  { intros E. rewrite E in Hsep. by destruct Hsep. }
  apply String.eqb_neq in Hne. unfold detect_model_id. rewrite Hne. cbn [negb].
  rewrite Hnf. cbn [andb].
  by destruct Hsep as [-> | ->]; rewrite ?andb_false_r.
Qed.

Lemma detect_boxes_cls cls results :
  Forall (fun o : Rect F => cid o = cls) (detect_boxes cls results).
Proof.
  unfold detect_boxes. apply Forall_forall. intros o Hin.
  apply list_elem_of_In, in_flat_map in Hin as (r & _ & Hin).
  destruct r as [boxes|]; [|done].
  apply in_map_iff in Hin as ([[[b0 b1] b2] b3] & <- & _). done.
Qed.

(** X27. When [detect] returns: the model is the normalised path when the
    stripped model path names a regular file, else the name as given when
    it has neither slash nor backslash, else (no model given) the first
    model of the library, or [yolo26m.pt] when the library is empty; the
    model is in the cache afterwards and no other entry of the cache has
    changed; a model that was cached is used as it is, without a call of
    the constructor; and every rectangle carries the class of the
    request. *)
Theorem detect_returns (fs : FS) (model_library : list string)
    (req : DetectReq F) (cache cache' : gmap string Model)
    (resp : DetectResp F) :
  detect fs model_library req cache = (Ok resp, cache') →
  let img := norm fs (detect_image_path req) in
  let raw_model := Py.strip (detect_model_path req) in
  let model_id := detect_model resp in
  HAS_YOLO = true ∧ os.isfile fs img = true
  ∧ (raw_model ≠ "" → os.isfile fs (norm fs raw_model) = true →
     model_id = norm fs raw_model)
  ∧ (raw_model ≠ "" → os.isfile fs (norm fs raw_model) = false →
     model_id = raw_model
     ∧ Py.contains_char Py.slash raw_model = false
     ∧ Py.contains_char Py.backslash raw_model = false)
  ∧ (raw_model = "" →
     model_id = match model_library with m :: _ => m | [] => "yolo26m.pt" end)
  ∧ (∃ model results,
       cache' !! model_id = Some model
       ∧ predict model img (detect_conf req) = Ok results
       ∧ detect_rects resp = detect_boxes (detect_cls req) results
       ∧ (cache !! model_id = None → YOLO model_id = Ok model)
       ∧ (∀ cached, cache !! model_id = Some cached →
                    model = cached ∧ cache' = cache))
  ∧ (∀ k, k ≠ model_id → cache' !! k = cache !! k)
  ∧ Forall (fun o => cid o = detect_cls req) (detect_rects resp).
Proof.
  unfold detect. destruct HAS_YOLO; [|done]. cbn [negb].
  set (img := norm fs (detect_image_path req)).
  set (raw_model := Py.strip (detect_model_path req)).
  destruct (os.isfile fs img) eqn:Himg; [|done]. cbn [negb].
  rewrite bind_eq. unfold lift_res at 1.
  destruct (detect_model_id fs model_library raw_model _) as [mid|e] eqn:Hid;
    [|done].
  rewrite bind_eq. cbn [gets id].
  intros Hrun. cbn zeta.
  assert (∃ model results,
            detect_model resp = mid
            ∧ cache' !! mid = Some model
            ∧ predict model img (detect_conf req) = Ok results
            ∧ detect_rects resp = detect_boxes (detect_cls req) results
            ∧ (cache !! mid = None → YOLO mid = Ok model)
            ∧ (∀ cached, cache !! mid = Some cached → model = cached ∧ cache' = cache)
            ∧ (∀ k, k ≠ mid → cache' !! k = cache !! k)) as Hmain.
  { rewrite bind_eq in Hrun. destruct (cache !! mid) as [cached|] eqn:Hc.
    - cbn in Hrun. rewrite bind_eq in Hrun. unfold lift_res in Hrun.
      destruct (predict cached img (detect_conf req)) as [results|] eqn:Hp;
        [|done].
      injection Hrun as <- <-. exists cached, results.
      repeat split; try done; congruence.
    - rewrite bind_eq in Hrun. unfold lift_res at 1 in Hrun.
      destruct (YOLO mid) as [model|] eqn:Hy; [|done].
      cbn in Hrun. rewrite !bind_eq in Hrun. cbn [modify] in Hrun.
      unfold mret, M_ret, lift_res in Hrun.
      destruct (predict model img (detect_conf req)) as [results|] eqn:Hp;
        [|done].
      injection Hrun as <- <-. exists model, results.
      repeat split; try done.
      + apply lookup_insert_eq.
      + intros k Hk. by apply lookup_insert_ne. }
  destruct Hmain as (model & results & Hm & Hc' & Hp & Hrects & Hnew & Hold & Hoth).
  rewrite Hm. split; [done|]. split; [done|].
  unfold detect_model_id in Hid.
  split; [|split; [|split; [|split; [|split]]]].
  - intros Hne Hf. apply String.eqb_neq in Hne. rewrite Hne in Hid.
    cbn [negb] in Hid. rewrite Hf in Hid.
    assert (norm fs raw_model ≠ "") as Hn by apply norm_nonempty.
    apply String.eqb_neq in Hn. rewrite Hn in Hid. cbn in Hid. congruence.
  - intros Hne Hf. apply String.eqb_neq in Hne. rewrite Hne in Hid.
    cbn [negb] in Hid. rewrite Hf, andb_false_r in Hid. cbn [andb] in Hid.
    destruct (Py.contains_char Py.slash raw_model),
      (Py.contains_char Py.backslash raw_model); cbn in Hid; try done.
    by injection Hid as <-.
  - intros E. rewrite E in Hid. cbn in Hid. congruence.
  - exists model, results. split; [done|]. split; [done|]. split; [done|].
    split; [done|]. exact Hold.
  - done.
  - rewrite Hrects. apply detect_boxes_cls.
Qed.

End DetectFacts.

(* ================================================================== *)
(** * Removing an image that has a label *)

Section RemoveLabel.

Context {F : Type} `{Extern F}.

(** X28. Removing an image of split [s] that has a [.txt] label, when the
    removed area can take the files: the call returns, the image is in
    [removed/<s>/images] and the label in [removed/<s>/labels], each with
    its content, and neither is at its old path any more. *)
Theorem remove_image_moves_label (w : World) (s filename di dl : string) :
  let fs := files w in
  let rootp := root (state w) in
  let img := images_dir rootp s +:+ "/" +:+ filename in
  let base := fst (posixpath.splitext filename) in
  let lbl := labels_dir rootp s +:+ "/" +:+ base +:+ ".txt" in
  truthy rootp = true →
  simple_name s = true →
  simple_name filename = true →
  norm fs img = img →
  os.stat fs img = Some (File di) →
  os.stat fs lbl = Some (File dl) →
  can_remove fs rootp s img = true →
  ∃ r1 w1,
    remove_image (mkRemoveReq img s) w = (Ok r1, w1)
    ∧ move_filename r1 = filename
    ∧ os.stat (files w1) (rem_img_dir rootp s +:+ "/" +:+ filename)
      = Some (File di)
    ∧ os.stat (files w1) (rem_lbl_dir rootp s +:+ "/" +:+ base +:+ ".txt")
      = Some (File dl)
    ∧ os.exists_ (files w1) img = false
    ∧ os.exists_ (files w1) lbl = false.
Proof.
  intros fs rootp img base lbl Hr Hs Hname Hnorm Himg Hlbl Hcan.
  pose proof Hr as Hr'. apply truthy_ne in Hr'.
  destruct (resolve_is_Some fs rootp Hr') as [kr Hkr].
  pose proof (simple_name_no_slash _ Hname) as Hns.
  pose proof (splitext_no_slash _ Hns) as Hbs. fold base in Hbs.
  pose proof (resolve_images_dir fs rootp s kr Hr' Hkr Hs) as HKi.
  pose proof (resolve_labels_dir fs rootp s kr Hr' Hkr Hs) as HKl.
  pose proof (resolve_rem_img_dir fs rootp s kr Hr' Hkr Hs) as HK1.
  pose proof (resolve_rem_lbl_dir fs rootp s kr Hr' Hkr Hs) as HK2.
  assert (posixpath.basename img = filename) as Hbase by by apply basename_child.
  (* the keys of the paths, in any tree on the same working directory *)
  assert (∀ T dir K name, dir ≠ "" → os.resolve fs dir = Some K →
            simple_name name = true →
            os.stat (set_tree fs T) (dir +:+ "/" +:+ name) = T !! (K ++ [name]))
    as Hstat.
  { intros T dir K name Hd HK Hn.
    rewrite (stat_resolve _ _ (K ++ [name])).
    - apply node_at_set_tree. by apply app_ne_nil_key.
    - by apply resolve_child. }
  assert (∀ T dir K, os.resolve fs dir = Some K → K ≠ [] →
            os.stat (set_tree fs T) dir = T !! K) as Hstatd.
  { intros T dir K HK Hne. rewrite (stat_resolve _ _ K) by done.
    by apply node_at_set_tree. }
  assert (simple_name (base +:+ ".txt") = true) as Hntxt
    by (apply simple_label_name; auto).
  assert (simple_name (base +:+ ".json") = true) as Hnjson
    by (apply simple_label_name; auto).
  assert (images_dir rootp s ≠ "") as Hne_i by by apply app_ne_nil_s.
  assert (labels_dir rootp s ≠ "") as Hne_l by by apply app_ne_nil_s.
  assert (rem_img_dir rootp s ≠ "") as Hne_1 by by apply app_ne_nil_s.
  assert (rem_lbl_dir rootp s ≠ "") as Hne_2 by by apply app_ne_nil_s.
  set (t := tree fs).
  assert (fs = set_tree fs t) as Hfs by (symmetry; apply set_tree_id).
  (* the tree before *)
  assert (t !! (kr ++ ["images"; s; filename]) = Some (File di)) as Hti.
  { rewrite Hfs in Himg. unfold img in Himg.
    rewrite (Hstat t _ _ _ Hne_i HKi Hname) in Himg.
    by rewrite <- app_assoc in Himg. }
  assert (t !! (kr ++ ["labels"; s; base +:+ ".txt"]) = Some (File dl)) as Htl.
  { rewrite Hfs in Hlbl. unfold lbl in Hlbl.
    rewrite (Hstat t _ _ _ Hne_l HKl Hntxt) in Hlbl.
    by rewrite <- app_assoc in Hlbl. }
  assert (os.resolve fs img = Some (kr ++ ["images"; s; filename])) as Hki.
  { unfold img. rewrite (resolve_child fs _ filename _ Hne_i Hname HKi).
    by rewrite <- app_assoc. }
  (* remove *)
  pose proof (remove_files_run fs rootp s kr Hr' Hkr Hs img
                (kr ++ ["images"; s; filename]) di) as Hrun1.
  rewrite Hbase in Hrun1. specialize (Hrun1 Hname Hki).
  rewrite node_at_cons in Hrun1 by by apply app_ne_nil_key.
  specialize (Hrun1 Hti Hcan).
  set (T1 := transferred (kr ++ ["images"; s; filename])
               (kr ++ ["removed"; s; "images"]) (kr ++ ["labels"; s])
               (kr ++ ["removed"; s; "labels"]) filename t) in *.
  assert (os.mkdirs (kr ++ ["removed"; s; "labels"])
            (os.mkdirs (kr ++ ["removed"; s; "images"]) t)
          !! (kr ++ ["images"; s; filename]) = Some (File di)) as HM1i.
  { by lookup_other. }
  assert (T1 !! (kr ++ ["removed"; s; "images"; filename]) = Some (File di)) as HT1a.
  { unfold T1, transferred. fold base. rewrite <- !app_assoc. cbn [app].
    lookup_other. by rewrite lookup_move_key_dst, HM1i. }
  assert (T1 !! (kr ++ ["images"; s; filename]) = None) as HT1b.
  { unfold T1, transferred. fold base. rewrite <- !app_assoc. cbn [app].
    lookup_other. rewrite lookup_move_key_src, HM1i; [done|key_ne]. }
  assert (T1 !! (kr ++ ["removed"; s; "labels"; base +:+ ".txt"]) = Some (File dl))
    as HT1c.
  { unfold T1, transferred. fold base. rewrite <- !app_assoc. cbn [app].
    lookup_other. rewrite lookup_move_key_dst. lookup_other. by rewrite Htl. }
  assert (T1 !! (kr ++ ["labels"; s; base +:+ ".txt"]) = None) as HT1d.
  { unfold T1, transferred. fold base. rewrite <- !app_assoc. cbn [app].
    lookup_other. rewrite lookup_move_key_src by key_ne. lookup_other.
    by rewrite Htl. }
  set (w0 := mkWorld (state w) (class_names w) (set_tree fs T1)).
  set (w1 := snd (refresh_images s w0)).
  assert (remove_image (mkRemoveReq img s) w
          = (Ok (mkMoveResp (images (state w1)) filename), w1)) as Hrem.
  { rewrite remove_image_eq; cbn [remove_image_path remove_split];
      fold fs rootp; rewrite ?Hnorm; [|done|by apply isfile_stat; eauto].
    by rewrite Hrun1, Hbase. }
  assert (files w1 = set_tree fs T1) as Hf1 by apply files_refresh.
  exists (mkMoveResp (images (state w1)) filename), w1.
  split; [done|]. split; [done|]. rewrite Hf1. unfold os.exists_.
  rewrite (Hstat T1 _ _ _ Hne_1 HK1 Hname).
  rewrite (Hstat T1 _ _ _ Hne_2 HK2 Hntxt).
  unfold img, lbl.
  rewrite (Hstat T1 _ _ _ Hne_i HKi Hname).
  rewrite (Hstat T1 _ _ _ Hne_l HKl Hntxt).
  rewrite <- !app_assoc. cbn [app].
  by rewrite HT1a, HT1b, HT1c, HT1d.
Qed.

End RemoveLabel.
(* ================================================================== *)
(** * The further statements at the sample disks *)

Lemma yolo_root_sound_witness :
  "/data" ≠ ""
  ∧ ∃ s, s ∈ SPLITS ∧ os.isdir Sample.fs ("/data" +:+ "/images/" +:+ s) = true.
Proof.
  apply (yolo_root_sound Sample.fs "/data/images/train" "/data").
  vm_compute. reflexivity.
Defined.

Lemma yolo_root_first_candidate_witness :
  yolo_root Sample.fs "/data/images"
  = find (ok Sample.fs) (yolo_candidates Sample.fs "/data/images").
Proof.
  apply yolo_root_first_candidate. vm_compute. discriminate.
Defined.

Lemma yolo_root_parent_witness :
  yolo_root Sample.fs "/data/images" = Some "/data".
Proof.
  assert (Py.rstrip Py.slash (norm Sample.fs "/data/images") ≠ "") as H1
    by (vm_compute; discriminate).
  assert (ok Sample.fs (Py.rstrip Py.slash (norm Sample.fs "/data/images")) = false)
    as H2 by (vm_compute; reflexivity).
  assert (ok Sample.fs
            (norm Sample.fs
               (posixpath.dirname
                  (Py.rstrip Py.slash (norm Sample.fs "/data/images")))) = true)
    as H3 by (vm_compute; reflexivity).
  exact (yolo_root_parent Sample.fs "/data/images" H1 H2 H3).
Defined.

Lemma norm_idempotent_witness :
  norm Sample.fs (norm Sample.fs "/data/./images/../labels//train/")
  = norm Sample.fs "/data/./images/../labels//train/".
Proof.
  apply (norm_idempotent Sample.fs "/data/./images/../labels//train/");
    vm_compute; reflexivity.
Defined.

Lemma list_images_spec_witness :
  Sorted String.le (@list_images Binary64.float64 Sample.ext Disk.fs ("" +:+ "/" +:+ "flat"))
  ∧ ("/flat/d.PNG" ∈ @list_images Binary64.float64 Sample.ext Disk.fs ("" +:+ "/" +:+ "flat") ↔
     ∃ entries n,
       os.listdir Disk.fs ("" +:+ "/" +:+ "flat") = Ok entries ∧ n ∈ entries
       ∧ "/flat/d.PNG" = posixpath.join ("" +:+ "/" +:+ "flat") n
       ∧ glob.is_hidden n = false
       ∧ Py.contains_char Py.dot n = true
       ∧ Py.endswith_any (Py.lower "/flat/d.PNG") ALLOWED_EXTS = true).
Proof.
  assert (simple_name "flat" = true) as H1 by (vm_compute; reflexivity).
  assert (glob.has_magic ("" +:+ "/" +:+ "flat") = false) as H2
    by (vm_compute; reflexivity).
  exact (@list_images_spec Binary64.float64 Sample.ext Disk.fs "" "flat" "/flat/d.PNG" H1 H2).
Defined.

Lemma ensure_labels_makes_label_dirs_witness :
  os.isdir Disk.fs "/proj/labels/val" = false
  ∧ os.isdir (snd (ensure_labels "/proj" Disk.fs)) ("/proj" +:+ "/labels/" +:+ "val")
    = true.
Proof.
  split; [vm_compute; reflexivity|].
  refine (proj2 (proj2 (proj2 (ensure_labels_makes_label_dirs "/proj" Disk.fs)))
            _ "val" _ _).
  - vm_compute. reflexivity.
  - repeat constructor.
  - vm_compute. reflexivity.
Defined.

Lemma open_project_folder_not_found_witness :
  @open_project Binary64.float64 Sample.ext (mkOpenProjectReq "/nowhere" "yolo") Disk.unloaded
  = (Raise (HTTPException 400 "Folder not found"), Disk.unloaded).
Proof.
  refine (proj1 (@open_project_folder_not_found Binary64.float64 Sample.ext
                   (mkOpenProjectReq "/nowhere" "yolo") Disk.unloaded) _).
  vm_compute. reflexivity.
Defined.

Lemma open_project_flat_folder_witness :
  let w' := snd Disk.flat_opened in
  let rootp := root (state w') in
  rootp = pick_root (files Disk.unloaded) (open_mode Disk.flat_req)
            (norm (files Disk.unloaded) (open_path Disk.flat_req))
  ∧ mode (state w') = open_mode Disk.flat_req
  ∧ split (state w') = "train"
  ∧ images (state w') = @list_images Binary64.float64 Sample.ext (files Disk.unloaded) rootp
  ∧ Disk.flat_resp
    = mkOpenProjectResp rootp (open_mode Disk.flat_req) "train"
        (images (state w')) (length (images (state w')))
        (class_names Disk.unloaded)
  ∧ os.isdir (files w') (rootp +:+ "/labels/train") = true.
Proof.
  intros w'.
  refine (@open_project_flat_folder Binary64.float64 Sample.ext Disk.flat_req Disk.unloaded
            w' Disk.flat_resp _ _);
    vm_compute; reflexivity.
Defined.

Lemma change_split_behaviour_witness :
  ∃ resp w',
    @change_split Binary64.float64 Sample.ext {[ "split" := "val" ]} Disk.loaded = (Ok resp, w')
    ∧ files w' = Disk.fs
    ∧ split (state w') = "val" ∧ images (state w') = []
    ∧ split_split resp = "val" ∧ split_images resp = [].
Proof.
  assert (truthy (root (state Disk.loaded)) = true) as Hr
    by (vm_compute; reflexivity).
  destruct (@change_split_behaviour Binary64.float64 Sample.ext {[ "split" := "val" ]}
              Disk.loaded Hr)
    as (resp & w' & Hrun & Hf & _ & _ & _ & Hs & Hi & _ & Hrs & Hri & _).
  exists resp, w'. split; [exact Hrun|]. split; [exact Hf|].
  split; [rewrite Hs; vm_compute; reflexivity|].
  split; [rewrite Hi; vm_compute; reflexivity|].
  split; [rewrite Hrs, Hs; vm_compute; reflexivity|].
  rewrite Hri, Hi. vm_compute. reflexivity.
Defined.

Lemma change_split_after_open_witness :
  @change_split Binary64.float64 Sample.ext {[ "split" := split (state (snd Sample.opened)) ]}
    (snd Sample.opened)
  = (Ok (mkSplitResp (resp_split Sample.open_resp) (resp_images Sample.open_resp)),
     snd Sample.opened).
Proof.
  refine (@change_split_after_open Binary64.float64 Sample.ext Sample.open_req Sample.unloaded
            (snd Sample.opened) Sample.open_resp _ _);
    vm_compute; reflexivity.
Defined.

Lemma project_info_after_open_witness :
  ∃ info,
    project_info (snd Sample.opened) = (Ok info, snd Sample.opened)
    ∧ info_root info = resp_root Sample.open_resp
    ∧ info_mode info = resp_mode Sample.open_resp
    ∧ info_split info = resp_split Sample.open_resp
    ∧ info_count info = resp_count Sample.open_resp
    ∧ info_class_names info = resp_class_names Sample.open_resp
    ∧ (info_splits info ≠ [] → info_split info ∈ info_splits info).
Proof.
  refine (@project_info_after_open Binary64.float64 Sample.ext Sample.open_req Sample.unloaded
            (snd Sample.opened) Sample.open_resp _).
  vm_compute. reflexivity.
Defined.

Lemma set_classes_strips_witness :
  let w' := mkWorld (state Disk.loaded) ["cat"; "dog"] Disk.fs in
  class_names w' = ["cat"; "dog"]
  ∧ set_classes (mkClassesReq ["cat"; "dog"]) w' = (Ok ["cat"; "dog"], w').
Proof.
  intros w'.
  assert (set_classes (mkClassesReq [" cat "; "  "; "dog"]) Disk.loaded
          = (Ok ["cat"; "dog"], w')) as Hrun by (vm_compute; reflexivity).
  destruct (set_classes_strips _ _ _ _ Hrun)
    as (H1 & _ & _ & _ & _ & _ & _ & H7).
  split; [exact H1|exact H7].
Defined.

Lemma import_model_adds_once_witness :
  let lib' := Disk.model_library ++ ["/models/best.pt"] in
  NoDup lib'
  ∧ import_model Disk.fs {[ "path" := "/models/best.pt" ]} lib'
    = (Ok (mkImportResp lib' "/models/best.pt"), lib').
Proof.
  intros lib'.
  assert (import_model Disk.fs {[ "path" := "/models/best.pt" ]} Disk.model_library
          = (Ok (mkImportResp lib' "/models/best.pt"), lib')) as Hrun
    by (vm_compute; reflexivity).
  destruct (import_model_adds_once _ _ _ _ _ Hrun) as (_ & _ & _ & _ & _ & H6 & H7).
  split; [|exact H7]. apply H6.
  unfold Disk.model_library. apply NoDup_cons. split; [|apply NoDup_singleton].
  intros Hin%list_elem_of_singleton. discriminate Hin.
Defined.

Lemma import_model_refuses_witness :
  import_model Disk.fs ∅ Disk.model_library
  = (Raise (HTTPException 400 "Model file not found"), Disk.model_library).
Proof.
  refine (proj2 (proj2 (import_model_refuses Disk.fs ∅ Disk.model_library))
            _ _ _ _); vm_compute; reflexivity.
Defined.

Lemma save_yolo_labels_bad_rects_keep_files_witness :
  let r := @save_yolo_labels Binary64.float64 Binary64.binary64 "/data/labels/train/a.txt"
             [[Binary64.of_Z 1; Binary64.of_Z 2; Binary64.of_Z 3]] 640 480 Sample.fs in
  is_ok (fst r) = false
  ∧ (∀ K d, tree (snd r) !! K = Some (File d)
            ↔ tree Sample.fs !! K = Some (File d)).
Proof.
  refine (@save_yolo_labels_bad_rects_keep_files Binary64.float64 Binary64.binary64
            "/data/labels/train/a.txt" [[Binary64.of_Z 1; Binary64.of_Z 2; Binary64.of_Z 3]] 640 480 Sample.fs _ _).
  - discriminate.
  - left. constructor. simpl. lia.
Defined.

Lemma save_labels_then_get_labels_witness :
  ∃ resp,
    @get_labels Binary64.float64 Binary64.binary64 Sample.ext (save_image_path Disk.save_req)
      (save_split Disk.save_req) (snd Disk.labels_saved)
    = (Ok resp, snd Disk.labels_saved)
    ∧ labels_width resp = 640%Z ∧ labels_height resp = 480%Z
    ∧ Forall2 (round_trip_close 640 480) (save_rects Disk.save_req)
              (labels_rects resp)
    ∧ has_label_file resp = negb (bool_decide (save_rects Disk.save_req = [])).
Proof.
  refine (@LabelRoundTrip.save_labels_then_get_labels Sample.ext Disk.save_req
            Sample.world (snd Disk.labels_saved) "JPEG" 640 480 _ _ _ _ _ _ _).
  - lia.
  - lia.
  - repeat constructor; vm_compute; congruence.
  - vm_compute. reflexivity.
  - vm_compute. reflexivity.
  - vm_compute. discriminate.
  - vm_compute. reflexivity.
Defined.

Lemma restore_image_not_found_witness :
  @restore_image Binary64.float64 Sample.ext (mkRestoreReq "train" "nope.jpg") Disk.loaded
  = (Raise (HTTPException 404 "Removed file not found"), Disk.loaded).
Proof.
  assert (truthy (root (state Disk.loaded)) = true) as Hr
    by (vm_compute; reflexivity).
  refine (proj1 (@restore_image_not_found Binary64.float64 Sample.ext
                   (mkRestoreReq "train" "nope.jpg") Disk.loaded Hr) _).
  vm_compute. reflexivity.
Defined.

Lemma restore_list_lists_witness :
  ∃ listed,
    restore_list "train" Disk.loaded = (Ok listed, Disk.loaded)
    ∧ "z.jpg" ∈ listed.
Proof.
  assert (truthy (root (state Disk.loaded)) = true) as Hr
    by (vm_compute; reflexivity).
  destruct (restore_list_lists "train" Disk.loaded Hr)
    as (listed & Hrun & _ & _ & _ & Hin).
  exists listed. split; [exact Hrun|].
  apply Hin; vm_compute; reflexivity.
Defined.

Lemma no_project_loaded_witness :
  project_info Disk.unloaded
  = (Raise (HTTPException 400 "No project loaded"), Disk.unloaded)
  ∧ ∀ req, @export_all Binary64.float64 Binary64.binary64 Sample.ext req Disk.unloaded
           = (Raise (HTTPException 400 "No project loaded"), Disk.unloaded).
Proof.
  assert (truthy (root (state Disk.unloaded)) = false) as Hr
    by (vm_compute; reflexivity).
  destruct (@no_project_loaded Binary64.float64 Binary64.binary64 Sample.ext Disk.unloaded Hr)
    as (_ & Hinfo & _ & _ & _ & _ & _ & Hexport).
  split; [exact Hinfo|exact Hexport].
Defined.

Lemma label_line_fields_close_witness :
  ∃ cx cy bw bh t0 t1 t2 t3 t4 n cx' cy' bw' bh',
    @to_yolo Binary64.float64 Binary64.binary64
      (Binary64.Finite false 17 (-1)) (Binary64.Finite false 0 0)
      (Binary64.Finite false 267 (-1)) (Binary64.Finite false 0 0) 640 480
    = Ok (cx, cy, bw, bh)
    ∧ Unicode.split
        (Unicode.of_string
           ("0 0.110937 0.000000 0.195312 0.000000" +:+ String Py.LF ""))
      = map Unicode.of_string [t0; t1; t2; t3; t4]
    ∧ @float_of_text Binary64.float64 Binary64.binary64 Sample.ext
        (Unicode.of_string t0) = Some n
    ∧ Binary64.to_int n = Binary64.to_int (Binary64.Finite false 0 0)
    ∧ @float_of_text Binary64.float64 Binary64.binary64 Sample.ext
        (Unicode.of_string t1) = Some cx'
    ∧ @float_of_text Binary64.float64 Binary64.binary64 Sample.ext
        (Unicode.of_string t2) = Some cy'
    ∧ @float_of_text Binary64.float64 Binary64.binary64 Sample.ext
        (Unicode.of_string t3) = Some bw'
    ∧ @float_of_text Binary64.float64 Binary64.binary64 Sample.ext
        (Unicode.of_string t4) = Some bh'
    ∧ Forall (fun x => Binary64.is_finite x = true) [cx'; cy'; bw'; bh']
    ∧ near (field_eps (Binary64.value cx)) (Binary64.value cx') (Binary64.value cx)
    ∧ near (field_eps (Binary64.value cy)) (Binary64.value cy') (Binary64.value cy)
    ∧ near (field_eps (Binary64.value bw)) (Binary64.value bw') (Binary64.value bw)
    ∧ near (field_eps (Binary64.value bh)) (Binary64.value bh') (Binary64.value bh).
Proof.
  refine (@CodecMore.label_line_fields_close Sample.ext
            (Binary64.Finite false 17 (-1)) (Binary64.Finite false 0 0)
            (Binary64.Finite false 267 (-1)) (Binary64.Finite false 0 0)
            (Binary64.Finite false 0 0) 640 480 _ _ _ _ _).
  - vm_compute. repeat split; congruence.
  - lia.
  - lia.
  - vm_compute. reflexivity.
Defined.


Lemma detect_refuses_witness :
  @detect Binary64.float64 string Disk.detector Disk.fs Disk.model_library
    (mkDetectReq "/proj/images/train/a.jpg" "/models/missing.pt" (Binary64.Finite false 1 (-1)) 7) ∅
  = (Raise (HTTPException 404 "Model not found"), ∅).
Proof.
  refine (proj2 (proj2 (@detect_refuses Binary64.float64 string Disk.detector Disk.fs
                          Disk.model_library
                          (mkDetectReq "/proj/images/train/a.jpg"
                                       "/models/missing.pt" (Binary64.Finite false 1 (-1)) 7) ∅))
            _ _ _ _).
  - reflexivity.
  - vm_compute. reflexivity.
  - left. vm_compute. reflexivity.
  - vm_compute. reflexivity.
Defined.

Lemma detect_returns_witness :
  detect_model Disk.detect_resp = "yolo26n.pt"
  ∧ Forall (fun o => cid o = 7%Z) (detect_rects Disk.detect_resp).
Proof.
  assert (@detect Binary64.float64 string Disk.detector Disk.fs Disk.model_library
            Disk.detect_req ∅ = (Ok Disk.detect_resp, snd Disk.detected)) as Hrun
    by (vm_compute; reflexivity).
  destruct (@detect_returns Binary64.float64 string Disk.detector _ _ _ _ _ _ Hrun)
    as (_ & _ & _ & Hname & _ & _ & _ & Hcls).
  split; [|exact Hcls].
  refine (proj1 (Hname _ _)).
  - vm_compute. discriminate.
  - vm_compute. reflexivity.
Defined.

Lemma remove_image_moves_label_witness :
  ∃ r1 w1,
    @remove_image Binary64.float64 Sample.ext
      (mkRemoveReq (images_dir "/data" "train" +:+ "/" +:+ "a.jpg") "train")
      Sample.world = (Ok r1, w1)
    ∧ move_filename r1 = "a.jpg"
    ∧ os.stat (files w1) (rem_img_dir "/data" "train" +:+ "/" +:+ "a.jpg")
      = Some (File "JPEG")
    ∧ os.stat (files w1)
        (rem_lbl_dir "/data" "train" +:+ "/"
         +:+ fst (posixpath.splitext "a.jpg") +:+ ".txt")
      = Some (File Sample.label_text)
    ∧ os.exists_ (files w1) (images_dir "/data" "train" +:+ "/" +:+ "a.jpg")
      = false
    ∧ os.exists_ (files w1)
        (labels_dir "/data" "train" +:+ "/"
         +:+ fst (posixpath.splitext "a.jpg") +:+ ".txt")
      = false.
Proof.
  refine (@remove_image_moves_label Binary64.float64 Sample.ext Sample.world "train" "a.jpg"
            "JPEG" Sample.label_text _ _ _ _ _ _ _);
    vm_compute; reflexivity.
Defined.
